(** * Template indexing pipeline: embedding text, vector index and metadata store

    A shallow embedding of [scripts/generate_embeddings.py],
    [scripts/process_existing_templates.py] and the metadata checks of
    [scripts/validate_template.py], together with the properties of the
    indexing pipeline that are established (or refuted) on it.

    Layout:
    - [Py]: the fragment of the Python runtime the scripts rely on
      (JSON values, dictionaries, exceptions, the builtins used);
    - [Aws]: the world the scripts act on (file system, object store,
      document store, clock, log) and the state-and-exception monad;
    - [Os]: the calls through which a script reaches that world;
    - [GenerateEmbeddings], [ProcessExisting], [ValidateTemplate]: the
      three scripts, one module each;
    - [Hoare], [Examples], [Spec]: what the statements are written with
      (outcomes of one run and of two runs side by side, concrete
      checkouts and hosts, the predicates of the properties);
    - the rules for stepping through computations, and the theorems,
      grouped by component. *)

From Stdlib Require Import ZArith QArith String Ascii List Bool Lia.
From stdpp Require Import base option gmap strings list pretty.

Set Warnings "-register-all".

Local Open Scope string_scope.
Local Open Scope Z_scope.

(* ===================================================================== *)
(** * The Python fragment                                                 *)
(* ===================================================================== *)

Module Py.

(** Values produced by [json.load] / consumed by [json.dumps].  A Python
    [str] is a sequence of characters; floating point payloads are never
    computed with by the scripts and are carried as rationals. *)
Inductive json : Type :=
| JNull
| JBool (b : bool)
| JInt (z : Z)
| JFloat (q : Q)
| JStr (s : string)
| JArr (l : list json)
| JObj (kvs : list (string * json)).

(** A [Dict[str, Any]]: insertion ordered, looked up by key. *)
Definition dict : Type := list (string * json).

Inductive exn : Type :=
| KeyError
| TypeError
| AttributeError
| JSONDecodeError
| OSError
| ClientError
| SystemExit (code : Z).

Inductive Result (A : Type) : Type :=
| Ok (a : A)
| Raise (e : exn).
Arguments Ok {A} a.
Arguments Raise {A} e.

Definition rbind {A B} (r : Result A) (k : A -> Result B) : Result B :=
  match r with
  | Ok a => k a
  | Raise e => Raise e
  end.

Definition is_ok {A} (r : Result A) : bool :=
  match r with Ok _ => true | Raise _ => false end.

(** What the interpreter provides and the scripts only call: [repr] of a
    string, [str] of a float, [str.title] and [str] of an exception. *)
Class PyRuntime : Type := {
  repr_str : string -> string;
  str_float : Q -> string;
  str_title : string -> string;
  str_exn : exn -> string;
}.

(** ** Strings *)

Definition nl : string := String (ascii_of_nat 10) EmptyString.

(** [s[:n]] *)
Definition str_take (n : nat) (s : string) : string := substring 0 n s.

(** [s.replace(a, b)] for single characters. *)
Fixpoint str_replace (a b : ascii) (s : string) : string :=
  match s with
  | EmptyString => EmptyString
  | String c s' => String (if Ascii.eqb c a then b else c) (str_replace a b s')
  end.

(** [needle in hay] *)
Fixpoint contains (needle hay : string) : bool :=
  String.prefix needle hay ||
  match hay with
  | EmptyString => false
  | String _ hay' => contains needle hay'
  end.

Fixpoint chars (s : string) : list string :=
  match s with
  | EmptyString => []
  | String c s' => String c EmptyString :: chars s'
  end.

(** ** Dictionaries *)

Fixpoint dict_get (k : string) (d : dict) : option json :=
  match d with
  | [] => None
  | (k', v) :: d' => if String.eqb k k' then Some v else dict_get k d'
  end.

(** [d.get(k, default)] *)
Definition get (d : dict) (k : string) (default : json) : json :=
  match dict_get k d with
  | Some v => v
  | None => default
  end.

(** [d[k]] *)
Definition subscript (d : dict) (k : string) : Result json :=
  match dict_get k d with
  | Some v => Ok v
  | None => Raise KeyError
  end.

(** [k in d] *)
Definition has_key (k : string) (d : dict) : bool :=
  match dict_get k d with Some _ => true | None => false end.

(** [d[k] = v]: replaces the value in place, or appends a new key. *)
Fixpoint dict_set (k : string) (v : json) (d : dict) : dict :=
  match d with
  | [] => [(k, v)]
  | (k', v') :: d' =>
      if String.eqb k k' then (k', v) :: d' else (k', v') :: dict_set k v d'
  end.

(** ** Builtins on dynamically typed values *)

(** [bool(x)] *)
Definition truthy (x : json) : bool :=
  match x with
  | JNull => false
  | JBool b => b
  | JInt z => negb (z =? 0)
  | JFloat q => negb (Qnum q =? 0)
  | JStr s => negb (String.eqb s "")
  | JArr l => match l with [] => false | _ => true end
  | JObj kvs => match kvs with [] => false | _ => true end
  end.

(** [x.get(k, default)]: only dictionaries have the method. *)
Definition method_get (x : json) (k : string) (default : json) : Result json :=
  match x with
  | JObj d => Ok (get d k default)
  | _ => Raise AttributeError
  end.

(** The receiver of a dictionary method such as [x.get] or [x.setdefault]. *)
Definition as_dict (x : json) : Result dict :=
  match x with
  | JObj d => Ok d
  | _ => Raise AttributeError
  end.

(** [x[k]] for a string key [k]. *)
Definition getitem (x : json) (k : string) : Result json :=
  match x with
  | JObj d => subscript d k
  | _ => Raise TypeError
  end.

(** [iter(x)] *)
Definition py_iter (x : json) : Result (list json) :=
  match x with
  | JArr l => Ok l
  | JStr s => Ok (map JStr (chars s))
  | JObj kvs => Ok (map (fun kv => JStr (fst kv)) kvs)
  | _ => Raise TypeError
  end.

(** [len(x)] *)
Definition py_len (x : json) : Result nat :=
  match x with
  | JArr l => Ok (length l)
  | JStr s => Ok (String.length s)
  | JObj kvs => Ok (length kvs)
  | _ => Raise TypeError
  end.

(** [x[:n]] *)
Definition slice_to (n : nat) (x : json) : Result json :=
  match x with
  | JArr l => Ok (JArr (firstn n l))
  | JStr s => Ok (JStr (str_take n s))
  | _ => Raise TypeError
  end.

Fixpoint all_str (l : list json) : Result (list string) :=
  match l with
  | [] => Ok []
  | JStr s :: l' => rbind (all_str l') (fun ss => Ok (s :: ss))
  | _ :: _ => Raise TypeError
  end.

(** [sep.join(x)]: [x] must be iterable and yield only strings. *)
Definition join (sep : string) (x : json) : Result string :=
  rbind (py_iter x) (fun items =>
  rbind (all_str items) (fun ss => Ok (String.concat sep ss))).

Section Formatting.
Context {rt : PyRuntime}.

(** [repr(x)] *)
Fixpoint py_repr (x : json) : string :=
  match x with
  | JNull => "None"
  | JBool true => "True"
  | JBool false => "False"
  | JInt z => pretty z
  | JFloat q => str_float q
  | JStr s => repr_str s
  | JArr l => "[" ++ String.concat ", " (map py_repr l) ++ "]"
  | JObj kvs =>
      "{" ++ String.concat ", "
               (map (fun kv => repr_str (fst kv) ++ ": " ++ py_repr (snd kv)) kvs)
          ++ "}"
  end.

(** [str(x)], which is what an f-string applies to [{x}]. *)
Definition py_str (x : json) : string :=
  match x with
  | JStr s => s
  | _ => py_repr x
  end.
End Formatting.

(** ** Set membership over hashable values ([x in {...}]) *)

Definition hashable (x : json) : bool :=
  match x with
  | JArr _ | JObj _ => false
  | _ => true
  end.

Definition as_number (x : json) : option Q :=
  match x with
  | JBool b => Some (inject_Z (if b then 1 else 0))
  | JInt z => Some (inject_Z z)
  | JFloat q => Some q
  | _ => None
  end.

(** [x == y] on hashable values: numbers compare by value across
    [bool], [int] and [float]. *)
Definition py_eqb (x y : json) : bool :=
  match as_number x, as_number y with
  | Some p, Some q => Qeq_bool p q
  | None, None =>
      match x, y with
      | JNull, JNull => true
      | JStr s, JStr t => String.eqb s t
      | _, _ => false
      end
  | _, _ => false
  end.

Definition mem (x : json) (s : list json) : bool := existsb (py_eqb x) s.

(** ** Values that hold a [float] at some depth *)

Fixpoint has_float (x : json) : bool :=
  match x with
  | JFloat _ => true
  | JArr l => existsb has_float l
  | JObj kvs => existsb (fun kv => has_float (snd kv)) kvs
  | _ => false
  end.

End Py.

(* ===================================================================== *)
(** * The world the scripts run in                                        *)
(* ===================================================================== *)

Module Aws.
Import Py.

Inductive level : Type := INFO | WARNING | ERROR.

(** A [pathlib.Path], as its components. *)
Definition path : Type := list string.

Definition path_str (p : path) : string := String.concat "/" p.

(** [p.name] *)
Definition path_name (p : path) : string := List.last p "".

(** [p.parent] *)
Definition path_parent (p : path) : path := removelast p.

(** A file holds a JSON document, or text that [json.load] rejects. *)
Inductive node : Type :=
| Dir (entries : list string)
| File (content : option json).

(** What the process is given and cannot change: the checked-out
    template tree, the wall clock ([clock n] is the ISO timestamp read by
    the [n]-th call of [datetime.utcnow]), the embedding model (request
    text to parsed response body, or the exception with which the call
    ends once the client, configured with [max_attempts = 3], has given
    up retrying) and which writes the two stores accept (a write that is
    not accepted ends with [ClientError]). *)
Record Host : Type := {
  files : gmap path node;
  clock : nat -> string;
  bedrock : string -> Result json;
  s3_accepts : string -> string -> bool;
  dynamodb_accepts : string -> dict -> bool;
}.

(** What a run changes.  Objects are keyed by bucket and key, items by
    table and primary key [(PK, SK)]; an object body is kept as the
    document that [json.loads] returns for it. *)
Record World : Type := {
  s3 : gmap (string * string) json;
  dynamodb : gmap (string * (string * string)) dict;
  log : list (level * string);
  ticks : nat;
}.

Definition set_s3 (f : gmap (string * string) json -> gmap (string * string) json)
    (w : World) : World :=
  {| s3 := f (s3 w); dynamodb := dynamodb w; log := log w; ticks := ticks w |}.

Definition set_dynamodb
    (f : gmap (string * (string * string)) dict -> gmap (string * (string * string)) dict)
    (w : World) : World :=
  {| s3 := s3 w; dynamodb := f (dynamodb w); log := log w; ticks := ticks w |}.

Definition add_log (e : level * string) (w : World) : World :=
  {| s3 := s3 w; dynamodb := dynamodb w; log := log w ++ [e]; ticks := ticks w |}.

Definition tick (w : World) : World :=
  {| s3 := s3 w; dynamodb := dynamodb w; log := log w; ticks := S (ticks w) |}.

(** ** Computations: state passing with exceptions.  The state survives
    an exception, as a store keeps what was written before a failure. *)

Definition M (A : Type) : Type := World -> Result A * World.

Definition ret {A} (a : A) : M A := fun w => (Ok a, w).

Definition raise {A} (e : exn) : M A := fun w => (Raise e, w).

Definition bind {A B} (m : M A) (k : A -> M B) : M B :=
  fun w =>
    match m w with
    | (Ok a, w') => k a w'
    | (Raise e, w') => (Raise e, w')
    end.

(** [try: m except Exception as e: h e] *)
Definition try_except {A} (m : M A) (h : exn -> M A) : M A :=
  fun w =>
    match m w with
    | (Ok a, w') => (Ok a, w')
    | (Raise e, w') => h e w'
    end.

Definition lift {A} (r : Result A) : M A := fun w => (r, w).

Definition logger (l : level) (msg : string) : M unit :=
  fun w => (Ok tt, add_log (l, msg) w).

(** [for x in xs: body], threading what the body accumulates; a
    [continue] is a body that returns the accumulator unchanged. *)
Fixpoint for_each {A S} (xs : list A) (body : A -> S -> M S) (acc : S) : M S :=
  match xs with
  | [] => ret acc
  | x :: xs' => bind (body x acc) (for_each xs' body)
  end.

(** A list comprehension [[f x for x in xs]] whose element may raise. *)
Fixpoint comprehension {A B} (f : A -> Result B) (xs : list A) : Result (list B) :=
  match xs with
  | [] => Ok []
  | x :: xs' =>
      rbind (f x) (fun y => rbind (comprehension f xs') (fun ys => Ok (y :: ys)))
  end.

End Aws.

Declare Scope py_scope.
Delimit Scope py_scope with py.
Notation "'let?' x ':=' r 'in' k" := (Py.rbind r (fun x => k))
  (at level 10, x name, r at level 100, k at level 200) : py_scope.
Notation "'let*' x ':=' m 'in' k" := (Aws.bind m (fun x => k))
  (at level 10, x name, m at level 100, k at level 200) : py_scope.
Notation "m ';;' k" := (Aws.bind m (fun _ => k))
  (at level 100, k at level 200, right associativity) : py_scope.
Local Open Scope py_scope.

Module Os.
Import Py Aws.

Section WithHost.
Context (host : Host).

(** [p.exists()] *)
Definition exists_ (p : path) : bool :=
  match files host !! p with Some _ => true | None => false end.

(** [p.is_dir()] *)
Definition is_dir (p : path) : bool :=
  match files host !! p with Some (Dir _) => true | _ => false end.

(** [p.iterdir()] *)
Definition iterdir (p : path) : Result (list path) :=
  match files host !! p with
  | Some (Dir entries) => Ok (map (fun n => (p ++ [n])%list) entries)
  | _ => Raise OSError
  end.

(** [json.load(open(p))] *)
Definition load_json (p : path) : Result json :=
  match files host !! p with
  | Some (File (Some j)) => Ok j
  | Some (File None) => Raise JSONDecodeError
  | _ => Raise OSError
  end.

(** [datetime.utcnow().isoformat() + "Z"] *)
Definition utcnow_z : M string :=
  fun w => (Ok (clock host (ticks w) ++ "Z"), tick w).

(** [s3.put_object(Bucket=b, Key=k, Body=json.dumps(body))] *)
Definition put_object (b k : string) (body : json) : M unit :=
  fun w =>
    if s3_accepts host b k
    then (Ok tt, set_s3 (insert (b, k) body) w)
    else (Raise ClientError, w).

(** [table.put_item(Item=item)]: the client serialises the item before
    it calls the service and raises [TypeError] on a [float] anywhere in
    it; the service requires the key attributes to be strings; the item
    replaces the one with the same primary key. *)
Definition put_item (table : string) (item : dict) : M unit :=
  fun w =>
    if has_float (JObj item) then (Raise TypeError, w)
    else
      match dict_get "PK" item, dict_get "SK" item with
      | Some (JStr pk), Some (JStr sk) =>
          if dynamodb_accepts host table item
          then (Ok tt, set_dynamodb (insert (table, (pk, sk)) item) w)
          else (Raise ClientError, w)
      | _, _ => (Raise ClientError, w)
      end.

(** [json.loads(s3.get_object(Bucket=b, Key=k)["Body"].read())] *)
Definition get_object (b k : string) : M json :=
  fun w =>
    match s3 w !! (b, k) with
    | Some body => (Ok body, w)
    | None => (Raise ClientError, w)
    end.
End WithHost.

End Os.

(* ===================================================================== *)
(** * scripts/generate_embeddings.py                                      *)
(* ===================================================================== *)

Module GenerateEmbeddings.
Import Py Aws Os.

Definition EMBEDDING_MODEL_ID : string := "amazon.titan-embed-text-v2:0".
Definition EMBEDDING_DIMENSION : Z := 1024.
Definition MAX_INPUT_TOKENS : Z := 8192.

Definition VALID_INDUSTRIES : list string :=
  [ "restaurant"; "healthcare"; "technology"; "ecommerce"; "real_estate";
    "professional_services"; "creative_agency"; "education"; "nonprofit";
    "fitness"; "hospitality"; "finance"; "retail"; "automotive"; "beauty_spa";
    "other" ].

(** The fields of the instance that are plain data; the three service
    clients it also holds are the [Host]. *)
Record EmbeddingGenerator : Type := {
  region_name : string;
  environment : string;
}.

Definition templates_bucket (self : EmbeddingGenerator) : string :=
  "bbws-templates-" ++ environment self.
Definition vectors_bucket (self : EmbeddingGenerator) : string :=
  "bbws-" ++ environment self ++ "-vectors".
Definition templates_table (self : EmbeddingGenerator) : string :=
  "rag-templates-" ++ environment self.

(** [parts.append(x)] *)
Definition append {A} (l : list A) (x : A) : list A := (l ++ [x])%list.

Definition indent : string := "        ".

Section WithRuntime.
Context {rt : PyRuntime}.

Definition build_embedding_text (self : EmbeddingGenerator) (metadata : json)
    : Result string :=
  let parts := [] in
  (* Core attributes *)
  let? v := method_get metadata "industry" (JStr "general") in
  let parts := append parts (JStr ("Industry: " ++ py_str v)) in
  let? v := method_get metadata "cta_intent" (JStr "contact") in
  let parts := append parts (JStr ("CTA Intent: " ++ py_str v)) in
  let? v := method_get metadata "design_style" (JStr "modern") in
  let parts := append parts (JStr ("Design Style: " ++ py_str v)) in
  (* Sections *)
  let? sections := method_get metadata "sections" (JArr []) in
  let? parts :=
    (if truthy sections
     then let? s := join ", " sections in
          Ok (append parts (JStr ("Sections: " ++ s)))
     else Ok parts) in
  (* Color palette *)
  let? color_palette := method_get metadata "color_palette" (JObj []) in
  let? parts :=
    (if truthy color_palette
     then let? primary := method_get color_palette "primary" (JStr "") in
          Ok (append parts (JStr ("Color Palette: " ++ py_str primary ++ " primary")))
     else Ok parts) in
  (* Keywords/tags *)
  let? keywords := method_get metadata "keywords" (JArr []) in
  let? parts :=
    (if truthy keywords
     then let? s := join ", " keywords in
          Ok (append parts (JStr ("Tags: " ++ s)))
     else Ok parts) in
  (* Description *)
  let? description := method_get metadata "description" (JStr "") in
  let parts := if truthy description then append parts description else parts in
  (* Build final text with semantic summary *)
  let? industry := method_get metadata "industry" (JStr "general") in
  let? cta_intent := method_get metadata "cta_intent" (JStr "contact") in
  let? design_style := method_get metadata "design_style" (JStr "modern") in
  let? sections_preview :=
    (if truthy sections
     then let? first3 := slice_to 3 sections in join ", " first3
     else Ok "standard") in
  let semantic_summary :=
    nl ++ indent ++ "This is a " ++ py_str design_style
       ++ " website template for the " ++ py_str industry ++ " industry,"
       ++ nl ++ indent ++ "optimized for " ++ py_str cta_intent
       ++ " conversions with sections including " ++ sections_preview ++ "."
       ++ nl ++ indent in
  let parts := append parts (JStr semantic_summary) in
  join " " (JArr parts).

End WithRuntime.

Section WithHost.
Context {rt : PyRuntime} (host : Host) (self : EmbeddingGenerator).

(** What the constructor does besides setting the fields and making
    the clients. *)
Definition __init__ : M unit :=
  logger INFO "EmbeddingGenerator initialized:" ;;
  logger INFO ("  Region: " ++ region_name self) ;;
  logger INFO ("  Templates bucket: " ++ templates_bucket self) ;;
  logger INFO ("  Vectors bucket: " ++ vectors_bucket self) ;;
  logger INFO ("  DynamoDB table: " ++ templates_table self).

Definition generate_embedding (text : string) : M json :=
  try_except
    ((* Truncate if too long *)
     let text :=
       if Z.of_nat (String.length text) >? MAX_INPUT_TOKENS * 4
       then str_take (Z.to_nat (MAX_INPUT_TOKENS * 4)) text
       else text in
     let* response_body := lift (bedrock host text) in
     let* embedding := lift (method_get response_body "embedding" (JArr [])) in
     let* n := lift (py_len embedding) in
     (if negb (Z.of_nat n =? EMBEDDING_DIMENSION)
      then logger WARNING ("Unexpected embedding dimension: " ++ pretty n
                             ++ ", expected " ++ pretty EMBEDDING_DIMENSION)
      else ret tt) ;;
     ret embedding)
    (fun e =>
       logger ERROR ("Error generating embedding: " ++ str_exn e) ;;
       raise e).

Definition process_template (template_path : path) : M (option dict) :=
  let metadata_path := (template_path ++ ["metadata.json"])%list in
  if negb (exists_ host metadata_path)
  then logger WARNING ("No metadata.json found in " ++ path_str template_path) ;;
       ret None
  else
    try_except
      (let* metadata := lift (load_json host metadata_path) in
       (* Build embedding text *)
       let* embedding_text := lift (build_embedding_text self metadata) in
       (* Generate embedding *)
       let* shown := lift (method_get metadata "template_id"
                             (JStr (path_name template_path))) in
       logger INFO ("Generating embedding for: " ++ py_str shown) ;;
       let* embedding := generate_embedding embedding_text in
       (* Build result with all metadata needed for RAG *)
       let* template_id := lift (method_get metadata "template_id"
                                   (JStr (path_name template_path))) in
       let* name := lift (method_get metadata "name" (JStr "")) in
       let* industry := lift (method_get metadata "industry" (JStr "other")) in
       let* cta_intent := lift (method_get metadata "cta_intent" (JStr "contact")) in
       let* design_style := lift (method_get metadata "design_style" (JStr "modern")) in
       let* sections := lift (method_get metadata "sections" (JArr [])) in
       let* keywords := lift (method_get metadata "keywords" (JArr [])) in
       let* color_palette := lift (method_get metadata "color_palette" (JObj [])) in
       let* customizable_fields :=
         lift (method_get metadata "customizable_fields" (JArr [])) in
       let* css_variables := lift (method_get metadata "css_variables" (JArr [])) in
       let* description := lift (method_get metadata "description" (JStr "")) in
       let* figma_source := lift (method_get metadata "figma_source" (JStr "")) in
       let where_ :=
         "website-templates/" ++ path_name (path_parent template_path) ++ "/"
           ++ path_name template_path ++ "/" in
       let* now := utcnow_z host in
       let* created_at := lift (method_get metadata "created_at" (JStr now)) in
       let* updated_at := utcnow_z host in
       let result : dict :=
         [ ("template_id", template_id);
           ("name", name);
           ("industry", industry);
           ("cta_intent", cta_intent);
           ("design_style", design_style);
           ("sections", sections);
           ("keywords", keywords);
           ("color_palette", color_palette);
           ("customizable_fields", customizable_fields);
           ("css_variables", css_variables);
           ("description", description);
           ("figma_source", figma_source);
           ("s3_path", JStr where_);
           ("preview_url",
            JStr ("https://" ++ templates_bucket self ++ ".s3." ++ region_name self
                    ++ ".amazonaws.com/" ++ where_ ++ "preview.png"));
           ("embedding_text", JStr (str_take 500 embedding_text));
           ("embedding", embedding);
           ("embedding_model", JStr EMBEDDING_MODEL_ID);
           ("embedding_dimension", JInt EMBEDDING_DIMENSION);
           ("status", JStr "PUBLISHED");
           ("created_at", created_at);
           ("updated_at", JStr updated_at) ] in
       let* shown := lift (subscript result "template_id") in
       let* n := lift (py_len embedding) in
       logger INFO ("Generated embedding for: " ++ py_str shown ++ " ("
                      ++ pretty n ++ " dimensions)") ;;
       ret (Some result))
      (fun e =>
         logger ERROR ("Error processing template " ++ path_str template_path
                         ++ ": " ++ str_exn e) ;;
         ret None).

(** [if result: embeddings.append(result)] on an [Optional[Dict]] *)
Definition keep (result : option dict) (embeddings : list dict) : list dict :=
  match result with
  | Some r => if truthy (JObj r) then append embeddings r else embeddings
  | None => embeddings
  end.

Definition process_all_templates (base_path : path) : M (list dict) :=
  let* embeddings :=
    for_each VALID_INDUSTRIES (fun industry embeddings =>
      let industry_path := (base_path ++ [industry])%list in
      if negb (exists_ host industry_path) then ret embeddings
      else
        let* template_dirs := lift (iterdir host industry_path) in
        for_each template_dirs (fun template_dir embeddings =>
          if negb (is_dir host template_dir)
             || String.prefix "." (path_name template_dir)
          then ret embeddings
          else
            let* result := process_template template_dir in
            ret (keep result embeddings))
          embeddings)
      [] in
  logger INFO ("Generated " ++ pretty (length embeddings) ++ " embeddings") ;;
  ret embeddings.

Definition index_entry (e : dict) : Result json :=
  let? template_id := subscript e "template_id" in
  let? name := subscript e "name" in
  let? industry := subscript e "industry" in
  Ok (JObj [ ("template_id", template_id); ("name", name); ("industry", industry) ]).

Definition save_to_s3_vectors (embeddings : list dict) : M unit :=
  for_each embeddings (fun embedding_data _ =>
    let* template_id := lift (subscript embedding_data "template_id") in
    (* Prepare vector document for S3 Vectors *)
    let* vector := lift (subscript embedding_data "embedding") in
    let* name := lift (subscript embedding_data "name") in
    let* industry := lift (subscript embedding_data "industry") in
    let* cta_intent := lift (subscript embedding_data "cta_intent") in
    let* design_style := lift (subscript embedding_data "design_style") in
    let* sections := lift (subscript embedding_data "sections") in
    let* keywords := lift (subscript embedding_data "keywords") in
    let* status := lift (subscript embedding_data "status") in
    let* s3_path := lift (subscript embedding_data "s3_path") in
    let* preview_url := lift (subscript embedding_data "preview_url") in
    let vector_doc :=
      JObj [ ("id", template_id);
             ("vector", vector);
             ("metadata",
              JObj [ ("template_id", template_id);
                     ("name", name);
                     ("industry", industry);
                     ("cta_intent", cta_intent);
                     ("design_style", design_style);
                     ("sections", sections);
                     ("keywords", keywords);
                     ("status", status);
                     ("s3_path", s3_path);
                     ("preview_url", preview_url) ]) ] in
    let s3_key := "template-embeddings/" ++ py_str template_id ++ ".json" in
    put_object host (vectors_bucket self) s3_key vector_doc ;;
    logger INFO ("Saved vector to s3://" ++ vectors_bucket self ++ "/" ++ s3_key))
    tt ;;
  (* Save index *)
  let* generated_at := utcnow_z host in
  let* templates := lift (comprehension index_entry embeddings) in
  let index :=
    JObj [ ("vectors_count", JInt (Z.of_nat (length embeddings)));
           ("model", JStr EMBEDDING_MODEL_ID);
           ("dimension", JInt EMBEDDING_DIMENSION);
           ("generated_at", JStr generated_at);
           ("templates", JArr templates) ] in
  put_object host (vectors_bucket self) "template-embeddings/index.json" index ;;
  logger INFO ("Saved vectors index with " ++ pretty (length embeddings)
                 ++ " templates").

Definition save_to_dynamodb (embeddings : list dict) : M unit :=
  for_each embeddings (fun embedding_data _ =>
    let* template_id := lift (subscript embedding_data "template_id") in
    (* DynamoDB item (without embedding vector - too large) *)
    let* name := lift (subscript embedding_data "name") in
    let* industry := lift (subscript embedding_data "industry") in
    let* cta_intent := lift (subscript embedding_data "cta_intent") in
    let* design_style := lift (subscript embedding_data "design_style") in
    let* sections := lift (subscript embedding_data "sections") in
    let* keywords := lift (subscript embedding_data "keywords") in
    let* color_palette := lift (subscript embedding_data "color_palette") in
    let* customizable_fields := lift (subscript embedding_data "customizable_fields") in
    let* css_variables := lift (subscript embedding_data "css_variables") in
    let* description := lift (subscript embedding_data "description") in
    let* figma_source := lift (subscript embedding_data "figma_source") in
    let* s3_path := lift (subscript embedding_data "s3_path") in
    let* preview_url := lift (subscript embedding_data "preview_url") in
    let* embedding_model := lift (subscript embedding_data "embedding_model") in
    let* status := lift (subscript embedding_data "status") in
    let* created_at := lift (subscript embedding_data "created_at") in
    let* updated_at := lift (subscript embedding_data "updated_at") in
    let* industry' := lift (subscript embedding_data "industry") in
    let* status' := lift (subscript embedding_data "status") in
    let item : dict :=
      [ ("PK", JStr "TEMPLATE");
        ("SK", JStr ("TEMPLATE#" ++ py_str template_id));
        ("template_id", template_id);
        ("name", name);
        ("industry", industry);
        ("cta_intent", cta_intent);
        ("design_style", design_style);
        ("sections", sections);
        ("keywords", keywords);
        ("color_palette", color_palette);
        ("customizable_fields", customizable_fields);
        ("css_variables", css_variables);
        ("description", description);
        ("figma_source", figma_source);
        ("s3_path", s3_path);
        ("preview_url", preview_url);
        ("vector_id", template_id);
        ("embedding_model", embedding_model);
        ("status", status);
        ("created_at", created_at);
        ("updated_at", updated_at);
        (* GSI keys *)
        ("GSI1PK", JStr ("INDUSTRY#" ++ py_str industry'));
        ("GSI1SK", JStr ("STATUS#" ++ py_str status' ++ "#" ++ py_str template_id)) ] in
    put_item host (templates_table self) item ;;
    logger INFO ("Saved metadata to DynamoDB: " ++ py_str template_id))
    tt ;;
  logger INFO ("Saved " ++ pretty (length embeddings)
                 ++ " template metadata records to DynamoDB").

(** [main] with [--local] off: [template] is the [--template] argument,
    as path components below [base_path], and [self] the instance it
    constructs.  Output printed on the terminal is not part of the
    world. *)
Definition main (base_path : path) (template : option path) : M unit :=
  (* Initialize generator *)
  __init__ ;;
  (* Process templates *)
  let* embeddings :=
    match template with
    | Some t =>
        let template_path := (base_path ++ t)%list in
        if negb (exists_ host template_path)
        then logger ERROR ("Template not found: " ++ path_str template_path) ;;
             raise (SystemExit 1)
        else
          let* result := process_template template_path in
          ret (keep result [])
    | None => process_all_templates base_path
    end in
  match embeddings with
  | [] =>
      logger WARNING "No embeddings generated" ;;
      raise (SystemExit 0)
  | _ =>
      (* Save to S3 vectors bucket *)
      save_to_s3_vectors embeddings ;;
      (* Save metadata to DynamoDB *)
      save_to_dynamodb embeddings
  end.

End WithHost.

End GenerateEmbeddings.

(* ===================================================================== *)
(** * scripts/process_existing_templates.py                               *)
(* ===================================================================== *)

Module ProcessExisting.
Import Py Aws Os.

Definition EMBEDDING_MODEL_ID : string := "amazon.titan-embed-text-v2:0".
Definition EMBEDDING_DIMENSION : Z := 1024.
Definition MAX_INPUT_TOKENS : Z := 8192.

(* Source buckets *)
Definition FIGMA_ASSETS_BUCKET : string := "site-builder-dev-design-assets-536580886816".
Definition MIGRATED_SITES_BUCKET : string := "bigbeard-migrated-site-dev".

Record ExistingTemplateProcessor : Type := {
  region_name : string;
  environment : string;
}.

Definition vectors_bucket (self : ExistingTemplateProcessor) : string :=
  "bbws-" ++ environment self ++ "-vectors".
Definition templates_table (self : ExistingTemplateProcessor) : string :=
  "rag-templates-" ++ environment self.

Definition append {A} (l : list A) (x : A) : list A := (l ++ [x])%list.

Definition indent : string := "        ".

Section WithRuntime.
Context {rt : PyRuntime}.

Definition build_embedding_text (self : ExistingTemplateProcessor) (template : json)
    : Result string :=
  let? v := method_get template "industry" (JStr "general") in
  let p1 := JStr ("Industry: " ++ py_str v) in
  let? v := method_get template "cta_intent" (JStr "contact") in
  let p2 := JStr ("CTA Intent: " ++ py_str v) in
  let? v := method_get template "design_style" (JStr "modern") in
  let p3 := JStr ("Design Style: " ++ py_str v) in
  let parts := [p1; p2; p3] in
  let? c := method_get template "pages_count" JNull in
  let? parts :=
    (if truthy c
     then let? v := getitem template "pages_count" in
          Ok (append parts (JStr ("Pages: " ++ py_str v ++ " pages")))
     else Ok parts) in
  let? c := method_get template "features" JNull in
  let? parts :=
    (if truthy c
     then let? v := getitem template "features" in
          let? s := join ", " v in
          Ok (append parts (JStr ("Features: " ++ s)))
     else Ok parts) in
  let? c := method_get template "name" JNull in
  let? parts :=
    (if truthy c
     then let? v := getitem template "name" in
          Ok (append parts (JStr ("Name: " ++ py_str v)))
     else Ok parts) in
  (* Semantic summary *)
  let? industry := method_get template "industry" (JStr "general") in
  let? cta_intent := method_get template "cta_intent" (JStr "contact") in
  let? design_style := method_get template "design_style" (JStr "modern") in
  let summary :=
    nl ++ indent ++ "This is a " ++ py_str design_style
       ++ " website template for the " ++ py_str industry ++ " industry,"
       ++ nl ++ indent ++ "optimized for " ++ py_str cta_intent ++ " conversions."
       ++ nl ++ indent in
  let parts := append parts (JStr summary) in
  join " " (JArr parts).

End WithRuntime.

Section WithHost.
Context {rt : PyRuntime} (host : Host) (self : ExistingTemplateProcessor).

(** What the constructor does besides setting the fields and making
    the clients. *)
Definition __init__ : M unit :=
  logger INFO "ExistingTemplateProcessor initialized:" ;;
  logger INFO ("  Region: " ++ region_name self) ;;
  logger INFO ("  Vectors bucket: " ++ vectors_bucket self) ;;
  logger INFO ("  DynamoDB table: " ++ templates_table self).

Definition generate_embedding (text : string) : M json :=
  let text :=
    if Z.of_nat (String.length text) >? MAX_INPUT_TOKENS * 4
    then str_take (Z.to_nat (MAX_INPUT_TOKENS * 4)) text
    else text in
  let* response_body := lift (bedrock host text) in
  lift (method_get response_body "embedding" (JArr [])).

Definition fetch_registry : M json :=
  get_object FIGMA_ASSETS_BUCKET "templates/template-registry.json".

Definition process_recreated_templates (registry : json) : M (list dict) :=
  let* templates := lift (method_get registry "templates" (JArr [])) in
  let* templates := lift (py_iter templates) in
  for_each templates (fun template embeddings =>
    let* template_id := lift (method_get template "template_id" JNull) in
    logger INFO ("Processing recreated template: " ++ py_str template_id) ;;
    try_except
      ((* Build embedding text *)
       let* embedding_text := lift (build_embedding_text self template) in
       (* Generate embedding *)
       let* embedding := generate_embedding embedding_text in
       let* name := lift (method_get template "name" (JStr "")) in
       let* industry := lift (method_get template "industry" (JStr "general")) in
       let* cta_intent := lift (method_get template "cta_intent" (JStr "contact")) in
       let* design_style := lift (method_get template "design_style" (JStr "modern")) in
       let* pages_count := lift (method_get template "pages_count" (JInt 0)) in
       let* primary_color := lift (method_get template "primary_color" (JStr "")) in
       let* secondary_color := lift (method_get template "secondary_color" (JStr "")) in
       let* s3_path := lift (method_get template "s3_key" (JStr "")) in
       let* s3_key := lift (method_get template "s3_key" (JStr "")) in
       let* created_at := utcnow_z host in
       let result : dict :=
         [ ("template_id", template_id);
           ("name", name);
           ("source", JStr "recreated");
           ("industry", industry);
           ("cta_intent", cta_intent);
           ("design_style", design_style);
           ("pages_count", pages_count);
           ("primary_color", primary_color);
           ("secondary_color", secondary_color);
           ("s3_bucket", JStr FIGMA_ASSETS_BUCKET);
           ("s3_path", s3_path);
           ("preview_url",
            JStr ("https://" ++ FIGMA_ASSETS_BUCKET ++ ".s3." ++ region_name self
                    ++ ".amazonaws.com/" ++ py_str s3_key ++ "index.html"));
           ("embedding", embedding);
           ("embedding_text", JStr (str_take 500 embedding_text));
           ("status", JStr "PUBLISHED");
           ("created_at", JStr created_at) ] in
       logger INFO ("Generated embedding for: " ++ py_str template_id) ;;
       ret (append embeddings result))
      (fun e =>
         logger ERROR ("Error processing " ++ py_str template_id ++ ": " ++ str_exn e) ;;
         ret embeddings))
    [].

(** [f"{site_slug.replace('-', ' ').title()} Migrated Site"] *)
Definition migrated_name (site_slug : json) : Result string :=
  match site_slug with
  | JStr s => Ok (str_title (str_replace "-" " " s) ++ " Migrated Site")
  | _ => Raise AttributeError
  end.

(** The body of the loop over the catalog entries. *)
Definition process_site (site : json) (embeddings : list dict) : M (list dict) :=
  let* slug := lift (method_get site "slug" (JStr "")) in
  let* site_slug := lift (method_get site "site_slug" slug) in
  if negb (truthy site_slug) then ret embeddings
  else
    let template_id := "migrated-" ++ py_str site_slug in
    logger INFO ("Processing migrated template: " ++ template_id) ;;
    try_except
      (let* industry := lift (method_get site "industry" (JStr "general")) in
       let* pages := lift (method_get site "pages" (JInt 0)) in
       let* features := lift (method_get site "features" (JArr [])) in
       let* name := lift (migrated_name site_slug) in
       let template_data : dict :=
         [ ("industry", industry);
           ("cta_intent", JStr "contact");
           ("design_style", JStr "wordpress-migrated");
           ("pages_count", pages);
           ("features", features);
           ("name", JStr name) ] in
       let* embedding_text := lift (build_embedding_text self (JObj template_data)) in
       let* embedding := generate_embedding embedding_text in
       let* r_name := lift (subscript template_data "name") in
       let* r_industry := lift (subscript template_data "industry") in
       let* r_cta_intent := lift (subscript template_data "cta_intent") in
       let* r_design_style := lift (subscript template_data "design_style") in
       let* r_pages_count := lift (subscript template_data "pages_count") in
       let* r_features := lift (subscript template_data "features") in
       let* created_at := utcnow_z host in
       let result : dict :=
         [ ("template_id", JStr template_id);
           ("name", r_name);
           ("source", JStr "migrated");
           ("industry", r_industry);
           ("cta_intent", r_cta_intent);
           ("design_style", r_design_style);
           ("pages_count", r_pages_count);
           ("features", r_features);
           ("s3_bucket", JStr MIGRATED_SITES_BUCKET);
           ("s3_path", JStr (py_str site_slug ++ "/"));
           ("preview_url",
            JStr ("https://" ++ MIGRATED_SITES_BUCKET ++ ".s3." ++ region_name self
                    ++ ".amazonaws.com/" ++ py_str site_slug ++ "/index.html"));
           ("embedding", embedding);
           ("embedding_text", JStr (str_take 500 embedding_text));
           ("status", JStr "PUBLISHED");
           ("created_at", JStr created_at) ] in
       logger INFO ("Generated embedding for: " ++ template_id) ;;
       ret (append embeddings result))
      (fun e =>
         logger ERROR ("Error processing migrated " ++ py_str site_slug ++ ": "
                         ++ str_exn e) ;;
         ret embeddings).

Definition process_migrated_templates (registry : json) : M (list dict) :=
  (* Fetch the full migrated sites catalog *)
  let* catalog :=
    try_except
      (get_object FIGMA_ASSETS_BUCKET "templates/migrated-sites-catalog.json")
      (fun e =>
         logger WARNING ("Could not fetch migrated sites catalog: " ++ str_exn e) ;;
         ret (JObj [ ("sites", JArr []) ])) in
  (* Process from catalog or registry highlights *)
  let* highlights :=
    lift (match catalog with
          | JObj _ => method_get registry "migrated_sites_highlights" (JArr [])
          | _ => Raise AttributeError
          end) in
  let* sites := lift (method_get catalog "sites" highlights) in
  let* sites := lift (py_iter sites) in
  for_each sites process_site [].

(** [{t["template_id"] for t in templates}] *)
Definition existing_ids_of (templates : json) : Result (list json) :=
  let? ts := py_iter templates in
  comprehension
    (fun t =>
       let? id := getitem t "template_id" in
       if hashable id then Ok id else Raise TypeError)
    ts.

(** [existing_index.setdefault("templates", []).append({...})] *)
Definition setdefault_append (existing_index : dict) (emb : dict) : Result dict :=
  let existing_index :=
    if has_key "templates" existing_index then existing_index
    else dict_set "templates" (JArr []) existing_index in
  match get existing_index "templates" JNull with
  | JArr l =>
      let? template_id := subscript emb "template_id" in
      let? name := subscript emb "name" in
      let? industry := subscript emb "industry" in
      let source := get emb "source" (JStr "unknown") in
      let entry :=
        JObj [ ("template_id", template_id);
               ("name", name);
               ("industry", industry);
               ("source", source) ] in
      Ok (dict_set "templates" (JArr (append l entry)) existing_index)
  | _ => Raise AttributeError
  end.

Definition _update_vectors_index (new_embeddings : list dict) : M unit :=
  let index_key := "template-embeddings/index.json" in
  (* Fetch existing index *)
  let* existing_index :=
    try_except
      (get_object (vectors_bucket self) index_key)
      (fun _ => ret (JObj [ ("templates", JArr []) ])) in
  (* Merge templates *)
  let* existing_index := lift (as_dict existing_index) in
  let* existing_ids :=
    lift (existing_ids_of (get existing_index "templates" (JArr []))) in
  let* existing_index :=
    for_each new_embeddings (fun emb existing_index =>
      let* id := lift (subscript emb "template_id") in
      if negb (hashable id) then raise TypeError
      else if negb (mem id existing_ids)
      then lift (setdefault_append existing_index emb)
      else ret existing_index)
      existing_index in
  let* n := lift (py_len (get existing_index "templates" (JArr []))) in
  let existing_index := dict_set "vectors_count" (JInt (Z.of_nat n)) existing_index in
  let existing_index := dict_set "model" (JStr EMBEDDING_MODEL_ID) existing_index in
  let existing_index := dict_set "dimension" (JInt EMBEDDING_DIMENSION) existing_index in
  let* updated_at := utcnow_z host in
  let existing_index := dict_set "updated_at" (JStr updated_at) existing_index in
  put_object host (vectors_bucket self) index_key (JObj existing_index) ;;
  let* templates := lift (subscript existing_index "templates") in
  let* n := lift (py_len templates) in
  logger INFO ("Updated vectors index with " ++ pretty n ++ " templates").

Definition save_to_s3_vectors (embeddings : list dict) : M unit :=
  for_each embeddings (fun embedding_data _ =>
    let* template_id := lift (subscript embedding_data "template_id") in
    let* vector := lift (subscript embedding_data "embedding") in
    let* name := lift (subscript embedding_data "name") in
    let source := get embedding_data "source" (JStr "unknown") in
    let* industry := lift (subscript embedding_data "industry") in
    let* cta_intent := lift (subscript embedding_data "cta_intent") in
    let* design_style := lift (subscript embedding_data "design_style") in
    let pages_count := get embedding_data "pages_count" (JInt 0) in
    let s3_bucket := get embedding_data "s3_bucket" (JStr "") in
    let s3_path := get embedding_data "s3_path" (JStr "") in
    let preview_url := get embedding_data "preview_url" (JStr "") in
    let* status := lift (subscript embedding_data "status") in
    let vector_doc :=
      JObj [ ("id", template_id);
             ("vector", vector);
             ("metadata",
              JObj [ ("template_id", template_id);
                     ("name", name);
                     ("source", source);
                     ("industry", industry);
                     ("cta_intent", cta_intent);
                     ("design_style", design_style);
                     ("pages_count", pages_count);
                     ("s3_bucket", s3_bucket);
                     ("s3_path", s3_path);
                     ("preview_url", preview_url);
                     ("status", status) ]) ] in
    let s3_key := "template-embeddings/" ++ py_str template_id ++ ".json" in
    put_object host (vectors_bucket self) s3_key vector_doc ;;
    logger INFO ("Saved vector to s3://" ++ vectors_bucket self ++ "/" ++ s3_key))
    tt ;;
  (* Update index *)
  _update_vectors_index embeddings.

Definition save_to_dynamodb (embeddings : list dict) : M unit :=
  for_each embeddings (fun embedding_data _ =>
    let* template_id := lift (subscript embedding_data "template_id") in
    let* name := lift (subscript embedding_data "name") in
    let source := get embedding_data "source" (JStr "unknown") in
    let* industry := lift (subscript embedding_data "industry") in
    let* cta_intent := lift (subscript embedding_data "cta_intent") in
    let* design_style := lift (subscript embedding_data "design_style") in
    let pages_count := get embedding_data "pages_count" (JInt 0) in
    let features := get embedding_data "features" (JArr []) in
    let primary_color := get embedding_data "primary_color" (JStr "") in
    let secondary_color := get embedding_data "secondary_color" (JStr "") in
    let s3_bucket := get embedding_data "s3_bucket" (JStr "") in
    let s3_path := get embedding_data "s3_path" (JStr "") in
    let preview_url := get embedding_data "preview_url" (JStr "") in
    let* status := lift (subscript embedding_data "status") in
    let* created_at := lift (subscript embedding_data "created_at") in
    let* updated_at := utcnow_z host in
    let* industry' := lift (subscript embedding_data "industry") in
    let* status' := lift (subscript embedding_data "status") in
    let item : dict :=
      [ ("PK", JStr "TEMPLATE");
        ("SK", JStr ("TEMPLATE#" ++ py_str template_id));
        ("template_id", template_id);
        ("name", name);
        ("source", source);
        ("industry", industry);
        ("cta_intent", cta_intent);
        ("design_style", design_style);
        ("pages_count", pages_count);
        ("features", features);
        ("primary_color", primary_color);
        ("secondary_color", secondary_color);
        ("s3_bucket", s3_bucket);
        ("s3_path", s3_path);
        ("preview_url", preview_url);
        ("vector_id", template_id);
        ("embedding_model", JStr EMBEDDING_MODEL_ID);
        ("status", status);
        ("created_at", created_at);
        ("updated_at", JStr updated_at);
        (* GSI keys *)
        ("GSI1PK", JStr ("INDUSTRY#" ++ py_str industry'));
        ("GSI1SK", JStr ("STATUS#" ++ py_str status' ++ "#" ++ py_str template_id)) ] in
    put_item host (templates_table self) item ;;
    logger INFO ("Saved metadata to DynamoDB: " ++ py_str template_id))
    tt.

(** [main], with [self] the instance it constructs; what it prints on
    the terminal is not part of the world. *)
Definition main (recreated_only migrated_only : bool) : M unit :=
  __init__ ;;
  (* Fetch registry *)
  let* registry := fetch_registry in
  let* total := lift (method_get registry "total_templates" (JInt 0)) in
  logger INFO ("Loaded registry with " ++ py_str total ++ " total templates") ;;
  let embeddings : list dict := [] in
  (* Process templates *)
  let* embeddings :=
    (if negb migrated_only
     then let* recreated := process_recreated_templates registry in
          logger INFO ("Processed " ++ pretty (length recreated)
                         ++ " recreated templates") ;;
          ret (embeddings ++ recreated)%list
     else ret embeddings) in
  let* embeddings :=
    (if negb recreated_only
     then let* migrated := process_migrated_templates registry in
          logger INFO ("Processed " ++ pretty (length migrated)
                         ++ " migrated templates") ;;
          ret (embeddings ++ migrated)%list
     else ret embeddings) in
  match embeddings with
  | [] => logger WARNING "No embeddings generated"
  | _ =>
      (* Save to S3 and DynamoDB *)
      save_to_s3_vectors embeddings ;;
      save_to_dynamodb embeddings
  end.

End WithHost.

End ProcessExisting.

(* ===================================================================== *)
(** * scripts/validate_template.py: the metadata checks                   *)
(* ===================================================================== *)

Module ValidateTemplate.
Import Py Aws Os.

Definition VALID_INDUSTRIES : list string :=
  [ "restaurant"; "healthcare"; "technology"; "ecommerce"; "real_estate";
    "professional_services"; "creative_agency"; "education"; "nonprofit";
    "fitness"; "hospitality"; "finance"; "retail"; "automotive"; "beauty_spa";
    "manufacturing"; "energy"; "marketing"; "other" ].

Definition VALID_CTA_INTENTS : list string :=
  [ "contact"; "purchase"; "booking"; "signup"; "lead_generation"; "download";
    "learn_more" ].

Definition VALID_DESIGN_STYLES : list string :=
  [ "modern"; "classic"; "minimal"; "bold"; "elegant"; "playful"; "corporate";
    "warm"; "modern-industrial"; "dark" ].

(** The class [ValidationError]: a report entry, not an exception. *)
Record ValidationError : Type := {
  file : string;
  message : string;
  severity : string;
}.

(** [field in content] *)
Definition py_in (field : string) (content : json) : Result bool :=
  match content with
  | JObj d => Ok (has_key field d)
  | JArr l => Ok (mem (JStr field) l)
  | JStr s => Ok (contains field s)
  | _ => Raise TypeError
  end.

(** [x not in VALID_...] for a list of strings. *)
Definition not_in (x : json) (valid : list string) : bool :=
  negb (mem x (map JStr valid)).

Section WithHost.
Context {rt : PyRuntime} (host : Host).

Definition check_enum (content : json) (field : string) (valid : list string)
    (errors : list ValidationError) : Result (list ValidationError) :=
  let? value := method_get content field (JStr "") in
  if truthy value && not_in value valid
  then Ok (errors ++ [ {| file := "metadata.json";
                          message := "Invalid " ++ field ++ ": " ++ py_str value;
                          severity := "error" |} ])%list
  else Ok errors.

Definition validate_metadata (metadata_path : path) : Result (list ValidationError) :=
  let errors : list ValidationError := [] in
  match load_json host metadata_path with
  | Raise JSONDecodeError =>
      Ok (errors ++ [ {| file := "metadata.json";
                         message := "Invalid JSON: " ++ str_exn JSONDecodeError;
                         severity := "error" |} ])%list
  | Raise e => Raise e
  | Ok content =>
      (* Check required fields *)
      let required_fields :=
        [ "template_id"; "name"; "industry"; "cta_intent"; "design_style" ] in
      let? errors :=
        fold_left (fun acc field =>
          let? errors := acc in
          let? present := py_in field content in
          if negb present
          then Ok (errors ++ [ {| file := "metadata.json";
                                  message := "Missing required field: " ++ field;
                                  severity := "error" |} ])%list
          else Ok errors)
          required_fields (Ok errors) in
      (* Validate industry *)
      let? errors := check_enum content "industry" VALID_INDUSTRIES errors in
      (* Validate CTA intent *)
      let? errors := check_enum content "cta_intent" VALID_CTA_INTENTS errors in
      (* Validate design style *)
      let? errors := check_enum content "design_style" VALID_DESIGN_STYLES errors in
      (* Check for description (important for RAG) *)
      let? description := method_get content "description" JNull in
      let errors :=
        if negb (truthy description)
        then (errors ++ [ {| file := "metadata.json";
                             message := "Missing description field (important for RAG matching)";
                             severity := "warning" |} ])%list
        else errors in
      (* Check for keywords *)
      let? keywords := method_get content "keywords" JNull in
      let errors :=
        if negb (truthy keywords)
        then (errors ++ [ {| file := "metadata.json";
                             message := "Consider adding keywords for better search matching";
                             severity := "warning" |} ])%list
        else errors in
      Ok errors
  end.

End WithHost.

(* ===================================================================== *)
(** ** The configuration check and the search for templates              *)
(* ===================================================================== *)

(** [s.endswith(suffix)] on strings. *)
Definition str_endswith (suffix s : string) : bool :=
  let n := String.length s in
  let m := String.length suffix in
  (m <=? n)%nat && String.eqb (substring (n - m) m s) suffix.

(** [x.startswith(prefix)], [x.endswith(suffix)]: methods of [str] only. *)
Definition startswith (x : json) (prefix : string) : Result bool :=
  match x with
  | JStr s => Ok (String.prefix prefix s)
  | _ => Raise AttributeError
  end.

Definition endswith (x : json) (suffix : string) : Result bool :=
  match x with
  | JStr s => Ok (str_endswith suffix s)
  | _ => Raise AttributeError
  end.

(** The character class [[a-z0-9-]]. *)
Definition id_char (c : ascii) : bool :=
  let n := nat_of_ascii c in
  ((97 <=? n) && (n <=? 122) || (48 <=? n) && (n <=? 57) || (n =? 45))%nat.

(** What may follow the first character of a match of [[a-z0-9-]+$]:
    more characters of the class, then the end of the string or a line
    feed that ends it. *)
Fixpoint id_rest (s : string) : bool :=
  match s with
  | EmptyString => true
  | String c s' => if id_char c then id_rest s' else String.eqb s nl
  end.

(** [re.match(r'^[a-z0-9-]+$', x)] as a truth value; only a [str] can
    be matched. *)
Definition re_match_id (x : json) : Result bool :=
  match x with
  | JStr (String c s') => Ok (id_char c && id_rest s')
  | JStr EmptyString => Ok false
  | _ => Raise TypeError
  end.

(** [name in VALID_...] for a string. *)
Definition str_in (name : string) (valid : list string) : bool :=
  existsb (String.eqb name) valid.

Section MoreChecks.
Context {rt : PyRuntime} (host : Host).

Definition validate_template_config (config_path : path)
    : Result (list ValidationError) :=
  let errors : list ValidationError := [] in
  match load_json host config_path with
  | Raise JSONDecodeError =>
      Ok (errors ++ [ {| file := "template-config.json";
                         message := "Invalid JSON: " ++ str_exn JSONDecodeError;
                         severity := "error" |} ])%list
  | Raise e => Raise e
  | Ok content =>
      (* Check required fields *)
      let required_fields := [ "template_id"; "name" ] in
      let? errors :=
        fold_left (fun acc field =>
          let? errors := acc in
          let? present := py_in field content in
          if negb present
          then Ok (errors ++ [ {| file := "template-config.json";
                                  message := "Missing required field: " ++ field;
                                  severity := "error" |} ])%list
          else Ok errors)
          required_fields (Ok errors) in
      (* Check template_id format *)
      let? template_id := method_get content "template_id" (JStr "") in
      let? errors :=
        (if truthy template_id
         then let? matched := re_match_id template_id in
              if negb matched
              then Ok (errors ++ [ {| file := "template-config.json";
                                      message := "template_id must be lowercase alphanumeric with dashes";
                                      severity := "error" |} ])%list
              else Ok errors
         else Ok errors) in
      (* Check placeholders *)
      let? present := py_in "placeholders" content in
      if present
      then
        let? placeholders := getitem content "placeholders" in
        let? placeholders := py_iter placeholders in
        fold_left (fun acc placeholder =>
          let? errors := acc in
          let? starts := startswith placeholder "{{" in
          let? bad :=
            (if negb starts then Ok true
             else let? ends := endswith placeholder "}}" in Ok (negb ends)) in
          if bad
          then Ok (errors ++ [ {| file := "template-config.json";
                                  message := "Invalid placeholder format: "
                                               ++ py_str placeholder;
                                  severity := "warning" |} ])%list
          else Ok errors)
          placeholders (Ok errors)
      else Ok errors
  end.

(** The directories are visited in the order in which [iterdir] lists
    them. *)
Definition find_all_templates (base_path : path) : Result (list path) :=
  let? industry_dirs := iterdir host base_path in
  fold_left (fun acc industry_dir =>
    let? templates := acc in
    if is_dir host industry_dir && str_in (path_name industry_dir) VALID_INDUSTRIES
    then
      let? template_dirs := iterdir host industry_dir in
      Ok (fold_left (fun templates template_dir =>
            if is_dir host template_dir
               && negb (String.prefix "." (path_name template_dir))
            then (templates ++ [ template_dir ])%list
            else templates)
            template_dirs templates)
    else Ok templates)
    industry_dirs (Ok []).

End MoreChecks.

End ValidateTemplate.

(* ===================================================================== *)
(** * Specifications of computations                                      *)
(* ===================================================================== *)

Module Hoare.
Import Py Aws.

(** [post m w Q E]: run from [w], [m] either returns [a] in a world [w']
    with [Q a w'], or raises [e] in a world [w'] with [E e w']. *)
Definition post {A} (m : M A) (w : World) (Q : A -> World -> Prop)
    (E : exn -> World -> Prop) : Prop :=
  match m w with
  | (Ok a, w') => Q a w'
  | (Raise e, w') => E e w'
  end.

(** The two stores of a world, without its log and clock reading. *)
Definition same_stores (w w' : World) : Prop :=
  s3 w' = s3 w /\ dynamodb w' = dynamodb w.

(** [w'] was reached from [w] by logging only. *)
Definition only_logged (w w' : World) : Prop :=
  s3 w' = s3 w /\ dynamodb w' = dynamodb w /\ ticks w' = ticks w.

End Hoare.

(* ===================================================================== *)
(** * Concrete inputs                                                     *)
(* ===================================================================== *)

Module Examples.
Import Py Aws Os.

Definition is_upper (c : ascii) : bool :=
  let n := nat_of_ascii c in (65 <=? n)%nat && (n <=? 90)%nat.
Definition is_lower (c : ascii) : bool :=
  let n := nat_of_ascii c in (97 <=? n)%nat && (n <=? 122)%nat.
Definition to_upper (c : ascii) : ascii :=
  if is_lower c then ascii_of_nat (nat_of_ascii c - 32) else c.
Definition to_lower (c : ascii) : ascii :=
  if is_upper c then ascii_of_nat (nat_of_ascii c + 32) else c.

(** [str.title] on ASCII text: a letter is upper-cased after a
    non-letter and lower-cased after a letter. *)
Fixpoint title_from (after_letter : bool) (s : string) : string :=
  match s with
  | EmptyString => EmptyString
  | String c s' =>
      if is_upper c || is_lower c
      then String (if after_letter then to_lower c else to_upper c) (title_from true s')
      else String c (title_from false s')
  end.

Definition exn_name (e : exn) : string :=
  match e with
  | KeyError => "KeyError"
  | TypeError => "TypeError"
  | AttributeError => "AttributeError"
  | JSONDecodeError => "JSONDecodeError"
  | OSError => "OSError"
  | ClientError => "ClientError"
  | SystemExit _ => "SystemExit"
  end.

(** A runtime for plain ASCII text without quotes or escapes, on which
    the examples are run. *)
#[export] Instance ascii_runtime : PyRuntime := {|
  repr_str s := "'" ++ s ++ "'";
  str_float q := pretty (Qnum q) ++ "/" ++ pretty (Zpos (Qden q));
  str_title s := title_from false s;
  str_exn e := exn_name e;
|}.

Definition generator : GenerateEmbeddings.EmbeddingGenerator :=
  {| GenerateEmbeddings.region_name := "eu-west-1";
     GenerateEmbeddings.environment := "dev" |}.

Definition processor : ProcessExisting.ExistingTemplateProcessor :=
  {| ProcessExisting.region_name := "eu-west-1";
     ProcessExisting.environment := "dev" |}.

(** The record of the end-to-end example. *)
Definition t1 : json :=
  JObj [ ("template_id", JStr "t1");
         ("industry", JStr "finance");
         ("cta_intent", JStr "contact");
         ("design_style", JStr "modern");
         ("sections", JArr [ JStr "hero"; JStr "about"; JStr "contact" ]) ].

Definition meta (id industry : string) : json :=
  JObj [ ("template_id", JStr id);
         ("name", JStr id);
         ("industry", JStr industry);
         ("cta_intent", JStr "contact");
         ("design_style", JStr "modern") ].

Definition base_path : path := [ "repo" ].

(** A checkout with three templates under [technology]; the metadata of
    the second one is not valid JSON. *)
Definition tree_abc : gmap path node :=
  list_to_map
    [ ([ "repo" ], Dir [ "technology"; "scripts" ]);
      ([ "repo"; "technology" ], Dir [ "a"; "b"; "c" ]);
      ([ "repo"; "technology"; "a" ], Dir [ "metadata.json" ]);
      ([ "repo"; "technology"; "a"; "metadata.json" ], File (Some (meta "a" "technology")));
      ([ "repo"; "technology"; "b" ], Dir [ "metadata.json" ]);
      ([ "repo"; "technology"; "b"; "metadata.json" ], File None);
      ([ "repo"; "technology"; "c" ], Dir [ "metadata.json" ]);
      ([ "repo"; "technology"; "c"; "metadata.json" ], File (Some (meta "c" "technology"))) ].

(** The same checkout with all three records well formed. *)
Definition tree_ok : gmap path node :=
  <[ [ "repo"; "technology"; "b"; "metadata.json" ] :=
       File (Some (meta "b" "technology")) ]> tree_abc.

(** A checkout whose only template declares an industry outside every
    list of valid industries. *)
Definition tree_spaceflight : gmap path node :=
  list_to_map
    [ ([ "repo" ], Dir [ "technology" ]);
      ([ "repo"; "technology" ], Dir [ "rocket" ]);
      ([ "repo"; "technology"; "rocket" ], Dir [ "metadata.json" ]);
      ([ "repo"; "technology"; "rocket"; "metadata.json" ],
       File (Some (meta "rocket" "spaceflight"))) ].

(** A checkout holding the record of the end-to-end example. *)
Definition tree_t1 : gmap path node :=
  list_to_map
    [ ([ "repo" ], Dir [ "finance" ]);
      ([ "repo"; "finance" ], Dir [ "t1" ]);
      ([ "repo"; "finance"; "t1" ], Dir [ "metadata.json" ]);
      ([ "repo"; "finance"; "t1"; "metadata.json" ], File (Some t1)) ].

(** A model answer of two components: shorter than the dimension asked. *)
Definition short_vector : json := JArr [ JFloat (1 # 2); JFloat (1 # 4) ].

Definition wall_clock (n : nat) : string := "2026-01-01T00:00:" ++ pretty n.

Definition host_of (tree : gmap path node) : Host :=
  {| files := tree;
     clock := wall_clock;
     bedrock := fun _ => Ok (JObj [ ("embedding", short_vector) ]);
     s3_accepts := fun _ _ => true;
     dynamodb_accepts := fun _ _ => true |}.

(** As [host_of], but the object store rejects the vector of template [b]. *)
Definition host_rejecting_b : Host :=
  {| files := tree_ok;
     clock := wall_clock;
     bedrock := fun _ => Ok (JObj [ ("embedding", short_vector) ]);
     s3_accepts := fun _ k => negb (String.eqb k "template-embeddings/b.json");
     dynamodb_accepts := fun _ _ => true |}.

(** As [host_of], but the metadata store rejects the item of template
    [b]. *)
Definition host_rejecting_item_b : Host :=
  {| files := tree_ok;
     clock := wall_clock;
     bedrock := fun _ => Ok (JObj [ ("embedding", short_vector) ]);
     s3_accepts := fun _ _ => true;
     dynamodb_accepts := fun _ item =>
       match dict_get "template_id" item with
       | Some (JStr id) => negb (String.eqb id "b")
       | _ => true
       end |}.

(** The metadata of a template with a float among its CSS variables. *)
Definition meta_ratio (id industry : string) : json :=
  JObj [ ("template_id", JStr id);
         ("name", JStr id);
         ("industry", JStr industry);
         ("cta_intent", JStr "contact");
         ("design_style", JStr "modern");
         ("css_variables", JObj [ ("--line-height", JFloat (3 # 2)) ]) ].

(** The checkout [tree_ok] with that float in the metadata of [b]. *)
Definition tree_ratio : gmap path node :=
  <[ [ "repo"; "technology"; "b"; "metadata.json" ] :=
       File (Some (meta_ratio "b" "technology")) ]> tree_abc.

(** The model answers without an [embedding] field. *)
Definition host_no_embedding : Host :=
  {| files := tree_t1;
     clock := wall_clock;
     bedrock := fun _ => Ok (JObj [ ("message", JStr "ok") ]);
     s3_accepts := fun _ _ => true;
     dynamodb_accepts := fun _ _ => true |}.

Definition empty_world : World :=
  {| s3 := ∅; dynamodb := ∅; log := []; ticks := 0 |}.

(** The world left by a computation, and what it returned. *)
Definition world_after {A} (m : M A) (w : World) : World := snd (m w).
Definition outcome {A} (m : M A) (w : World) : Result A := fst (m w).

(** A checkout with the templates [a] and [b] only. *)
Definition tree_ab : gmap path node :=
  list_to_map
    [ ([ "repo" ], Dir [ "technology"; "scripts" ]);
      ([ "repo"; "technology" ], Dir [ "a"; "b" ]);
      ([ "repo"; "technology"; "a" ], Dir [ "metadata.json" ]);
      ([ "repo"; "technology"; "a"; "metadata.json" ], File (Some (meta "a" "technology")));
      ([ "repo"; "technology"; "b" ], Dir [ "metadata.json" ]);
      ([ "repo"; "technology"; "b"; "metadata.json" ], File (Some (meta "b" "technology"))) ].

Definition vectors : string := "bbws-dev-vectors".
Definition index_key : string := "template-embeddings/index.json".

(** The [template_id]s listed by the index document of a world. *)
Definition index_ids (w : World) : list json :=
  match s3 w !! (vectors, index_key) with
  | Some (JObj d) =>
      match dict_get "templates" d with
      | Some (JArr l) =>
          map (fun t => match t with
                        | JObj e => get e "template_id" JNull
                        | _ => JNull
                        end) l
      | _ => []
      end
  | _ => []
  end.

(** The field [k] of the metadata item stored for template [id]. *)
Definition item_field (w : World) (id k : string) : option json :=
  match dynamodb w !! ("rag-templates-dev", ("TEMPLATE", "TEMPLATE#" ++ id)) with
  | Some item => dict_get k item
  | None => None
  end.

(** Registry documents for the second script. *)
Definition registry_of (ids : list string) : json :=
  JObj [ ("total_templates", JInt (Z.of_nat (length ids)));
         ("templates", JArr (map (fun id => meta id "technology") ids)) ].

Definition registry_key : string * string :=
  (ProcessExisting.FIGMA_ASSETS_BUCKET, "templates/template-registry.json").

Definition with_registry (ids : list string) (w : World) : World :=
  set_s3 (insert registry_key (registry_of ids)) w.

(** A catalog entry with both slug fields, the first of them empty, and
    with values of its own for the two fields the script fixes. *)
Definition site_empty_site_slug : json :=
  JObj [ ("site_slug", JStr "");
         ("slug", JStr "foo");
         ("cta_intent", JStr "purchase");
         ("design_style", JStr "bold") ].

Definition site_acme : json :=
  JObj [ ("slug", JStr "acme-shop");
         ("industry", JStr "retail");
         ("pages", JInt 7);
         ("cta_intent", JStr "purchase");
         ("design_style", JStr "bold") ].

(** An index document that lists the template [a]. *)
Definition stored_index : dict :=
  [ ("templates", JArr [ JObj [ ("template_id", JStr "a");
                                ("name", JStr "a");
                                ("industry", JStr "technology") ] ]) ].

(** The fields of a record that the index update reads. *)
Definition brief (id : string) : dict :=
  [ ("template_id", JStr id); ("name", JStr id); ("industry", JStr "technology") ].

Definition world_with_index : World :=
  set_s3 (insert (vectors, index_key) (JObj stored_index)) empty_world.

(** A registry whose second entry is a string, not an object. *)
Definition registry_with_string : dict :=
  [ ("templates", JArr [ meta "a" "technology"; JStr "b"; meta "c" "technology" ]) ].

(** A configuration with a well-formed identifier and one placeholder. *)
Definition config_a : dict :=
  [ ("template_id", JStr "modern-bistro");
    ("name", JStr "Modern Bistro");
    ("placeholders", JArr [ JStr "{{BUSINESS_NAME}}" ]) ].

(** A checkout whose only template keeps a list in its metadata. *)
Definition tree_list : gmap path node :=
  list_to_map
    [ ([ "repo" ], Dir [ "technology" ]);
      ([ "repo"; "technology" ], Dir [ "a" ]);
      ([ "repo"; "technology"; "a" ], Dir [ "metadata.json"; "template-config.json" ]);
      ([ "repo"; "technology"; "a"; "metadata.json" ], File (Some (JArr [ JStr "a" ])));
      ([ "repo"; "technology"; "a"; "template-config.json" ], File (Some (JObj config_a))) ].

End Examples.

(* ===================================================================== *)
(** * Vocabulary of the statements                                        *)
(* ===================================================================== *)

Module Spec.
Import Py Aws Os Hoare.

(** ** The embedding text of the end-to-end example *)

Definition claimed_sentence : string :=
  "This is a modern template for the finance industry, optimized for contact conversions with sections including hero, about, contact.".

Definition summary_line_1 : string :=
  "This is a modern website template for the finance industry,".

Definition summary_line_2 : string :=
  "optimized for contact conversions with sections including hero, about, contact.".

Definition t1_text : string :=
  "Industry: finance CTA Intent: contact Design Style: modern Sections: hero, about, contact "
    ++ nl ++ "        " ++ summary_line_1
    ++ nl ++ "        " ++ summary_line_2
    ++ nl ++ "        ".

(** ** The answer of the embedding model *)

(** The text submitted to the model: the first [4 * MAX_INPUT_TOKENS]
    characters of the input. *)
Definition submitted (text : string) : string :=
  if Z.of_nat (String.length text) >? GenerateEmbeddings.MAX_INPUT_TOKENS * 4
  then str_take (Z.to_nat (GenerateEmbeddings.MAX_INPUT_TOKENS * 4)) text
  else text.

(** Reading the answer of the model failed with [e]: the call itself,
    the access to the [embedding] field, or (where the length is looked
    at) taking its length. *)
Definition answer_failed (host : Host) (text : string) (with_len : bool) (e : exn) : Prop :=
  bedrock host (submitted text) = Raise e \/
  exists body,
    bedrock host (submitted text) = Ok body /\
    (method_get body "embedding" (JArr []) = Raise e \/
     with_len = true /\
     exists v, method_get body "embedding" (JArr []) = Ok v /\ py_len v = Raise e).

(** The model answered and [v] is the [embedding] field of the answer
    (the empty list when the answer has no such field). *)
Definition answered (host : Host) (text : string) (v : json) : Prop :=
  exists body,
    bedrock host (submitted text) = Ok body /\
    method_get body "embedding" (JArr []) = Ok v.

(** ** Entries of the catalog of migrated sites *)

Section MigratedSites.
Context {rt : PyRuntime}.

(** The slug the script reads from a catalog entry: its [site_slug]
    field if it has one, else its [slug] field, else the empty string. *)
Definition selected_slug (site : dict) : json :=
  get site "site_slug" (get site "slug" (JStr "")).

(** A record of a migrated site with the given slug. *)
Definition migrated_record (slug : json) (r : dict) : Prop :=
  dict_get "template_id" r = Some (JStr ("migrated-" ++ py_str slug)) /\
  dict_get "cta_intent" r = Some (JStr "contact") /\
  dict_get "design_style" r = Some (JStr "wordpress-migrated").

Definition announcement (slug : json) : string :=
  "Processing migrated template: migrated-" ++ py_str slug.

Definition failure_report (slug : json) (e : exn) : string :=
  "Error processing migrated " ++ py_str slug ++ ": " ++ str_exn e.

(** An entry that is not skipped is announced in the log; then either
    one more record of that site is there, or the same records and the
    error logged last. *)
Definition visited (slug : json) (embeddings : list dict) (w : World)
    (out : list dict) (w' : World) : Prop :=
  (exists rest, log w' = (log w ++ (INFO, announcement slug) :: rest)%list) /\
  ((exists r, out = (embeddings ++ [r])%list /\ migrated_record slug r) \/
   (out = embeddings /\
    exists e before, log w' = (before ++ [(ERROR, failure_report slug e)])%list)).

(** What one catalog entry leaves behind: nothing at all when it is
    skipped. *)
Definition site_outcome (site : dict) (embeddings : list dict) (w : World)
    (out : list dict) (w' : World) : Prop :=
  let slug := selected_slug site in
  if truthy slug
  then visited slug embeddings w out w'
  else out = embeddings /\ w' = w.
End MigratedSites.

(** ** The index document *)

(** The key of the index document in the vectors bucket. *)
Definition INDEX_KEY : string := "template-embeddings/index.json".

(** An index document whose [vectors_count] is the number of entries of
    its [templates]. *)
Definition index_consistent (doc : json) : Prop :=
  exists (d : dict) (templates : json) (n : nat),
    doc = JObj d /\
    dict_get "templates" d = Some templates /\
    py_len templates = Ok n /\
    dict_get "vectors_count" d = Some (JInt (Z.of_nat n)).

(** The index document stored in [bucket] is consistent. *)
Definition index_written (bucket : string) (w : World) : Prop :=
  exists doc, s3 w !! (bucket, INDEX_KEY) = Some doc /\ index_consistent doc.

(** ** Records and metadata items *)

(** The keys of a record returned by [process_template], in order. *)
Definition RESULT_KEYS : list string :=
  [ "template_id"; "name"; "industry"; "cta_intent"; "design_style"; "sections";
    "keywords"; "color_palette"; "customizable_fields"; "css_variables";
    "description"; "figma_source"; "s3_path"; "preview_url"; "embedding_text";
    "embedding"; "embedding_model"; "embedding_dimension"; "status"; "created_at";
    "updated_at" ].

(** Where [process_template] says the template at [p] is stored. *)
Definition stored_at (p : path) : string :=
  "website-templates/" ++ path_name (path_parent p) ++ "/" ++ path_name p ++ "/".

(** [d] is a record made by [process_template] from the metadata found
    at [p]: the identifier and the industry are copied from the metadata
    (with their defaults), the status is "PUBLISHED". *)
Definition indexed_from (host : Host) (p : path) (d : dict) : Prop :=
  exists md : dict,
    load_json host (p ++ [ "metadata.json" ])%list = Ok (JObj md) /\
    map fst d = RESULT_KEYS /\
    dict_get "template_id" d = Some (get md "template_id" (JStr (path_name p))) /\
    dict_get "industry" d = Some (get md "industry" (JStr "other")) /\
    dict_get "s3_path" d = Some (JStr (stored_at p)) /\
    dict_get "status" d = Some (JStr "PUBLISHED").

(** The status of a record or of a metadata item is "PUBLISHED". *)
Definition published (d : dict) : Prop :=
  dict_get "status" d = Some (JStr "PUBLISHED").

(** Every metadata item of [w'] was already in [w], or has the status
    "PUBLISHED". *)
Definition published_since (w w' : World) : Prop :=
  forall k item,
    dynamodb w' !! k = Some item ->
    dynamodb w !! k = Some item \/ published item.

(** [d] is a record made by [process_template] from some template of
    the checkout. *)
Definition from_checkout (host : Host) (d : dict) : Prop :=
  exists p, indexed_from host p d.

(** The records [es] are all published and the world [w'] holds, next to
    what [w0] held, published items only. *)
Definition kept_and_published (w0 : World) (es : list dict) (w' : World) : Prop :=
  published_since w0 w' /\ Forall published es.

(** The entry with which the validator reports an industry outside its
    list. *)
Definition invalid_industry {rt : PyRuntime} (v : json) : ValidateTemplate.ValidationError :=
  {| ValidateTemplate.file := "metadata.json";
     ValidateTemplate.message := "Invalid industry: " ++ py_str v;
     ValidateTemplate.severity := "error" |}.

Definition rocket : path := [ "repo"; "technology"; "rocket" ].

(** ** Templates that can be indexed *)

(** [what] contains [needle]. *)
Definition mentions (what needle : string) : Prop :=
  exists before after, what = before ++ needle ++ after.

(** The vector [generate_embedding] of [generate_embeddings.py] returns
    for a text, or the exception it raises: a function of the model's
    answer alone. *)
Definition embedding_of (host : Host) (text : string) : Result json :=
  let? body := bedrock host (submitted text) in
  let? v := method_get body "embedding" (JArr []) in
  let? _ := py_len v in
  Ok v.

(** The template at [p] can be indexed: its metadata is there and loads,
    the text can be built from it, and the model answers for that text.
    Nothing but the template itself and the model's answer for it enters. *)
Definition indexable {rt : PyRuntime} (host : Host)
    (self : GenerateEmbeddings.EmbeddingGenerator) (p : path) : bool :=
  exists_ host (p ++ [ "metadata.json" ])%list &&
  match load_json host (p ++ [ "metadata.json" ])%list with
  | Ok metadata =>
      match GenerateEmbeddings.build_embedding_text self metadata with
      | Ok text => is_ok (embedding_of host text)
      | Raise _ => false
      end
  | Raise _ => false
  end.

(** The entries of an industry directory that are taken for templates. *)
Definition template_dirs (host : Host) (entries : list path) : list path :=
  List.filter (fun d => is_dir host d && negb (String.prefix "." (path_name d))) entries.

(** The template directories a full run visits, in order. *)
Fixpoint candidates_in (host : Host) (base : path) (industries : list string)
    : Result (list path) :=
  match industries with
  | [] => Ok []
  | industry :: rest =>
      if exists_ host (base ++ [ industry ])%list
      then let? entries := iterdir host (base ++ [ industry ])%list in
           let? more := candidates_in host base rest in
           Ok (template_dirs host entries ++ more)%list
      else candidates_in host base rest
  end.

Definition candidates (host : Host) (base : path) : Result (list path) :=
  candidates_in host base GenerateEmbeddings.VALID_INDUSTRIES.

(** The records [es] are those of the templates [ps], one each, in order. *)
Definition records_of (es : list dict) (ps : list path) : Prop :=
  map (dict_get "s3_path") es = map (fun p => Some (JStr (stored_at p))) ps.

(** What [process_template] leaves for the template at [p]: the stores
    as they were; a record exactly when the template is indexable; and,
    when there is none, a last log entry that names the path. *)
Definition template_outcome {rt : PyRuntime} (host : Host)
    (self : GenerateEmbeddings.EmbeddingGenerator) (p : path) (w : World)
    (r : option dict) (w' : World) : Prop :=
  same_stores w w' /\
  match r with
  | Some d =>
      indexable host self p = true /\
      dict_get "s3_path" d = Some (JStr (stored_at p))
  | None =>
      indexable host self p = false /\
      exists lvl what before,
        log w' = (before ++ [(lvl, what)])%list /\ mentions what (path_str p)
  end.

(** ** Two runs in a row *)

(** The fields that hold a clock reading. *)
Definition TIME_KEYS : list string := [ "created_at"; "updated_at"; "generated_at" ].

Definition is_time_key (k : string) : bool := existsb (String.eqb k) TIME_KEYS.

(** A dictionary with its clock readings blanked. *)
Definition erase_time (d : dict) : dict :=
  map (fun kv => if is_time_key (fst kv) then (fst kv, JNull) else kv) d.

(** A stored document with the clock readings of its top level blanked. *)
Definition erase_doc (j : json) : json :=
  match j with
  | JObj d => JObj (erase_time d)
  | _ => j
  end.

(** Two records that differ in clock readings at most. *)
Definition alike (d1 d2 : dict) : Prop := erase_time d1 = erase_time d2.

(** Both stores of [w2] hold, under the same keys, what those of [w1]
    hold, clock readings apart. *)
Definition same_up_to_time (w1 w2 : World) : Prop :=
  (forall k, erase_doc <$> s3 w2 !! k = erase_doc <$> s3 w1 !! k) /\
  (forall k, erase_time <$> dynamodb w2 !! k = erase_time <$> dynamodb w1 !! k).

(** Two runs side by side that take the same turns: both return, with
    [Q], or both raise, with [E]. *)
Definition lockstep {A} (m1 m2 : M A) (w1 w2 : World)
    (Q : A -> World -> A -> World -> Prop) (E : exn -> World -> exn -> World -> Prop)
    : Prop :=
  match m1 w1, m2 w2 with
  | (Ok a1, w1'), (Ok a2, w2') => Q a1 w1' a2 w2'
  | (Raise e1, w1'), (Raise e2, w2') => E e1 w1' e2 w2'
  | _, _ => False
  end.

(** Two runs side by side, looked at only when both return. *)
Definition both_return {A} (m1 m2 : M A) (w1 w2 : World)
    (Q : A -> World -> A -> World -> Prop) : Prop :=
  match m1 w1, m2 w2 with
  | (Ok a1, w1'), (Ok a2, w2') => Q a1 w1' a2 w2'
  | _, _ => True
  end.

(** Any two exceptions, in any two worlds. *)
Definition any_exn : exn -> World -> exn -> World -> Prop := fun _ _ _ _ => True.

(** While a first run, now in [wa], and a second run, now in [wb],
    proceed side by side: under every key the second world holds what
    the first holds, clock readings apart, or still what it held when the
    second run began ([docs], [items]). *)
Definition catching_up (docs : gmap (string * string) json)
    (items : gmap (string * (string * string)) dict) (wa wb : World) : Prop :=
  (forall k, erase_doc <$> s3 wb !! k = erase_doc <$> s3 wa !! k \/
             s3 wb !! k = docs !! k) /\
  (forall k, erase_time <$> dynamodb wb !! k = erase_time <$> dynamodb wa !! k \/
             dynamodb wb !! k = items !! k).

(** Two outcomes of [process_template] that differ in clock readings at
    most. *)
Definition alike_opt (r1 r2 : option dict) : Prop :=
  match r1, r2 with
  | Some d1, Some d2 => alike d1 d2
  | None, None => True
  | _, _ => False
  end.

(** ** Merging into the index *)

(** The index entry that [_update_vectors_index] makes of a record. *)
Definition merged_entry (emb : dict) : json :=
  JObj [ ("template_id", get emb "template_id" JNull);
         ("name", get emb "name" JNull);
         ("industry", get emb "industry" JNull);
         ("source", get emb "source" (JStr "unknown")) ].

(** The record's [template_id] is not among the identifiers listed. *)
Definition unseen (existing_ids : list json) (emb : dict) : bool :=
  negb (mem (get emb "template_id" JNull) existing_ids).

(** ** Values by their kind *)

Definition is_str (x : json) : bool := match x with JStr _ => true | _ => false end.
Definition is_obj (x : json) : bool := match x with JObj _ => true | _ => false end.
Definition strings_only (l : list json) : bool := forallb is_str l.

(** What can be iterated over and yields strings only, as [join]
    requires: a list of strings, a string, a dictionary. *)
Definition joinable (x : json) : bool :=
  match x with
  | JArr l => strings_only l
  | JStr _ | JObj _ => true
  | _ => false
  end.

(** ** Metadata from which a text can be built *)

(** Sections are also sliced, which a dictionary does not allow. *)
Definition sections_fit (x : json) : bool :=
  negb (truthy x) || (joinable x && negb (is_obj x)).
Definition keywords_fit (x : json) : bool := negb (truthy x) || joinable x.
Definition palette_fit (x : json) : bool := negb (truthy x) || is_obj x.
Definition description_fit (x : json) : bool := negb (truthy x) || is_str x.

(** The metadata from which [build_embedding_text] of
    [generate_embeddings.py] can build a text. *)
Definition text_buildable (metadata : json) : bool :=
  match metadata with
  | JObj d =>
      sections_fit (get d "sections" (JArr []))
      && palette_fit (get d "color_palette" (JObj []))
      && keywords_fit (get d "keywords" (JArr []))
      && description_fit (get d "description" (JStr ""))
  | _ => false
  end.

(** The entries from which [build_embedding_text] of
    [process_existing_templates.py] can build a text: objects whose
    [features] are strings (or absent, empty or otherwise false). *)
Definition entry_buildable (template : json) : bool :=
  match template with
  | JObj d =>
      negb (truthy (get d "features" JNull)) || joinable (get d "features" JNull)
  | _ => false
  end.

(** ** How a run may end *)

(** A record has the fields of those made by [process_template]. *)
Definition complete (d : dict) : Prop := map fst d = RESULT_KEYS.

(** ** What the stores hold after a save *)

Section Keys.
Context {rt : PyRuntime}.

(** The key under which the vector document of a record is stored. *)
Definition vector_key (d : dict) : string :=
  "template-embeddings/" ++ py_str (get d "template_id" JNull) ++ ".json".

(** The bucket holds, under the key of [d], the identifier and the
    vector of a record of [es] that has this key. *)
Definition vector_stored (bucket : string) (es : list dict) (w : World) (d : dict) : Prop :=
  exists (d' : dict) (doc : dict),
    In d' es /\ vector_key d' = vector_key d /\
    s3 w !! (bucket, vector_key d) = Some (JObj doc) /\
    dict_get "id" doc = dict_get "template_id" d' /\
    dict_get "vector" doc = dict_get "embedding" d'.

(** Outside the keys of the records [es], the bucket holds in [w'] what
    it held in [w]. *)
Definition others_kept (bucket : string) (es : list dict) (w w' : World) : Prop :=
  forall k, (forall d, In d es -> vector_key d <> k) ->
            s3 w' !! (bucket, k) = s3 w !! (bucket, k).

(** A metadata item as [save_to_dynamodb] writes it to [table]: stored
    under the key made of "TEMPLATE" and of the identifier of the
    template, naming the vector document by the same identifier, and
    without the vector itself. *)
Definition keyed_by_id (table : string) (k : string * (string * string)) (item : dict)
    : Prop :=
  exists id : json,
    dict_get "template_id" item = Some id /\
    k = (table, ("TEMPLATE", "TEMPLATE#" ++ py_str id)) /\
    dict_get "PK" item = Some (JStr "TEMPLATE") /\
    dict_get "SK" item = Some (JStr ("TEMPLATE#" ++ py_str id)) /\
    dict_get "vector_id" item = Some id /\
    dict_get "embedding" item = None.

(** Under every key the metadata store holds in [w'] what it held in
    [w] (nothing, if it held nothing), or an item that is keyed by its
    identifier in [table]: no item is removed, and none is written under
    a key that is not that of its identifier. *)
Definition keyed_since (table : string) (w w' : World) : Prop :=
  forall k,
    dynamodb w' !! k = dynamodb w !! k \/
    exists item, dynamodb w' !! k = Some item /\ keyed_by_id table k item.

(** A vector document stored in [bucket] under the key of the
    identifier it carries. *)
Definition vector_by_id (bucket : string) (k : string * string) (doc : json) : Prop :=
  exists (id : json) (d : dict),
    doc = JObj d /\ dict_get "id" d = Some id /\
    k = (bucket, "template-embeddings/" ++ py_str id ++ ".json").

(** Under every key the object store holds in [w'] what it held in [w]
    (nothing, if it held nothing), or the key is that of the index
    document of [bucket], or it holds a vector document stored under the
    key of its identifier. *)
Definition vectors_since (bucket : string) (w w' : World) : Prop :=
  forall k,
    s3 w' !! k = s3 w !! k \/
    k = (bucket, INDEX_KEY) \/
    exists doc, s3 w' !! k = Some doc /\ vector_by_id bucket k doc.

(** The metadata item that [save_to_dynamodb] of [generate_embeddings.py]
    writes for a record. *)
Definition metadata_item (d : dict) : dict :=
  [ ("PK", JStr "TEMPLATE");
    ("SK", JStr ("TEMPLATE#" ++ py_str (get d "template_id" JNull)));
    ("template_id", get d "template_id" JNull);
    ("name", get d "name" JNull);
    ("industry", get d "industry" JNull);
    ("cta_intent", get d "cta_intent" JNull);
    ("design_style", get d "design_style" JNull);
    ("sections", get d "sections" JNull);
    ("keywords", get d "keywords" JNull);
    ("color_palette", get d "color_palette" JNull);
    ("customizable_fields", get d "customizable_fields" JNull);
    ("css_variables", get d "css_variables" JNull);
    ("description", get d "description" JNull);
    ("figma_source", get d "figma_source" JNull);
    ("s3_path", get d "s3_path" JNull);
    ("preview_url", get d "preview_url" JNull);
    ("vector_id", get d "template_id" JNull);
    ("embedding_model", get d "embedding_model" JNull);
    ("status", get d "status" JNull);
    ("created_at", get d "created_at" JNull);
    ("updated_at", get d "updated_at" JNull);
    ("GSI1PK", JStr ("INDUSTRY#" ++ py_str (get d "industry" JNull)));
    ("GSI1SK", JStr ("STATUS#" ++ py_str (get d "status" JNull) ++ "#"
                       ++ py_str (get d "template_id" JNull))) ].

(** The table takes the item: the client can serialise it (it holds no
    float) and the store accepts it. *)
Definition item_accepted (host : Host) (table : string) (item : dict) : bool :=
  negb (has_float (JObj item)) && dynamodb_accepts host table item.

(** Every write that the two saves of [generate_embeddings.py] make for
    the records [es] is accepted: the vector document of each record,
    the index document, the metadata item of each record. *)
Definition writes_accepted (host : Host) (self : GenerateEmbeddings.EmbeddingGenerator)
    (es : list dict) : Prop :=
  (forall d, In d es ->
             s3_accepts host (GenerateEmbeddings.vectors_bucket self) (vector_key d) = true) /\
  s3_accepts host (GenerateEmbeddings.vectors_bucket self) INDEX_KEY = true /\
  (forall d, In d es ->
             item_accepted host (GenerateEmbeddings.templates_table self) (metadata_item d)
             = true).

(** A write of the two saves failed: one of the writes for the records
    [es], which come from the checkout, is not accepted, and the run ends
    with the error of the store or of the client. *)
Definition write_failed (host : Host) (self : GenerateEmbeddings.EmbeddingGenerator)
    (es : list dict) (e : exn) : Prop :=
  (e = ClientError \/ e = TypeError) /\ ~ writes_accepted host self es.

(** How a run of [main] may end in failure: by leaving with the status
    0 (nothing to index) or 1 (no such template) or with an error of the
    file system, the stores being as they were, or with the failure of
    one of its writes. *)
Definition expected_end (host : Host) (self : GenerateEmbeddings.EmbeddingGenerator)
    (base : path) (template : option path) (w : World) (e : exn) (w' : World) : Prop :=
  match e with
  | SystemExit code =>
      same_stores w w' /\
      (code = 0 \/
       code = 1 /\ exists t, template = Some t /\ exists_ host (base ++ t)%list = false)
  | OSError => same_stores w w' /\ template = None
  | ClientError | TypeError =>
      exists es, Forall (from_checkout host) es /\ write_failed host self es e
  | _ => False
  end.

(** The sort key under which the metadata item of a record is stored. *)
Definition item_key (d : dict) : string :=
  "TEMPLATE#" ++ py_str (get d "template_id" JNull).

(** The table holds, under the key of [d], an item with the identifier
    and the storage path of a record of [es] that has this key. *)
Definition item_stored (table : string) (es : list dict) (w : World) (d : dict) : Prop :=
  exists (d' : dict) (item : dict),
    In d' es /\ item_key d' = item_key d /\
    dynamodb w !! (table, ("TEMPLATE", item_key d)) = Some item /\
    dict_get "template_id" item = dict_get "template_id" d' /\
    dict_get "s3_path" item = dict_get "s3_path" d'.

(** Among the metadata items that [w'] holds and [w] did not, no two
    keys hold an item of the same [template_id]. *)
Definition one_item_per_id (w w' : World) : Prop :=
  forall k1 k2 (i1 i2 : dict),
    dynamodb w' !! k1 = Some i1 -> dynamodb w !! k1 <> Some i1 ->
    dynamodb w' !! k2 = Some i2 -> dynamodb w !! k2 <> Some i2 ->
    dict_get "template_id" i1 = dict_get "template_id" i2 ->
    k1 = k2.

(** Among the documents that [w'] holds and [w] did not, the index
    document of [bucket] apart, no two keys hold a document of the same
    [id]. *)
Definition one_vector_per_id (bucket : string) (w w' : World) : Prop :=
  forall k1 k2 (d1 d2 : dict),
    s3 w' !! k1 = Some (JObj d1) -> s3 w !! k1 <> Some (JObj d1) ->
    k1 <> (bucket, INDEX_KEY) ->
    s3 w' !! k2 = Some (JObj d2) -> s3 w !! k2 <> Some (JObj d2) ->
    k2 <> (bucket, INDEX_KEY) ->
    dict_get "id" d1 = dict_get "id" d2 ->
    k1 = k2.

(** What a run that collected the records [es] did to the stores
    between [w] and [w']: every write is an upsert at a key made of the
    [template_id].  Nothing was removed (the index document apart, which
    is rewritten); what was added or replaced is a vector document or a
    metadata item under the key of its own identifier, at most one for
    an identifier; and every record of [es] has its vector document and
    its metadata item under the key of its identifier. *)
Definition upserted_by_id (self : GenerateEmbeddings.EmbeddingGenerator)
    (es : list dict) (w w' : World) : Prop :=
  vectors_since (GenerateEmbeddings.vectors_bucket self) w w' /\
  keyed_since (GenerateEmbeddings.templates_table self) w w' /\
  one_vector_per_id (GenerateEmbeddings.vectors_bucket self) w w' /\
  one_item_per_id w w' /\
  forall d, In d es ->
    (vector_key d <> INDEX_KEY ->
     vector_stored (GenerateEmbeddings.vectors_bucket self) es w' d) /\
    item_stored (GenerateEmbeddings.templates_table self) es w' d.
End Keys.

(** ** What the constructors log *)

(** The lines that constructing an [ExistingTemplateProcessor] logs. *)
Definition processor_lines (self : ProcessExisting.ExistingTemplateProcessor)
    : list (level * string) :=
  [ (INFO, "ExistingTemplateProcessor initialized:");
    (INFO, "  Region: " ++ ProcessExisting.region_name self);
    (INFO, "  Vectors bucket: " ++ ProcessExisting.vectors_bucket self);
    (INFO, "  DynamoDB table: " ++ ProcessExisting.templates_table self) ].

(** ** Records of recreated templates *)

(** A record that [process_recreated_templates] made of one of the
    registry entries [ts]. *)
Definition recreated_record (ts : list json) (r : dict) : Prop :=
  dict_get "source" r = Some (JStr "recreated") /\
  dict_get "status" r = Some (JStr "PUBLISHED") /\
  exists t, In (JObj t) ts /\ dict_get "template_id" r = Some (get t "template_id" JNull).

(** ** Verdicts of the validator *)

(** [e.severity == "error"] *)
Definition is_error (e : ValidateTemplate.ValidationError) : bool :=
  String.eqb (ValidateTemplate.severity e) "error".

(** [not any(e.severity == "error" for e in errors)]: the verdict
    [validate_template] draws from a report. *)
Definition no_errors (errors : list ValidateTemplate.ValidationError) : bool :=
  negb (existsb is_error errors).

(** The value of an enumerated field is in its list, or the field is
    absent, empty or otherwise false. *)
Definition enum_fits (d : dict) (field : string) (valid : list string) : bool :=
  negb (truthy (get d field (JStr ""))) || mem (get d field (JStr "")) (map JStr valid).

(** The metadata that [validate_metadata] reports no error for. *)
Definition metadata_accepted (d : dict) : bool :=
  forallb (fun field => has_key field d)
          [ "template_id"; "name"; "industry"; "cta_intent"; "design_style" ]
  && enum_fits d "industry" ValidateTemplate.VALID_INDUSTRIES
  && enum_fits d "cta_intent" ValidateTemplate.VALID_CTA_INTENTS
  && enum_fits d "design_style" ValidateTemplate.VALID_DESIGN_STYLES.

(** The exception a validator ends with on a document that is not an
    object. *)
Definition not_an_object (content : json) : exn :=
  match content with
  | JArr _ | JStr _ => AttributeError
  | _ => TypeError
  end.

(** The configurations that [validate_template_config] can check: the
    identifier is a string (or absent, empty or otherwise false) and the
    placeholders, if any, are strings. *)
Definition config_checkable (d : dict) : bool :=
  (negb (truthy (get d "template_id" (JStr ""))) || is_str (get d "template_id" (JStr "")))
  && match dict_get "placeholders" d with
     | Some v => joinable v
     | None => true
     end.

(** The configurations that [validate_template_config] reports no error
    for. *)
Definition config_accepted (d : dict) : bool :=
  has_key "template_id" d && has_key "name" d
  && (negb (truthy (get d "template_id" (JStr "")))
      || match ValidateTemplate.re_match_id (get d "template_id" (JStr "")) with
         | Ok matched => matched
         | Raise _ => false
         end).

(** ** Templates the validator finds *)

(** The directory [p] lists every entry that exists below it. *)
Definition lists_its_entries (host : Host) (p : path) : Prop :=
  forall n, exists_ host (p ++ [ n ])%list = true ->
            exists dirs, iterdir host p = Ok dirs /\ In (p ++ [ n ])%list dirs.

(** The record [d] is that of one of the directories [ps]. *)
Definition record_of_some (ps : list path) (d : dict) : Prop :=
  exists p, In p ps /\ dict_get "s3_path" d = Some (JStr (stored_at p)).


End Spec.

(* ===================================================================== *)
(** * Rules for reasoning about computations                              *)
(* ===================================================================== *)

Import Py Aws Os Hoare Examples Spec.

(** Splits a conjunction into its parts, and nothing else. *)
Ltac conjuncts := repeat match goal with |- _ /\ _ => split end.

Section Rules.
Context {A B : Type}.
Implicit Types (w : World) (E : exn -> World -> Prop).

Lemma post_ret (a : A) w (Q : A -> World -> Prop) E :
  Q a w -> post (ret a) w Q E.
Proof. intros H. exact H. Qed.

Lemma post_raise (e : exn) w (Q : A -> World -> Prop) E :
  E e w -> post (raise e) w Q E.
Proof. intros H. exact H. Qed.

Lemma post_lift (r : Result A) w (Q : A -> World -> Prop) E :
  match r with Ok a => Q a w | Raise e => E e w end -> post (lift r) w Q E.
Proof. unfold post, lift. destruct r; auto. Qed.

Lemma post_bind (m : M A) (k : A -> M B) w (Q : B -> World -> Prop) E :
  post m w (fun a w' => post (k a) w' Q E) E -> post (bind m k) w Q E.
Proof.
  unfold post, bind. destruct (m w) as [[a | e] w']; auto.
Qed.

Lemma post_try (m : M A) (h : exn -> M A) w (Q : A -> World -> Prop) E :
  post m w Q (fun e w' => post (h e) w' Q E) -> post (try_except m h) w Q E.
Proof.
  unfold post, try_except. destruct (m w) as [[a | e] w']; auto.
Qed.

Lemma post_mono (m : M A) w (Q Q' : A -> World -> Prop) E E' :
  post m w Q E ->
  (forall a w', Q a w' -> Q' a w') ->
  (forall e w', E e w' -> E' e w') ->
  post m w Q' E'.
Proof.
  unfold post. destruct (m w) as [[a | e] w']; auto.
Qed.

Lemma post_intro (m : M A) w (Q : A -> World -> Prop) E :
  (forall r w', m w = (r, w') ->
     match r with Ok a => Q a w' | Raise e => E e w' end) ->
  post m w Q E.
Proof.
  unfold post. intros H. specialize (H (fst (m w)) (snd (m w))).
  destruct (m w) as [[a | e] w']; apply H; reflexivity.
Qed.
End Rules.

Lemma post_logger (l : level) (msg : string) w (Q : unit -> World -> Prop) E :
  Q tt (add_log (l, msg) w) -> post (logger l msg) w Q E.
Proof. intros H. exact H. Qed.

Lemma post_utcnow_z (host : Host) w (Q : string -> World -> Prop) E :
  Q (clock host (ticks w) ++ "Z") (tick w) -> post (utcnow_z host) w Q E.
Proof. intros H. exact H. Qed.

(** A loop keeps an invariant of its accumulator and world that every
    run of its body keeps. *)
Lemma post_for_each {A S} (I : S -> World -> Prop) (E : exn -> World -> Prop)
    (body : A -> S -> M S) (xs : list A) :
  (forall x acc w, In x xs -> I acc w -> post (body x acc) w I E) ->
  forall acc w, I acc w -> post (for_each xs body acc) w I E.
Proof.
  induction xs as [| x xs IH]; intros Hbody acc w HI; simpl.
  - exact HI.
  - apply post_bind.
    eapply post_mono; [apply Hbody; [left; reflexivity | exact HI] | | auto].
    intros acc' w' HI'. apply IH; [| exact HI'].
    intros y acc0 w0 Hy. apply Hbody. right. exact Hy.
Qed.

(** The constructors only log. *)
Lemma gen_init_logs (self : GenerateEmbeddings.EmbeddingGenerator) w
    (Q : unit -> World -> Prop) (E : exn -> World -> Prop) :
  (forall w0, only_logged w w0 -> Q tt w0) ->
  post (GenerateEmbeddings.__init__ self) w Q E.
Proof.
  intros H. unfold GenerateEmbeddings.__init__.
  repeat (apply post_bind; apply post_logger). apply post_logger.
  apply H. repeat split.
Qed.

Lemma pe_init_logs (self : ProcessExisting.ExistingTemplateProcessor) w
    (Q : unit -> World -> Prop) (E : exn -> World -> Prop) :
  (forall w0, only_logged w w0 -> Q tt w0) ->
  post (ProcessExisting.__init__ self) w Q E.
Proof.
  intros H. unfold ProcessExisting.__init__.
  repeat (apply post_bind; apply post_logger). apply post_logger.
  apply H. repeat split.
Qed.

(* ===================================================================== *)
(** * The embedding text                                                  *)
(* ===================================================================== *)

(** C4, as stated, fails: on the record of the end-to-end example the
    text built by [build_embedding_text] contains "Industry: finance" but
    not the one-line sentence "This is a modern template for the finance
    industry, optimized for ... hero, about, contact.". *)
Lemma build_embedding_text_t1_lacks_claimed_sentence :
  ~ (exists text,
       GenerateEmbeddings.build_embedding_text generator t1 = Ok text /\
       contains "Industry: finance" text = true /\
       contains claimed_sentence text = true).
Proof.
  intros (text & Htext & _ & Hsentence).
  vm_compute in Htext. injection Htext as <-.
  vm_compute in Hsentence. discriminate.
Qed.

(** C4, as amended: on the record of the end-to-end example
    [build_embedding_text] returns, under every runtime and for every
    instance, the labelled fragments followed by the summary, which reads
    "This is a modern website template for the finance industry," and, on
    the next line after eight spaces, "optimized for contact conversions
    with sections including hero, about, contact."; the text contains
    "Industry: finance" and both lines of the summary. *)
Theorem build_embedding_text_t1 :
  forall (rt : PyRuntime) (self : GenerateEmbeddings.EmbeddingGenerator),
    GenerateEmbeddings.build_embedding_text self t1 = Ok t1_text /\
    contains "Industry: finance" t1_text = true /\
    contains summary_line_1 t1_text = true /\
    contains summary_line_2 t1_text = true /\
    contains (summary_line_1 ++ nl ++ "        " ++ summary_line_2) t1_text = true.
Proof.
  intros rt self. conjuncts; vm_compute; reflexivity.
Qed.

(** C8: [build_embedding_text] is a function of the metadata record
    alone: whichever instance it is called on, and however often, the
    same record gives the same outcome (the same text, or the same
    exception), in both scripts. *)
Theorem build_embedding_text_deterministic :
  forall (rt : PyRuntime),
    (forall (self self' : GenerateEmbeddings.EmbeddingGenerator) (metadata : json),
        GenerateEmbeddings.build_embedding_text self metadata
        = GenerateEmbeddings.build_embedding_text self' metadata) /\
    (forall (self self' : ProcessExisting.ExistingTemplateProcessor) (template : json),
        ProcessExisting.build_embedding_text self template
        = ProcessExisting.build_embedding_text self' template).
Proof.
  intros rt. split; intros self self' x; reflexivity.
Qed.

(* ===================================================================== *)
(** * The embedding provider adapter                                      *)
(* ===================================================================== *)

(** The length of the answer is looked at but not enforced: when the
    model answers with a vector of two components, [generate_embedding]
    returns these two components to its caller, although 1024 were asked
    for. *)
Example generate_embedding_returns_short_vector :
  exists v,
    outcome (GenerateEmbeddings.generate_embedding (host_of tree_t1) "Industry: finance")
            empty_world = Ok v /\
    py_len v = Ok 2%nat /\
    Z.of_nat 2 <> GenerateEmbeddings.EMBEDDING_DIMENSION.
Proof.
  exists short_vector. repeat split; try reflexivity. discriminate.
Qed.

Example generate_embedding_defaults_to_empty :
  outcome (ProcessExisting.generate_embedding host_no_embedding "Industry: finance")
          empty_world = Ok (JArr []).
Proof. reflexivity. Qed.


(* ===================================================================== *)
(** * Runs on concrete checkouts                                          *)
(* ===================================================================== *)

(** C1 fails on [generate_embeddings.py]: after a run that indexes the
    templates [a] and [b], a second run restricted to template [c]
    leaves an index document that lists [c] alone.  [save_to_s3_vectors]
    of that script builds the index from the batch at hand and writes it
    over the stored one. *)
Theorem second_run_overwrites_index :
  let w1 := world_after (GenerateEmbeddings.main (host_of tree_ab) generator
                           base_path None) empty_world in
  let w2 := world_after (GenerateEmbeddings.main (host_of tree_ok) generator
                           base_path (Some [ "technology"; "c" ])) w1 in
  index_ids w1 = [ JStr "a"; JStr "b" ] /\
  index_ids w2 = [ JStr "c" ].
Proof. cbv zeta. conjuncts; vm_compute; reflexivity. Qed.

(** The same two batches through [process_existing_templates.py], whose
    [_update_vectors_index] fetches the stored index and adds to it. *)
Example update_vectors_index_merges :
  let h := host_of tree_ok in
  let w1 := world_after (ProcessExisting.main h processor false false)
              (with_registry [ "a"; "b" ] empty_world) in
  let w2 := world_after (ProcessExisting.main h processor false false)
              (with_registry [ "c" ] w1) in
  index_ids w1 = [ JStr "a"; JStr "b" ] /\
  index_ids w2 = [ JStr "a"; JStr "b"; JStr "c" ].
Proof. cbv zeta. conjuncts; vm_compute; reflexivity. Qed.


(** A rejected write of a metadata item is not caught either: the store
    rejects the item of template [b]; the run has written every vector
    and the index, stores the item of [a], and ends there. *)
Example item_rejection_aborts_run :
  let r := GenerateEmbeddings.main host_rejecting_item_b generator base_path None
             empty_world in
  fst r = Raise ClientError /\
  index_ids (snd r) = [ JStr "a"; JStr "b"; JStr "c" ] /\
  item_field (snd r) "a" "template_id" = Some (JStr "a") /\
  item_field (snd r) "b" "template_id" = None /\
  item_field (snd r) "c" "template_id" = None.
Proof. cbv zeta. conjuncts; vm_compute; reflexivity. Qed.

(** Nor is the error of the client that cannot serialise a float: with
    a float among the CSS variables of template [b], the run ends with
    [TypeError] at the item of [b], after the vectors, the index and the
    item of [a]. *)
Example float_in_metadata_aborts_run :
  let r := GenerateEmbeddings.main (host_of tree_ratio) generator base_path None
             empty_world in
  fst r = Raise TypeError /\
  index_ids (snd r) = [ JStr "a"; JStr "b"; JStr "c" ] /\
  item_field (snd r) "a" "template_id" = Some (JStr "a") /\
  item_field (snd r) "b" "template_id" = None /\
  item_field (snd r) "c" "template_id" = None.
Proof. cbv zeta. conjuncts; vm_compute; reflexivity. Qed.



(** C7, as stated, fails: the status written for an indexed template is
    the string "PUBLISHED", which is not the string "published". *)
Lemma status_is_upper_case :
  let w := world_after (GenerateEmbeddings.main (host_of tree_ok) generator
                          base_path None) empty_world in
  item_field w "a" "status" = Some (JStr "PUBLISHED") /\
  item_field w "a" "status" <> Some (JStr "published") /\
  item_field w "a" "GSI1SK" = Some (JStr "STATUS#PUBLISHED#a").
Proof. cbv zeta. conjuncts; vm_compute; congruence. Qed.


(** An entry with a slug is turned into a record, whatever it says of
    its call to action and style. *)
Example acme_shop_is_migrated :
  exists r,
    outcome (ProcessExisting.process_site (host_of tree_ok) processor site_acme [])
            empty_world = Ok [ r ] /\
    dict_get "template_id" r = Some (JStr "migrated-acme-shop") /\
    dict_get "name" r = Some (JStr "Acme Shop Migrated Site") /\
    dict_get "cta_intent" r = Some (JStr "contact") /\
    dict_get "design_style" r = Some (JStr "wordpress-migrated").
Proof. eexists. conjuncts; reflexivity. Qed.

(* ===================================================================== *)
(** * Stepping through a computation                                      *)
(* ===================================================================== *)

Arguments post : simpl never.

(** One step of a computation: the rule of its head construct. *)
Ltac step :=
  lazymatch goal with
  | |- post (bind _ _) _ _ _ => apply post_bind
  | |- post (lift _) _ _ _ => apply post_lift
  | |- post (logger _ _) _ _ _ => apply post_logger
  | |- post (ret _) _ _ _ => apply post_ret
  | |- post (raise _) _ _ _ => apply post_raise
  | |- post (try_except _ _) _ _ _ => apply post_try
  | |- post (utcnow_z _) _ _ _ => apply post_utcnow_z
  | |- post (if ?b then _ else _) _ _ _ => destruct b eqn:?
  end; cbv beta.

Lemma generate_embedding_only_logs {rt : PyRuntime} (host : Host) (text : string) w :
  post (ProcessExisting.generate_embedding host text) w
       (fun _ w' => w' = w) (fun _ w' => w' = w).
Proof.
  unfold ProcessExisting.generate_embedding.
  step. step. destruct (bedrock host _); [| reflexivity].
  step. destruct (method_get _ _ _); reflexivity.
Qed.

(* ===================================================================== *)
(** * The catalog of migrated sites                                       *)
(* ===================================================================== *)

Section MigratedSitesFacts.
Context {rt : PyRuntime} (host : Host) (self : ProcessExisting.ExistingTemplateProcessor).

Lemma process_site_post (site : dict) (embeddings : list dict) (w : World) :
  post (ProcessExisting.process_site host self (JObj site) embeddings) w
       (site_outcome site embeddings w) (fun _ _ => False).
Proof.
  unfold ProcessExisting.process_site, site_outcome, selected_slug.
  step. step. simpl. step. step. simpl.
  set (slug := get site "site_slug" (get site "slug" (JStr ""))).
  step.
  - step. rewrite negb_true_iff in Heqb. rewrite Heqb. split; reflexivity.
  - rewrite negb_false_iff in Heqb. rewrite Heqb.
    step. step. step.
    assert (Hfail : forall e w1 before,
               log w1 = (log w ++ (INFO, announcement slug) :: before)%list ->
               post (logger ERROR ("Error processing migrated " ++ py_str slug ++ ": "
                                     ++ str_exn e) ;; ret embeddings) w1
                 (visited slug embeddings w) (fun _ _ => False)).
    { intros e w1 before Hlog. step. step. step. unfold visited. simpl.
      rewrite Hlog. split.
      - eexists. rewrite <- app_assoc. reflexivity.
      - right. split; [reflexivity |]. eexists _, _. reflexivity. }
    step. step. simpl. step. step. simpl. step. step. simpl. step. step.
    destruct (ProcessExisting.migrated_name slug) as [name | e];
      [| apply (Hfail e _ []); reflexivity].
    step. step.
    destruct (ProcessExisting.build_embedding_text _ _) as [text | e];
      [| apply (Hfail e _ []); reflexivity].
    step.
    eapply post_mono;
      [apply generate_embedding_only_logs | intros v ? -> | intros e ? ->];
      [| apply (Hfail e _ []); reflexivity].
    cbv beta.
    do 6 (step; step; simpl). step. step. simpl. step. step. step.
    unfold visited. simpl. split.
    + eexists. rewrite <- app_assoc. reflexivity.
    + left. eexists. split; [reflexivity |].
      unfold migrated_record. conjuncts; reflexivity.
Qed.


End MigratedSitesFacts.

(* ===================================================================== *)
(** * Dictionaries and the two stores                                     *)
(* ===================================================================== *)

Lemma dict_get_set_eq (k : string) (v : json) (d : dict) :
  dict_get k (dict_set k v d) = Some v.
Proof.
  induction d as [| [k' v'] d IH]; simpl.
  - rewrite String.eqb_refl. reflexivity.
  - destruct (String.eqb k k') eqn:Hk; simpl; rewrite Hk; auto.
Qed.

Lemma dict_get_set_ne (k k' : string) (v : json) (d : dict) :
  k <> k' -> dict_get k (dict_set k' v d) = dict_get k d.
Proof.
  intros Hne. induction d as [| [k0 v0] d IH]; simpl.
  - destruct (String.eqb k k') eqn:Hk; [| reflexivity].
    apply String.eqb_eq in Hk. contradiction.
  - destruct (String.eqb k' k0) eqn:Hk0; simpl.
    + apply String.eqb_eq in Hk0. subst k0.
      destruct (String.eqb k k') eqn:Hk; [| reflexivity].
      apply String.eqb_eq in Hk. contradiction.
    + rewrite IH. reflexivity.
Qed.

Lemma comprehension_length {A B} (f : A -> Result B) (xs : list A) (ys : list B) :
  comprehension f xs = Ok ys -> length ys = length xs.
Proof.
  revert ys. induction xs as [| x xs IH]; intros ys; simpl.
  - intros [= <-]. reflexivity.
  - destruct (f x) as [y | e]; simpl; [| discriminate].
    destruct (comprehension f xs) as [ys' | e]; simpl; [| discriminate].
    intros [= <-]. simpl. rewrite (IH ys'); reflexivity.
Qed.

Lemma post_put_object (host : Host) (b k : string) (body : json) w
    (Q : unit -> World -> Prop) (E : exn -> World -> Prop) :
  (s3_accepts host b k = true -> Q tt (set_s3 (insert (b, k) body) w)) ->
  (s3_accepts host b k = false -> E ClientError w) ->
  post (put_object host b k body) w Q E.
Proof.
  unfold post, put_object. destruct (s3_accepts host b k); auto.
Qed.

Lemma post_get_object (b k : string) w (Q : json -> World -> Prop)
    (E : exn -> World -> Prop) :
  (forall body, s3 w !! (b, k) = Some body -> Q body w) ->
  (s3 w !! (b, k) = None -> E ClientError w) ->
  post (get_object b k) w Q E.
Proof.
  unfold post, get_object. destruct (s3 w !! (b, k)); auto.
Qed.

Lemma post_put_item (host : Host) (table : string) (item : dict) w
    (Q : unit -> World -> Prop) (E : exn -> World -> Prop) :
  (forall pk sk,
      dict_get "PK" item = Some (JStr pk) -> dict_get "SK" item = Some (JStr sk) ->
      Q tt (set_dynamodb (insert (table, (pk, sk)) item) w)) ->
  E ClientError w ->
  E TypeError w ->
  post (put_item host table item) w Q E.
Proof.
  unfold post, put_item. intros HQ HE HT.
  destruct (has_float (JObj item)); [exact HT |].
  destruct (dict_get "PK" item) as [[| | | | pk | |] |]; auto.
  destruct (dict_get "SK" item) as [[| | | | sk | |] |]; auto.
  destruct (dynamodb_accepts host table item); auto.
Qed.

(** A loop whose body cannot break [I] keeps it, whatever is
    accumulated. *)
Lemma post_for_each_world {A S} (I : World -> Prop) (body : A -> S -> M S)
    (xs : list A) :
  (forall x acc w, I w -> post (body x acc) w (fun _ => I) (fun _ => I)) ->
  forall acc w, I w -> post (for_each xs body acc) w (fun _ => I) (fun _ => I).
Proof.
  intros Hbody. apply (post_for_each (fun _ => I)). intros x acc w _. apply Hbody.
Qed.

(** When an exception needs no justification, what comes first in a
    sequence can be passed over. *)
Lemma post_bind_any {A B} (m : M A) (k : A -> M B) w (Q : B -> World -> Prop)
    (E : exn -> World -> Prop) :
  (forall e w', E e w') ->
  (forall a w', post (k a) w' Q E) ->
  post (bind m k) w Q E.
Proof.
  intros HE Hk. unfold post, bind. destruct (m w) as [[a | e] w']; [apply Hk | apply HE].
Qed.

(* ===================================================================== *)
(** * The index document                                                  *)
(* ===================================================================== *)

Section IndexFacts.
Context {rt : PyRuntime} (host : Host).

Lemma save_to_s3_vectors_index (self : GenerateEmbeddings.EmbeddingGenerator)
    (embeddings : list dict) (w : World) :
  post (GenerateEmbeddings.save_to_s3_vectors host self embeddings) w
       (fun _ => index_written (GenerateEmbeddings.vectors_bucket self))
       (fun _ _ => True).
Proof.
  unfold GenerateEmbeddings.save_to_s3_vectors.
  step. eapply post_mono;
    [apply (post_for_each_world (fun _ => True)); [intros; apply post_intro;
       intros [] ? _; exact I | exact I] | | auto].
  intros _ w1 _. cbv beta.
  step. step. step. step.
  destruct (comprehension _ embeddings) as [templates | e] eqn:Hts; [| exact I].
  step. apply post_put_object; [intros _ | intros _; exact I].
  step. unfold index_written, index_consistent. simpl.
  eexists. split; [apply lookup_insert_eq |].
  eexists _, (JArr templates), (length embeddings).
  conjuncts; try reflexivity.
  simpl. rewrite (comprehension_length _ _ _ Hts). reflexivity.
Qed.

Lemma update_vectors_index_index (self : ProcessExisting.ExistingTemplateProcessor)
    (new_embeddings : list dict) (w : World) :
  post (ProcessExisting._update_vectors_index host self new_embeddings) w
       (fun _ => index_written (ProcessExisting.vectors_bucket self))
       (fun _ _ => True).
Proof.
  unfold ProcessExisting._update_vectors_index.
  do 4 (apply post_bind_any; [auto |]; intros ? ?).
  rename a2 into d. clear.
  step. step.
  destruct (py_len (get d "templates" (JArr []))) as [n | e] eqn:Hn; [| exact I].
  step. step. step. apply post_put_object; [intros _ | intros _; exact I].
  step. step. unfold subscript.
  rewrite !dict_get_set_ne by discriminate.
  destruct (dict_get "templates" d) as [templates |] eqn:Ht; [| exact I].
  step. step. unfold get in Hn. rewrite Ht in Hn. rewrite Hn.
  step. unfold index_written, index_consistent. simpl.
  eexists. split; [apply lookup_insert_eq |].
  eexists _, templates, n. conjuncts; try reflexivity.
  - rewrite !dict_get_set_ne by discriminate. exact Ht.
  - exact Hn.
  - rewrite !dict_get_set_ne by discriminate. apply dict_get_set_eq.
Qed.

(** C9: whenever the batch-built index save of [generate_embeddings.py]
    or the fetch-merge-write index update of
    [process_existing_templates.py] completes, the index document it has
    written has a [vectors_count] equal to the number of entries of its
    [templates]. *)
Theorem vectors_count_is_number_of_templates :
  (forall (self : GenerateEmbeddings.EmbeddingGenerator) (embeddings : list dict)
          (w : World),
      match GenerateEmbeddings.save_to_s3_vectors host self embeddings w with
      | (Ok _, w') => index_written (GenerateEmbeddings.vectors_bucket self) w'
      | (Raise _, _) => True
      end) /\
  (forall (self : ProcessExisting.ExistingTemplateProcessor)
          (new_embeddings : list dict) (w : World),
      match ProcessExisting._update_vectors_index host self new_embeddings w with
      | (Ok _, w') => index_written (ProcessExisting.vectors_bucket self) w'
      | (Raise _, _) => True
      end).
Proof.
  split; intros self embeddings w.
  - exact (save_to_s3_vectors_index self embeddings w).
  - exact (update_vectors_index_index self embeddings w).
Qed.

End IndexFacts.

(** Both index writes do complete on well-formed batches. *)
Example index_writes_complete :
  let h := host_of tree_ok in
  let w0 := with_registry [ "a"; "b" ] empty_world in
  outcome (GenerateEmbeddings.main h generator base_path None) empty_world = Ok tt /\
  outcome (ProcessExisting.main h processor false false) w0 = Ok tt.
Proof. cbv zeta. conjuncts; vm_compute; reflexivity. Qed.

(* ===================================================================== *)
(** * One template                                                        *)
(* ===================================================================== *)

(** Closes goals on what a world shares with an earlier one. *)
Ltac stores :=
  unfold same_stores, only_logged in *; simpl in *; intuition congruence.

Section TemplateFacts.
Context {rt : PyRuntime} (host : Host) (self : GenerateEmbeddings.EmbeddingGenerator).

Lemma build_embedding_text_needs_dict (metadata : json) (text : string) :
  GenerateEmbeddings.build_embedding_text self metadata = Ok text ->
  exists md, metadata = JObj md.
Proof.
  destruct metadata; try discriminate. intros _. eexists. reflexivity.
Qed.

Lemma generate_embedding_logs_only (text : string) w :
  post (GenerateEmbeddings.generate_embedding host text) w
       (fun _ w' => only_logged w w') (fun _ w' => only_logged w w').
Proof.
  unfold GenerateEmbeddings.generate_embedding.
  step. step. step. destruct (bedrock host _); [| step; step; step; stores].
  step. step. destruct (method_get _ _ _); [| step; step; step; stores].
  step. step. destruct (py_len _); [| step; step; step; stores].
  step. step; step; try step; stores.
Qed.

Lemma process_template_post (p : path) w :
  post (GenerateEmbeddings.process_template host self p) w
       (fun r w' => same_stores w w' /\ forall d, r = Some d -> indexed_from host p d)
       (fun _ _ => False).
Proof.
  unfold GenerateEmbeddings.process_template.
  step; [step; step; step; split; [stores | discriminate] |].
  assert (Hfail : forall e w1, same_stores w w1 ->
            post (logger ERROR ("Error processing template " ++ path_str p ++ ": "
                                  ++ str_exn e) ;; ret None) w1
              (fun r w' => same_stores w w' /\
                           forall d, r = Some d -> indexed_from host p d)
              (fun _ _ => False)).
  { intros e w1 Hw1. step. step. step. split; [stores | discriminate]. }
  step. step. step.
  destruct (load_json host _) as [metadata | e] eqn:Hload;
    [| apply Hfail; stores].
  step. step.
  destruct (GenerateEmbeddings.build_embedding_text self metadata) as [text | e] eqn:Htext;
    [| apply Hfail; stores].
  destruct (build_embedding_text_needs_dict _ _ Htext) as [md ->].
  step. step. simpl. step. step. step.
  eapply post_mono;
    [apply generate_embedding_logs_only | | intros e w1 Hw1; apply Hfail; stores].
  intros embedding w1 Hw1. cbv beta.
  do 12 (step; step; simpl). step. step. step. step. simpl. step. step.
  step. step. simpl. step. step.
  destruct (py_len embedding) as [n | e]; [| apply Hfail; stores].
  step. step. step. split; [stores |].
  intros d [= <-]. exists md. conjuncts; try reflexivity. exact Hload.
Qed.

Lemma keep_from_checkout (p : path) (r : option dict) (embeddings : list dict) :
  (forall d, r = Some d -> indexed_from host p d) ->
  Forall (from_checkout host) embeddings ->
  Forall (from_checkout host) (GenerateEmbeddings.keep r embeddings).
Proof.
  intros Hr Hes. unfold GenerateEmbeddings.keep.
  destruct r as [d |]; [| exact Hes].
  destruct (truthy (JObj d)); [| exact Hes].
  apply Forall_app. split; [exact Hes |].
  constructor; [| constructor]. exists p. apply Hr. reflexivity.
Qed.

Lemma process_all_templates_post (base : path) w :
  post (GenerateEmbeddings.process_all_templates host self base) w
       (fun es w' => same_stores w w' /\ Forall (from_checkout host) es)
       (fun _ w' => same_stores w w').
Proof.
  unfold GenerateEmbeddings.process_all_templates.
  step.
  eapply post_mono with
    (Q := fun es w' => same_stores w w' /\ Forall (from_checkout host) es)
    (E := fun _ w' => same_stores w w').
  - apply (post_for_each (fun es w' => same_stores w w' /\ Forall (from_checkout host) es));
      [| split; [stores | constructor]].
    intros industry es w1 _ [Hw1 Hes].
    step; [step; auto |].
    step. step. destruct (iterdir host _) as [dirs | e]; [| exact Hw1].
    apply (post_for_each (fun es w' => same_stores w w' /\ Forall (from_checkout host) es));
      [| auto].
    clear dependent es; clear dependent w1. intros dir es w1 _ [Hw1 Hes].
    step; [step; auto |].
    step. eapply post_mono; [apply process_template_post | | intros ? ? []].
    intros r w2 [Hw2 Hr]. cbv beta. step. split; [stores |].
    eapply keep_from_checkout; eauto.
  - intros es w1 [Hw1 Hes]. cbv beta. step. step. step. split; [stores | exact Hes].
  - auto.
Qed.

End TemplateFacts.

(* ===================================================================== *)
(** * What a run writes to the metadata store                             *)
(* ===================================================================== *)

(** Walks through a straight-line computation, splitting on every step
    that may raise; [fin] closes the goals it can. *)
Ltac walk fin :=
  repeat (lazymatch goal with
          | |- post (bind _ _) _ _ _ => apply post_bind
          | |- post (lift (Ok _)) _ _ _ => apply post_lift
          | |- post (lift (Raise _)) _ _ _ => apply post_lift
          | |- post (lift ?r) _ _ _ => apply post_lift; cbv beta; destruct r eqn:?
          | |- post (logger _ _) _ _ _ => apply post_logger
          | |- post (ret _) _ _ _ => apply post_ret
          | |- post (raise _) _ _ _ => apply post_raise
          | |- post (utcnow_z _) _ _ _ => apply post_utcnow_z
          | |- post (try_except _ _) _ _ _ => apply post_try
          | |- post (get_object _ _) _ _ _ => apply post_get_object; [intros ? ? | intros ?]
          | |- post (put_object _ _ _ _) _ _ _ => apply post_put_object; intros ?
          | |- post (put_item _ _ _) _ _ _ => apply post_put_item; [intros ? ? ? ? | |]
          | |- post (if ?b then _ else _) _ _ _ => destruct b eqn:?
          end; cbv beta; try solve [fin]).

Lemma published_since_same (w w1 w2 : World) :
  published_since w w1 -> dynamodb w2 = dynamodb w1 -> published_since w w2.
Proof. unfold published_since. intros H ->. exact H. Qed.

Lemma published_since_start (w w' : World) :
  dynamodb w' = dynamodb w -> published_since w w'.
Proof. unfold published_since. intros ->. auto. Qed.

Lemma published_since_put (w w1 : World) (k : string * (string * string)) (item : dict) :
  published_since w w1 -> published item ->
  published_since w (set_dynamodb (insert k item) w1).
Proof.
  unfold published_since. intros H Hitem k' item'. simpl.
  destruct (decide (k = k')) as [<- | Hne].
  - rewrite lookup_insert_eq. intros [= <-]. right. exact Hitem.
  - rewrite lookup_insert_ne by exact Hne. apply H.
Qed.

(** Closes goals that ask for [published_since] after steps that leave
    the metadata store alone. *)
Ltac kept :=
  first [ eassumption
        | eapply published_since_same; [eassumption | reflexivity] ].

Ltac kept2 :=
  first [ kept | split; [kept | eassumption] ].

Section RunFacts.
Context {rt : PyRuntime} (host : Host).

Lemma from_checkout_published (d : dict) : from_checkout host d -> published d.
Proof. intros (p & md & _ & _ & _ & _ & _ & H). exact H. Qed.

Lemma gen_save_to_s3_vectors_keeps_items (self : GenerateEmbeddings.EmbeddingGenerator)
    (embeddings : list dict) (w0 w : World) :
  published_since w0 w ->
  post (GenerateEmbeddings.save_to_s3_vectors host self embeddings) w
       (fun _ w' => published_since w0 w') (fun _ w' => published_since w0 w').
Proof.
  intros Hw. unfold GenerateEmbeddings.save_to_s3_vectors.
  step. eapply post_mono with (E := fun _ w' => published_since w0 w').
  - apply (post_for_each_world (published_since w0)); [| exact Hw].
    intros d [] w1 Hw1.
    walk ltac:(first [exact Hw1 | eapply published_since_same; [exact Hw1 | reflexivity]]).
  - intros u w1 Hw1. cbv beta in Hw1 |- *.
    walk ltac:(first [exact Hw1 | eapply published_since_same; [exact Hw1 | reflexivity]]).
  - auto.
Qed.

Lemma gen_save_to_dynamodb_publishes (self : GenerateEmbeddings.EmbeddingGenerator)
    (embeddings : list dict) (w0 w : World) :
  Forall published embeddings ->
  published_since w0 w ->
  post (GenerateEmbeddings.save_to_dynamodb host self embeddings) w
       (fun _ w' => published_since w0 w') (fun _ w' => published_since w0 w').
Proof.
  intros Hes Hw. unfold GenerateEmbeddings.save_to_dynamodb.
  step. eapply post_mono with (E := fun _ w' => published_since w0 w').
  - apply (post_for_each (fun _ => published_since w0)); [| exact Hw].
    intros d [] w1 Hd Hw1.
    rewrite Forall_forall in Hes. apply list_elem_of_In in Hd.
    specialize (Hes d Hd). unfold published in Hes.
    walk ltac:(first [exact Hw1 | eapply published_since_same; [exact Hw1 | reflexivity]]).
    all: eapply published_since_same; [| reflexivity].
    all: apply published_since_put; [exact Hw1 |].
    all: unfold published, subscript in *; simpl; rewrite Hes in *; congruence.
  - intros u w1 Hw1. cbv beta in Hw1 |- *.
    walk ltac:(first [exact Hw1 | eapply published_since_same; [exact Hw1 | reflexivity]]).
  - auto.
Qed.

Lemma gen_main_publishes (self : GenerateEmbeddings.EmbeddingGenerator)
    (base : path) (template : option path) (w : World) :
  post (GenerateEmbeddings.main host self base template) w
       (fun _ w' => published_since w w') (fun _ w' => published_since w w').
Proof.
  unfold GenerateEmbeddings.main. step. apply gen_init_logs. intros w0 Hw0. step.
  eapply post_mono with
    (Q := fun es w1 => same_stores w w1 /\ Forall (from_checkout host) es)
    (E := fun _ w1 => same_stores w w1).
  - destruct template as [t |].
    2: { eapply post_mono; [apply process_all_templates_post | |];
           [intros es w1 [Hw1 Hes]; split; [stores | exact Hes] | intros e w1 Hw1; stores]. }
    step; [step; step; step; stores |].
    step. eapply post_mono; [apply process_template_post | | intros ? ? []].
    intros r w1 [Hw1 Hr]. cbv beta. step. split; [stores |].
    eapply keep_from_checkout; [exact Hr | constructor].
  - intros es w1 [[_ Hw1] Hes]. cbv beta.
    assert (Hp : published_since w w1) by (apply published_since_start; exact Hw1).
    destruct es as [| d es']; [walk kept |].
    step.
    eapply post_mono;
      [apply gen_save_to_s3_vectors_keeps_items; exact Hp | | auto].
    intros u w2 Hw2. cbv beta in Hw2 |- *.
    apply gen_save_to_dynamodb_publishes; [| exact Hw2].
    eapply Forall_impl; [exact Hes |]. apply from_checkout_published.
  - intros e w1 [_ Hw1]. apply published_since_start. exact Hw1.
Qed.

End RunFacts.

Section ExistingRunFacts.
Context {rt : PyRuntime} (host : Host) (self : ProcessExisting.ExistingTemplateProcessor).

Lemma pe_process_recreated_post (registry : json) (w0 w : World) :
  published_since w0 w ->
  post (ProcessExisting.process_recreated_templates host self registry) w
       (kept_and_published w0) (fun _ w' => published_since w0 w').
Proof.
  intros Hw. unfold ProcessExisting.process_recreated_templates.
  walk kept.
  apply (post_for_each (kept_and_published w0)); [| split; [kept | constructor]].
  intros template es w1 _ [Hw1 Hes].
  walk kept2.
  all: try (eapply post_mono;
    [apply generate_embedding_only_logs | intros ? ? -> | intros ? ? ->];
    cbv beta; walk kept2).
  split; [kept |].
  apply Forall_app. split; [exact Hes |]. constructor; [reflexivity | constructor].
Qed.

Lemma pe_process_site_post (site : json) (es : list dict) (w0 w : World) :
  kept_and_published w0 es w ->
  post (ProcessExisting.process_site host self site es) w
       (kept_and_published w0) (fun _ w' => published_since w0 w').
Proof.
  intros [Hw Hes]. unfold ProcessExisting.process_site.
  walk kept2.
  all: try (eapply post_mono;
    [apply generate_embedding_only_logs | intros ? ? -> | intros ? ? ->];
    cbv beta; walk kept2).
  all: split; [kept |].
  all: apply Forall_app; (split; [exact Hes |]); constructor; [reflexivity | constructor].
Qed.

Lemma pe_process_migrated_post (registry : json) (w0 w : World) :
  published_since w0 w ->
  post (ProcessExisting.process_migrated_templates host self registry) w
       (kept_and_published w0) (fun _ w' => published_since w0 w').
Proof.
  intros Hw. unfold ProcessExisting.process_migrated_templates.
  walk kept.
  all: apply (post_for_each (kept_and_published w0)); [| split; [kept | constructor]].
  all: intros site es w1 _ Hw1; eapply post_mono;
    [apply pe_process_site_post; exact Hw1 | auto | auto].
Qed.

Lemma pe_update_vectors_index_keeps (new_embeddings : list dict) (w0 w : World) :
  published_since w0 w ->
  post (ProcessExisting._update_vectors_index host self new_embeddings) w
       (fun _ w' => published_since w0 w') (fun _ w' => published_since w0 w').
Proof.
  intros Hw. unfold ProcessExisting._update_vectors_index.
  walk kept.
  all: eapply post_mono with (Q := fun _ w' => published_since w0 w');
    [ apply (post_for_each (fun _ : dict => published_since w0)); [| kept];
      intros emb d w1 _ Hw1; walk kept
    | intros d w1 Hw1; cbv beta in Hw1 |- *; walk kept
    | auto ].
Qed.

Lemma pe_save_to_s3_vectors_keeps (embeddings : list dict) (w0 w : World) :
  published_since w0 w ->
  post (ProcessExisting.save_to_s3_vectors host self embeddings) w
       (fun _ w' => published_since w0 w') (fun _ w' => published_since w0 w').
Proof.
  intros Hw. unfold ProcessExisting.save_to_s3_vectors.
  step. eapply post_mono with (E := fun _ w' => published_since w0 w').
  - apply (post_for_each_world (published_since w0)); [| exact Hw].
    intros d [] w1 Hw1. walk kept.
  - intros u w1 Hw1. cbv beta in Hw1 |- *.
    apply pe_update_vectors_index_keeps. exact Hw1.
  - auto.
Qed.

Lemma pe_save_to_dynamodb_publishes (embeddings : list dict) (w0 w : World) :
  Forall published embeddings ->
  published_since w0 w ->
  post (ProcessExisting.save_to_dynamodb host self embeddings) w
       (fun _ w' => published_since w0 w') (fun _ w' => published_since w0 w').
Proof.
  intros Hes Hw. unfold ProcessExisting.save_to_dynamodb.
  apply (post_for_each (fun _ => published_since w0)); [| exact Hw].
  intros d [] w1 Hd Hw1.
  rewrite Forall_forall in Hes. apply list_elem_of_In in Hd.
  specialize (Hes d Hd). unfold published in Hes.
  walk kept.
  all: eapply published_since_same; [| reflexivity].
  all: apply published_since_put; [exact Hw1 |].
  all: unfold published, subscript in *; simpl; rewrite Hes in *; congruence.
Qed.

Lemma pe_main_publishes (recreated_only migrated_only : bool) (w : World) :
  post (ProcessExisting.main host self recreated_only migrated_only) w
       (fun _ w' => published_since w w') (fun _ w' => published_since w w').
Proof.
  unfold ProcessExisting.main, ProcessExisting.fetch_registry.
  step. apply pe_init_logs. intros w0 Hw0.
  assert (Hw : published_since w w0) by (apply published_since_start; apply Hw0).
  step. apply post_get_object; [intros registry _ | intros _; kept]. cbv beta.
  step. step. destruct (method_get registry _ _) as [total | e]; [| kept].
  step. step. cbv zeta. step.
  apply post_mono with (Q := kept_and_published w)
                       (E := fun _ w' => published_since w w'); [| | auto].
  - destruct (negb migrated_only); [| step; split; [kept | constructor]].
    step. eapply post_mono; [apply pe_process_recreated_post; kept | | auto].
    intros recreated w1 [Hw1 Hr]. cbv beta. step. step. step.
    split; [kept | exact Hr].
  - intros es w1 [Hw1 Hes]. cbv beta. step.
    apply post_mono with (Q := kept_and_published w)
                         (E := fun _ w' => published_since w w'); [| | auto].
    + destruct (negb recreated_only); [| step; split; [kept | exact Hes]].
      step. eapply post_mono; [apply pe_process_migrated_post; kept | | auto].
      intros migrated w2 [Hw2 Hm]. cbv beta. step. step. step.
      split; [kept | apply Forall_app; split; assumption].
    + intros es' w2 [Hw2 Hes']. cbv beta.
      destruct es' as [| d es']; [walk kept |].
      step. eapply post_mono; [apply pe_save_to_s3_vectors_keeps; exact Hw2 | | auto].
      intros u w3 Hw3. cbv beta in Hw3 |- *.
      apply pe_save_to_dynamodb_publishes; assumption.
Qed.

End ExistingRunFacts.

(** C7, as amended: every item that a run of either script writes to
    the metadata store carries a [status] field whose value is the string
    "PUBLISHED" (in upper case), the only status the scripts produce;
    this holds at whatever point the run ends. *)
Theorem written_items_are_published :
  forall (rt : PyRuntime) (host : Host),
    (forall (self : GenerateEmbeddings.EmbeddingGenerator) (base : path)
            (template : option path) (w : World),
        published_since w
          (world_after (GenerateEmbeddings.main host self base template) w)) /\
    (forall (self : ProcessExisting.ExistingTemplateProcessor)
            (recreated_only migrated_only : bool) (w : World),
        published_since w
          (world_after (ProcessExisting.main host self recreated_only migrated_only) w)).
Proof.
  intros rt host. split.
  - intros self base template w.
    pose proof (gen_main_publishes host self base template w) as H.
    unfold post, world_after in *.
    destruct (GenerateEmbeddings.main host self base template w) as [[u | e] w'];
      exact H.
  - intros self ro mo w.
    pose proof (pe_main_publishes host self ro mo w) as H.
    unfold post, world_after in *.
    destruct (ProcessExisting.main host self ro mo w) as [[u | e] w']; exact H.
Qed.

(* ===================================================================== *)
(** * Values outside the closed sets                                      *)
(* ===================================================================== *)

Section ValidationFacts.
Context {rt : PyRuntime} (host : Host).

Lemma check_enum_dict (d : dict) (field : string) (valid : list string)
    (errors : list ValidateTemplate.ValidationError) :
  exists extra,
    ValidateTemplate.check_enum (JObj d) field valid errors = Ok (errors ++ extra)%list.
Proof.
  unfold ValidateTemplate.check_enum. simpl.
  destruct (truthy _ && ValidateTemplate.not_in _ _).
  - eexists. reflexivity.
  - exists []. rewrite app_nil_r. reflexivity.
Qed.

Lemma validate_metadata_reports_industry (p : path) (md : dict) (v : json) :
  load_json host p = Ok (JObj md) ->
  dict_get "industry" md = Some v ->
  truthy v = true ->
  ValidateTemplate.not_in v ValidateTemplate.VALID_INDUSTRIES = true ->
  exists errors,
    ValidateTemplate.validate_metadata host p = Ok errors /\
    In (invalid_industry v) errors.
Proof.
  intros Hload Hv Htruthy Hout.
  unfold ValidateTemplate.validate_metadata. rewrite Hload.
  set (required := fold_left _ _ _).
  assert (Hreq : exists errors0, required = Ok errors0).
  { subst required. simpl.
    repeat match goal with |- context [if ?b then _ else _] => destruct b end;
      simpl; eexists; reflexivity. }
  destruct Hreq as [errors0 ->]. simpl rbind at 1.
  assert (Hind : ValidateTemplate.check_enum (JObj md) "industry"
                   ValidateTemplate.VALID_INDUSTRIES errors0
                 = Ok (errors0 ++ [invalid_industry v])%list).
  { unfold ValidateTemplate.check_enum, method_get, get. rewrite Hv.
    unfold rbind. rewrite Htruthy, Hout. reflexivity. }
  rewrite Hind. simpl rbind at 1.
  destruct (check_enum_dict md "cta_intent" ValidateTemplate.VALID_CTA_INTENTS
              (errors0 ++ [invalid_industry v])) as [e2 ->].
  simpl rbind at 1.
  destruct (check_enum_dict md "design_style" ValidateTemplate.VALID_DESIGN_STYLES
              ((errors0 ++ [invalid_industry v]) ++ e2)) as [e3 ->].
  cbn [rbind method_get].
  eexists. split; [reflexivity |].
  repeat match goal with |- context [if ?b then _ else _] => destruct b end;
    rewrite !in_app_iff; cbn [In]; intuition auto.
Qed.

Lemma validate_metadata_passes_false_industry (p : path) (md : dict) (v : json) :
  load_json host p = Ok (JObj md) ->
  dict_get "industry" md = Some v ->
  truthy v = false ->
  exists errors,
    ValidateTemplate.validate_metadata host p = Ok errors /\
    forall x, ~ In (invalid_industry x) errors.
Proof.
  intros Hload Hv Hfalse.
  set (other := fun e : ValidateTemplate.ValidationError =>
                  forall x, e <> invalid_industry x).
  assert (Hmsg : forall f m sev,
             (forall x, m <> "Invalid industry: " ++ py_str x) ->
             other {| ValidateTemplate.file := f; ValidateTemplate.message := m;
                      ValidateTemplate.severity := sev |}).
  { intros f m sev Hm x Hx. apply (f_equal ValidateTemplate.message) in Hx.
    exact (Hm x Hx). }
  assert (Henum : forall field errors,
             (forall x y, "Invalid " ++ field ++ ": " ++ py_str x
                          <> "Invalid industry: " ++ py_str y) ->
             Forall other errors ->
             forall valid, exists errors',
               ValidateTemplate.check_enum (JObj md) field valid errors = Ok errors' /\
               Forall other errors').
  { intros field errors Hfield Herrors valid. unfold ValidateTemplate.check_enum.
    cbn [method_get rbind].
    destruct (truthy _ && ValidateTemplate.not_in _ _);
      (eexists; split; [reflexivity |]); [| exact Herrors].
    apply Forall_app. split; [exact Herrors |]. constructor; [| constructor].
    apply Hmsg. intros y. apply Hfield. }
  unfold ValidateTemplate.validate_metadata. rewrite Hload.
  set (required := fold_left _ _ _).
  assert (Hreq : exists errors0, required = Ok errors0 /\ Forall other errors0).
  { subst required. cbn [fold_left ValidateTemplate.py_in rbind].
    destruct (has_key "template_id" md), (has_key "name" md), (has_key "industry" md),
      (has_key "cta_intent" md), (has_key "design_style" md);
      cbn [negb rbind app]; (eexists; split; [reflexivity |]);
      repeat constructor; apply Hmsg; intros x Hx; simpl in Hx; discriminate Hx. }
  destruct Hreq as (errors0 & -> & H0). cbn [rbind].
  assert (Hind : ValidateTemplate.check_enum (JObj md) "industry"
                   ValidateTemplate.VALID_INDUSTRIES errors0 = Ok errors0).
  { unfold ValidateTemplate.check_enum, method_get, get. rewrite Hv.
    unfold rbind. rewrite Hfalse. reflexivity. }
  rewrite Hind. cbn [rbind].
  destruct (Henum "cta_intent" errors0) with (valid := ValidateTemplate.VALID_CTA_INTENTS)
    as (e2 & -> & H2); [intros x y Hx; simpl in Hx; discriminate Hx | exact H0 |].
  cbn [rbind].
  destruct (Henum "design_style" e2) with (valid := ValidateTemplate.VALID_DESIGN_STYLES)
    as (e3 & -> & H3); [intros x y Hx; simpl in Hx; discriminate Hx | exact H2 |].
  cbn [rbind method_get].
  eexists. split; [reflexivity |].
  assert (Hall : Forall other
            (let errors :=
               if negb (truthy (get md "description" JNull))
               then (e3 ++ [ {| ValidateTemplate.file := "metadata.json";
                                ValidateTemplate.message :=
                                  "Missing description field (important for RAG matching)";
                                ValidateTemplate.severity := "warning" |} ])%list
               else e3 in
             if negb (truthy (get md "keywords" JNull))
             then (errors ++ [ {| ValidateTemplate.file := "metadata.json";
                                  ValidateTemplate.message :=
                                    "Consider adding keywords for better search matching";
                                  ValidateTemplate.severity := "warning" |} ])%list
             else errors)).
  { cbv zeta.
    destruct (negb (truthy (get md "description" JNull))),
      (negb (truthy (get md "keywords" JNull)));
      repeat (apply Forall_app; split); try exact H3;
      repeat constructor; apply Hmsg; intros x Hx; simpl in Hx; discriminate Hx. }
  intros x Hin. rewrite Forall_forall in Hall.
  apply list_elem_of_In in Hin. exact (Hall _ Hin x eq_refl).
Qed.


End ValidationFacts.


(* ===================================================================== *)
(** * Failures of single templates                                        *)
(* ===================================================================== *)

Lemma append_empty_r (s : string) : s ++ "" = s.
Proof.
  induction s as [| c s IH]; [reflexivity |].
  change (String c (s ++ "") = String c s). f_equal. exact IH.
Qed.

Section IsolationFacts.
Context {rt : PyRuntime} (host : Host) (self : GenerateEmbeddings.EmbeddingGenerator).

Lemma generate_embedding_denotes (text : string) w :
  post (GenerateEmbeddings.generate_embedding host text) w
       (fun v w' => embedding_of host text = Ok v /\ only_logged w w')
       (fun e w' => embedding_of host text = Raise e /\ only_logged w w').
Proof.
  unfold GenerateEmbeddings.generate_embedding, embedding_of, submitted.
  step. step. step.
  destruct (bedrock host _); [| step; step; step; split; [reflexivity | stores]].
  step. step. simpl rbind.
  destruct (method_get _ _ _) as [v | e];
    [| step; step; step; split; [reflexivity | stores]].
  step. step. simpl rbind.
  destruct (py_len v); [| step; step; step; split; [reflexivity | stores]].
  step. step; step; try step; (split; [reflexivity | stores]).
Qed.

Lemma process_template_isolated (p : path) w :
  post (GenerateEmbeddings.process_template host self p) w
       (template_outcome host self p w) (fun _ _ => False).
Proof.
  unfold GenerateEmbeddings.process_template, template_outcome.
  step.
  { step. step. step. split; [stores |]. split.
    - unfold indexable. rewrite negb_true_iff in Heqb. rewrite Heqb. reflexivity.
    - eexists _, _, _. split; [reflexivity |].
      exists "No metadata.json found in ", "". rewrite append_empty_r. reflexivity. }
  rewrite negb_false_iff in Heqb.
  assert (Hfail : forall e w1, same_stores w w1 -> indexable host self p = false ->
            post (logger ERROR ("Error processing template " ++ path_str p ++ ": "
                                  ++ str_exn e) ;; ret None) w1
              (template_outcome host self p w) (fun _ _ => False)).
  { intros e w1 Hw1 Hno. step. step. step. split; [stores |]. split; [exact Hno |].
    eexists _, _, _. split; [reflexivity |].
    exists "Error processing template ", (": " ++ str_exn e). reflexivity. }
  unfold template_outcome in Hfail.
  step. step. step.
  destruct (load_json host _) as [metadata | e] eqn:Hload.
  2: { apply Hfail; [stores |]. unfold indexable. rewrite Hload. apply andb_false_r. }
  step. step.
  destruct (GenerateEmbeddings.build_embedding_text self metadata) as [text | e] eqn:Htext.
  2: { apply Hfail; [stores |]. unfold indexable. rewrite Hload, Htext.
       apply andb_false_r. }
  destruct (build_embedding_text_needs_dict self _ _ Htext) as [md ->].
  step. step. simpl. step. step. step.
  eapply post_mono; [apply generate_embedding_denotes | |].
  2: { intros e w1 [He Hw1]. apply Hfail; [stores |].
       unfold indexable. rewrite Hload, Htext, He. apply andb_false_r. }
  intros embedding w1 [Hemb Hw1]. cbv beta.
  do 12 (step; step; simpl). step. step. step. step. simpl. step. step.
  step. step. simpl. step. step.
  destruct (py_len embedding) as [n | e] eqn:Hlen.
  2: { exfalso. unfold embedding_of in Hemb.
       destruct (bedrock host _); [| discriminate]. simpl in Hemb.
       destruct (method_get _ _ _) as [v |]; [| discriminate]. simpl in Hemb.
       destruct (py_len v) eqn:Hv; [| discriminate]. simpl in Hemb.
       injection Hemb as <-. congruence. }
  step. step. step. split; [stores |]. split; [| reflexivity].
  unfold indexable. rewrite Heqb, Hload, Htext, Hemb. reflexivity.
Qed.

End IsolationFacts.

Lemma records_of_app (es : list dict) (ps : list path) (d : dict) (p : path) :
  records_of es ps ->
  dict_get "s3_path" d = Some (JStr (stored_at p)) ->
  records_of (es ++ [d]) (ps ++ [p]).
Proof.
  unfold records_of. intros Hes Hd. rewrite !map_app. simpl. congruence.
Qed.

Section RunIsolationFacts.
Context {rt : PyRuntime} (host : Host) (self : GenerateEmbeddings.EmbeddingGenerator).

Lemma scan_template_dirs (dirs : list path) :
  forall (es : list dict) (ps : list path) (w : World),
    records_of es ps ->
    post (for_each dirs
            (fun template_dir embeddings =>
               if negb (is_dir host template_dir)
                  || String.prefix "." (path_name template_dir)
               then ret embeddings
               else
                 let* result := GenerateEmbeddings.process_template host self template_dir in
                 ret (GenerateEmbeddings.keep result embeddings))
            es) w
         (fun es' w' =>
            same_stores w w' /\
            records_of es' (ps ++ List.filter (indexable host self)
                                    (template_dirs host dirs)))
         (fun _ _ => False).
Proof.
  induction dirs as [| d dirs IH]; intros es ps w Hes.
  - simpl. split; [stores |]. rewrite app_nil_r. exact Hes.
  - cbn [for_each template_dirs List.filter]. step.
    destruct (is_dir host d && negb (String.prefix "." (path_name d))) eqn:Hd.
    + apply andb_true_iff in Hd as [Hdir Hdot]. rewrite Hdir.
      apply negb_true_iff in Hdot. rewrite Hdot. cbn [negb orb].
      step. eapply post_mono; [apply process_template_isolated | | auto].
      intros r w1 [Hw1 Hr]. cbv beta. step.
      destruct r as [dd |].
      * destruct Hr as [Hidx Hpath]. cbn [List.filter]. rewrite Hidx.
        assert (Htruthy : truthy (JObj dd) = true)
          by (destruct dd; [discriminate | reflexivity]).
        unfold GenerateEmbeddings.keep. rewrite Htruthy.
        eapply post_mono;
          [apply (IH _ (ps ++ [d])%list); apply records_of_app; assumption | | auto].
        intros es' w' [Hw' Hes']. split; [stores |].
        rewrite <- app_assoc in Hes'. exact Hes'.
      * destruct Hr as [Hidx _]. cbn [List.filter]. rewrite Hidx.
        eapply post_mono; [apply (IH _ ps); exact Hes | | auto].
        intros es' w' [Hw' Hes']. split; [stores | exact Hes'].
    + assert (Hskip : negb (is_dir host d) || String.prefix "." (path_name d) = true).
      { destruct (is_dir host d), (String.prefix "." (path_name d));
          simpl in *; congruence. }
      rewrite Hskip. step. apply IH. exact Hes.
Qed.

Lemma scan_industries (base : path) (industries : list string) :
  forall (es : list dict) (ps cands : list path) (w : World),
    candidates_in host base industries = Ok cands ->
    records_of es ps ->
    post (for_each industries
            (fun industry embeddings =>
               let industry_path := (base ++ [industry])%list in
               if negb (exists_ host industry_path) then ret embeddings
               else
                 let* template_dirs := lift (iterdir host industry_path) in
                 for_each template_dirs
                   (fun template_dir embeddings =>
                      if negb (is_dir host template_dir)
                         || String.prefix "." (path_name template_dir)
                      then ret embeddings
                      else
                        let* result :=
                          GenerateEmbeddings.process_template host self template_dir in
                        ret (GenerateEmbeddings.keep result embeddings))
                   embeddings)
            es) w
         (fun es' w' =>
            same_stores w w' /\
            records_of es' (ps ++ List.filter (indexable host self) cands))
         (fun _ _ => False).
Proof.
  induction industries as [| industry industries IH]; intros es ps cands w Hc Hes.
  - injection Hc as <-. simpl. split; [stores |]. rewrite app_nil_r. exact Hes.
  - cbn [for_each candidates_in] in *. step. cbv zeta.
    destruct (exists_ host (base ++ [industry])%list); cbn [negb].
    + step. step.
      destruct (iterdir host (base ++ [industry])%list) as [entries | e]; [| discriminate].
      cbn [rbind] in Hc.
      destruct (candidates_in host base industries) as [more | e]; [| discriminate].
      injection Hc as <-.
      eapply post_mono; [apply (scan_template_dirs entries es ps); exact Hes | | auto].
      intros es1 w1 [Hw1 Hes1]. cbv beta.
      eapply post_mono; [eapply (IH es1 _ more); [reflexivity | exact Hes1] | | auto].
      intros es2 w2 [Hw2 Hes2]. split; [stores |].
      rewrite List.filter_app, app_assoc. exact Hes2.
    + step. apply IH; assumption.
Qed.

Lemma process_all_templates_isolated (base : path) (cands : list path) w :
  candidates host base = Ok cands ->
  post (GenerateEmbeddings.process_all_templates host self base) w
       (fun es w' =>
          same_stores w w' /\
          records_of es (List.filter (indexable host self) cands))
       (fun _ _ => False).
Proof.
  intros Hc. unfold GenerateEmbeddings.process_all_templates. step.
  eapply post_mono;
    [apply (scan_industries base _ [] [] cands); [exact Hc | reflexivity] | | auto].
  intros es w1 [Hw1 Hes]. cbv beta. step. step. step. split; [stores | exact Hes].
Qed.

End RunIsolationFacts.

(* ===================================================================== *)
(** * Two runs side by side                                               *)
(* ===================================================================== *)

Section Rules2.
Context {A B : Type}.
Implicit Types (w : World).

Lemma lockstep_bind (m1 m2 : M A) (k1 k2 : A -> M B) w1 w2 Q E :
  lockstep m1 m2 w1 w2 (fun a1 w1' a2 w2' => lockstep (k1 a1) (k2 a2) w1' w2' Q E) E ->
  lockstep (bind m1 k1) (bind m2 k2) w1 w2 Q E.
Proof.
  unfold lockstep, bind.
  destruct (m1 w1) as [[a1 | e1] w1'], (m2 w2) as [[a2 | e2] w2']; intros H;
    solve [exact H | destruct H].
Qed.

Lemma lockstep_lift (r : Result A) w1 w2 (Q : A -> World -> A -> World -> Prop) E :
  match r with Ok a => Q a w1 a w2 | Raise e => E e w1 e w2 end ->
  lockstep (lift r) (lift r) w1 w2 Q E.
Proof. unfold lockstep, lift. destruct r; auto. Qed.

Lemma lockstep_ret (a1 a2 : A) w1 w2 (Q : A -> World -> A -> World -> Prop) E :
  Q a1 w1 a2 w2 -> lockstep (ret a1) (ret a2) w1 w2 Q E.
Proof. intros H. exact H. Qed.

Lemma lockstep_try (m1 m2 : M A) (h1 h2 : exn -> M A) w1 w2 Q E :
  lockstep m1 m2 w1 w2 Q (fun e1 w1' e2 w2' => lockstep (h1 e1) (h2 e2) w1' w2' Q E) ->
  lockstep (try_except m1 h1) (try_except m2 h2) w1 w2 Q E.
Proof.
  unfold lockstep, try_except.
  destruct (m1 w1) as [[a1 | e1] w1'], (m2 w2) as [[a2 | e2] w2']; intros H;
    solve [exact H | destruct H].
Qed.

Lemma lockstep_mono (m1 m2 : M A) w1 w2 (Q Q' : A -> World -> A -> World -> Prop) E E' :
  lockstep m1 m2 w1 w2 Q E ->
  (forall a1 w1' a2 w2', Q a1 w1' a2 w2' -> Q' a1 w1' a2 w2') ->
  (forall e1 w1' e2 w2', E e1 w1' e2 w2' -> E' e1 w1' e2 w2') ->
  lockstep m1 m2 w1 w2 Q' E'.
Proof.
  unfold lockstep.
  destruct (m1 w1) as [[a1 | e1] w1'], (m2 w2) as [[a2 | e2] w2']; auto.
Qed.

(** Two runs of one computation whose outcome is the same in every
    world take the same turn. *)
Lemma lockstep_of_posts (m : M A) (r : Result A) w1 w2 :
  (forall w, post m w (fun a _ => r = Ok a) (fun e _ => r = Raise e)) ->
  lockstep m m w1 w2 (fun a1 _ a2 _ => a1 = a2) (fun e1 _ e2 _ => e1 = e2).
Proof.
  intros H. pose proof (H w1) as H1. pose proof (H w2) as H2.
  unfold post, lockstep in *.
  destruct (m w1) as [[a1 | e1] w1'], (m w2) as [[a2 | e2] w2']; congruence.
Qed.

Lemma both_return_bind (m1 m2 : M A) (k1 k2 : A -> M B) w1 w2 Q :
  both_return m1 m2 w1 w2 (fun a1 w1' a2 w2' => both_return (k1 a1) (k2 a2) w1' w2' Q) ->
  both_return (bind m1 k1) (bind m2 k2) w1 w2 Q.
Proof.
  unfold both_return, bind.
  destruct (m1 w1) as [[a1 | e1] w1'], (m2 w2) as [[a2 | e2] w2']; auto.
  destruct (k1 a1 w1') as [[? | ?] ?]; auto.
Qed.

Lemma both_return_lift (r1 r2 : Result A) w1 w2 (Q : A -> World -> A -> World -> Prop) :
  match r1, r2 with Ok a1, Ok a2 => Q a1 w1 a2 w2 | _, _ => True end ->
  both_return (lift r1) (lift r2) w1 w2 Q.
Proof. unfold both_return, lift. destruct r1, r2; auto. Qed.

Lemma both_return_ret (a1 a2 : A) w1 w2 (Q : A -> World -> A -> World -> Prop) :
  Q a1 w1 a2 w2 -> both_return (ret a1) (ret a2) w1 w2 Q.
Proof. intros H. exact H. Qed.

Lemma both_return_mono (m1 m2 : M A) w1 w2 (Q Q' : A -> World -> A -> World -> Prop) :
  both_return m1 m2 w1 w2 Q ->
  (forall a1 w1' a2 w2', Q a1 w1' a2 w2' -> Q' a1 w1' a2 w2') ->
  both_return m1 m2 w1 w2 Q'.
Proof.
  unfold both_return.
  destruct (m1 w1) as [[a1 | e1] w1'], (m2 w2) as [[a2 | e2] w2']; auto.
Qed.

Lemma both_return_of_lockstep (m1 m2 : M A) w1 w2 Q E :
  lockstep m1 m2 w1 w2 Q E -> both_return m1 m2 w1 w2 Q.
Proof.
  unfold lockstep, both_return.
  destruct (m1 w1) as [[a1 | e1] w1'], (m2 w2) as [[a2 | e2] w2']; auto.
Qed.

(** What each run keeps on its own can be added to what they share. *)
Lemma both_return_with_posts (m1 m2 : M A) w1 w2 Q
    (P1 P2 : A -> World -> Prop) (E1 E2 : exn -> World -> Prop) :
  both_return m1 m2 w1 w2 Q ->
  post m1 w1 P1 E1 -> post m2 w2 P2 E2 ->
  both_return m1 m2 w1 w2
    (fun a1 w1' a2 w2' => Q a1 w1' a2 w2' /\ P1 a1 w1' /\ P2 a2 w2').
Proof.
  unfold both_return, post.
  destruct (m1 w1) as [[a1 | e1] w1'], (m2 w2) as [[a2 | e2] w2']; auto.
Qed.
End Rules2.

Lemma lockstep_logger (l1 l2 : level) (msg1 msg2 : string) w1 w2
    (Q : unit -> World -> unit -> World -> Prop) E :
  Q tt (add_log (l1, msg1) w1) tt (add_log (l2, msg2) w2) ->
  lockstep (logger l1 msg1) (logger l2 msg2) w1 w2 Q E.
Proof. intros H. exact H. Qed.

Lemma lockstep_utcnow_z (host : Host) w1 w2
    (Q : string -> World -> string -> World -> Prop) E :
  Q (clock host (ticks w1) ++ "Z") (tick w1) (clock host (ticks w2) ++ "Z") (tick w2) ->
  lockstep (utcnow_z host) (utcnow_z host) w1 w2 Q E.
Proof. intros H. exact H. Qed.

Lemma both_return_logger (l1 l2 : level) (msg1 msg2 : string) w1 w2
    (Q : unit -> World -> unit -> World -> Prop) :
  Q tt (add_log (l1, msg1) w1) tt (add_log (l2, msg2) w2) ->
  both_return (logger l1 msg1) (logger l2 msg2) w1 w2 Q.
Proof. intros H. exact H. Qed.

Lemma both_return_utcnow_z (host : Host) w1 w2
    (Q : string -> World -> string -> World -> Prop) :
  Q (clock host (ticks w1) ++ "Z") (tick w1) (clock host (ticks w2) ++ "Z") (tick w2) ->
  both_return (utcnow_z host) (utcnow_z host) w1 w2 Q.
Proof. intros H. exact H. Qed.

Lemma both_return_put_object (host : Host) (b k : string) (body1 body2 : json) w1 w2
    (Q : unit -> World -> unit -> World -> Prop) :
  Q tt (set_s3 (insert (b, k) body1) w1) tt (set_s3 (insert (b, k) body2) w2) ->
  both_return (put_object host b k body1) (put_object host b k body2) w1 w2 Q.
Proof.
  unfold both_return, put_object. destruct (s3_accepts host b k); auto.
Qed.

Lemma both_return_put_item (host : Host) (table : string) (item1 item2 : dict) w1 w2
    (Q : unit -> World -> unit -> World -> Prop) :
  (forall pk1 sk1 pk2 sk2,
      dict_get "PK" item1 = Some (JStr pk1) -> dict_get "SK" item1 = Some (JStr sk1) ->
      dict_get "PK" item2 = Some (JStr pk2) -> dict_get "SK" item2 = Some (JStr sk2) ->
      Q tt (set_dynamodb (insert (table, (pk1, sk1)) item1) w1)
        tt (set_dynamodb (insert (table, (pk2, sk2)) item2) w2)) ->
  both_return (put_item host table item1) (put_item host table item2) w1 w2 Q.
Proof.
  unfold both_return, put_item. intros H.
  destruct (has_float (JObj item1)); [exact I |].
  destruct (has_float (JObj item2));
    [destruct (dict_get "PK" item1) as [[| | | | pk1 | |] |]; auto;
     destruct (dict_get "SK" item1) as [[| | | | sk1 | |] |]; auto;
     destruct (dynamodb_accepts host table item1); auto |].
  destruct (dict_get "PK" item1) as [[| | | | pk1 | |] |]; auto.
  destruct (dict_get "SK" item1) as [[| | | | sk1 | |] |]; auto.
  destruct (dynamodb_accepts host table item1); auto.
  destruct (dict_get "PK" item2) as [[| | | | pk2 | |] |]; auto.
  destruct (dict_get "SK" item2) as [[| | | | sk2 | |] |]; auto.
  destruct (dynamodb_accepts host table item2); auto.
Qed.

(** Two loops side by side, over lists related element by element. *)
Lemma lockstep_for_each {A S} (R : A -> A -> Prop)
    (I : S -> World -> S -> World -> Prop) E (body1 body2 : A -> S -> M S)
    (xs1 xs2 : list A) :
  Forall2 R xs1 xs2 ->
  (forall x1 x2 acc1 w1 acc2 w2,
      R x1 x2 -> I acc1 w1 acc2 w2 ->
      lockstep (body1 x1 acc1) (body2 x2 acc2) w1 w2 I E) ->
  forall acc1 w1 acc2 w2,
    I acc1 w1 acc2 w2 ->
    lockstep (for_each xs1 body1 acc1) (for_each xs2 body2 acc2) w1 w2 I E.
Proof.
  intros Hxs Hbody. induction Hxs as [| x1 x2 xs1 xs2 Hx Hxs IH];
    intros acc1 w1 acc2 w2 HI; simpl.
  - exact HI.
  - apply lockstep_bind.
    eapply lockstep_mono; [apply Hbody; eassumption | | auto].
    intros a1 w1' a2 w2' HI'. apply IH. exact HI'.
Qed.

Lemma both_return_for_each {A S} (R : A -> A -> Prop)
    (I : S -> World -> S -> World -> Prop) (body1 body2 : A -> S -> M S)
    (xs1 xs2 : list A) :
  Forall2 R xs1 xs2 ->
  (forall x1 x2 acc1 w1 acc2 w2,
      R x1 x2 -> I acc1 w1 acc2 w2 ->
      both_return (body1 x1 acc1) (body2 x2 acc2) w1 w2 I) ->
  forall acc1 w1 acc2 w2,
    I acc1 w1 acc2 w2 ->
    both_return (for_each xs1 body1 acc1) (for_each xs2 body2 acc2) w1 w2 I.
Proof.
  intros Hxs Hbody. induction Hxs as [| x1 x2 xs1 xs2 Hx Hxs IH];
    intros acc1 w1 acc2 w2 HI; simpl.
  - exact HI.
  - apply both_return_bind.
    eapply both_return_mono; [apply Hbody; eassumption |].
    intros a1 w1' a2 w2' HI'. apply IH. exact HI'.
Qed.

(* ===================================================================== *)
(** * Records that differ in clock readings only                          *)
(* ===================================================================== *)

Lemma dict_get_erase_time (k : string) (d : dict) :
  is_time_key k = false -> dict_get k (erase_time d) = dict_get k d.
Proof.
  intros Hk. induction d as [| [k' v] d IH]; [reflexivity |].
  cbn [erase_time map fst]. destruct (String.eqb k k') eqn:Hkk.
  - apply String.eqb_eq in Hkk. subst k'. rewrite Hk. simpl.
    rewrite String.eqb_refl. reflexivity.
  - destruct (is_time_key k'); simpl; rewrite Hkk; exact IH.
Qed.

Lemma alike_dict_get (d1 d2 : dict) (k : string) :
  alike d1 d2 -> is_time_key k = false -> dict_get k d1 = dict_get k d2.
Proof.
  intros H Hk. rewrite <- (dict_get_erase_time k d1 Hk), <- (dict_get_erase_time k d2 Hk).
  unfold alike in H. rewrite H. reflexivity.
Qed.

Lemma alike_subscript (d1 d2 : dict) (k : string) :
  alike d1 d2 -> is_time_key k = false -> subscript d1 k = subscript d2 k.
Proof.
  intros H Hk. unfold subscript. rewrite (alike_dict_get d1 d2 k H Hk). reflexivity.
Qed.

Lemma alike_truthy (d1 d2 : dict) :
  alike d1 d2 -> truthy (JObj d1) = truthy (JObj d2).
Proof.
  unfold alike. destruct d1, d2; simpl; intros H; try discriminate H; reflexivity.
Qed.

Lemma alike_index_entry (d1 d2 : dict) :
  alike d1 d2 ->
  GenerateEmbeddings.index_entry d1 = GenerateEmbeddings.index_entry d2.
Proof.
  intros H. unfold GenerateEmbeddings.index_entry.
  rewrite !(alike_subscript d1 d2 _ H) by reflexivity. reflexivity.
Qed.

Lemma alike_index_entries (es1 es2 : list dict) :
  Forall2 alike es1 es2 ->
  comprehension GenerateEmbeddings.index_entry es1
  = comprehension GenerateEmbeddings.index_entry es2.
Proof.
  induction 1 as [| d1 d2 es1 es2 Hd Hes IH]; [reflexivity |].
  simpl. rewrite (alike_index_entry d1 d2 Hd), IH. reflexivity.
Qed.

Lemma alike_keep (r1 r2 : option dict) (es1 es2 : list dict) :
  alike_opt r1 r2 -> Forall2 alike es1 es2 ->
  Forall2 alike (GenerateEmbeddings.keep r1 es1) (GenerateEmbeddings.keep r2 es2).
Proof.
  intros Hr Hes. destruct r1 as [d1 |], r2 as [d2 |]; simpl in Hr; try contradiction;
    [| exact Hes].
  unfold GenerateEmbeddings.keep. rewrite (alike_truthy d1 d2 Hr).
  destruct (truthy (JObj d2)); [| exact Hes].
  apply Forall2_app; [exact Hes |]. constructor; [exact Hr | constructor].
Qed.

Lemma catching_up_same_stores docs items (wa wb wa' wb' : World) :
  catching_up docs items wa wb ->
  same_stores wa wa' -> same_stores wb wb' ->
  catching_up docs items wa' wb'.
Proof.
  unfold catching_up, same_stores. intros [Hs Hd] [-> ->] [-> ->]. auto.
Qed.

Lemma catching_up_put_object docs items (wa wb : World) (k : string * string)
    (body_a body_b : json) :
  catching_up docs items wa wb ->
  erase_doc body_b = erase_doc body_a ->
  catching_up docs items (set_s3 (insert k body_a) wa) (set_s3 (insert k body_b) wb).
Proof.
  unfold catching_up. intros [Hs Hd] Hbody. split; [| exact Hd].
  intros k'. simpl. destruct (decide (k = k')) as [<- | Hne].
  - left. rewrite !lookup_insert_eq. simpl. rewrite Hbody. reflexivity.
  - rewrite !lookup_insert_ne by exact Hne. apply Hs.
Qed.

Lemma catching_up_put_item docs items (wa wb : World)
    (k : string * (string * string)) (item_a item_b : dict) :
  catching_up docs items wa wb ->
  erase_time item_b = erase_time item_a ->
  catching_up docs items (set_dynamodb (insert k item_a) wa)
    (set_dynamodb (insert k item_b) wb).
Proof.
  unfold catching_up. intros [Hs Hd] Hitem. split; [exact Hs |].
  intros k'. simpl. destruct (decide (k = k')) as [<- | Hne].
  - left. rewrite !lookup_insert_eq. simpl. rewrite Hitem. reflexivity.
  - rewrite !lookup_insert_ne by exact Hne. apply Hd.
Qed.

Lemma catching_up_logged docs items (wa wb : World) (x y : level * string) :
  catching_up docs items wa wb ->
  catching_up docs items (add_log x wa) (add_log y wb).
Proof. intros H. exact H. Qed.

Lemma Forall2_eq_refl {A} (xs : list A) : Forall2 eq xs xs.
Proof. induction xs; constructor; auto. Qed.

Lemma lockstep_lift_ok {A} (a1 a2 : A) w1 w2 (Q : A -> World -> A -> World -> Prop) E :
  Q a1 w1 a2 w2 -> lockstep (lift (Ok a1)) (lift (Ok a2)) w1 w2 Q E.
Proof. intros H. exact H. Qed.

Arguments lockstep : simpl never.
Arguments both_return : simpl never.

(** One step of two runs of the same code. *)
Ltac step2 :=
  lazymatch goal with
  | |- lockstep (bind _ _) (bind _ _) _ _ _ _ => apply lockstep_bind
  | |- lockstep (lift (Ok _)) (lift (Ok _)) _ _ _ _ => apply lockstep_lift_ok
  | |- lockstep (lift ?r) (lift ?r) _ _ _ _ =>
      apply lockstep_lift; cbv beta; destruct r eqn:?
  | |- lockstep (logger _ _) (logger _ _) _ _ _ _ => apply lockstep_logger
  | |- lockstep (ret _) (ret _) _ _ _ _ => apply lockstep_ret
  | |- lockstep (utcnow_z _) (utcnow_z _) _ _ _ _ => apply lockstep_utcnow_z
  | |- lockstep (try_except _ _) (try_except _ _) _ _ _ _ => apply lockstep_try
  | |- lockstep (if ?b then _ else _) (if ?b then _ else _) _ _ _ _ => destruct b eqn:?
  end; cbv beta.

Ltac walk2 fin := repeat (step2; try solve [fin]).

Section TwoRuns.
Context {rt : PyRuntime} (host : Host) (self : GenerateEmbeddings.EmbeddingGenerator).

Lemma generate_embedding_lockstep (text : string) w1 w2 :
  lockstep (GenerateEmbeddings.generate_embedding host text)
           (GenerateEmbeddings.generate_embedding host text) w1 w2
           (fun v1 _ v2 _ => v1 = v2) (fun e1 _ e2 _ => e1 = e2).
Proof.
  apply (lockstep_of_posts _ (embedding_of host text)). intros w.
  eapply post_mono; [apply generate_embedding_denotes | |]; cbv beta; intros ? ? [H _];
    exact H.
Qed.

Lemma process_template_lockstep (p : path) w1 w2 :
  lockstep (GenerateEmbeddings.process_template host self p)
           (GenerateEmbeddings.process_template host self p) w1 w2
           (fun r1 _ r2 _ => alike_opt r1 r2) any_exn.
Proof.
  unfold GenerateEmbeddings.process_template.
  walk2 ltac:(exact I).
  match goal with H : GenerateEmbeddings.build_embedding_text _ _ = Ok _ |- _ =>
    destruct (build_embedding_text_needs_dict self _ _ H) as [md ->] end.
  eapply lockstep_mono; [apply generate_embedding_lockstep | |].
  - intros v w1' v' w2' <-. cbn [method_get].
    walk2 ltac:(exact I).
    all: unfold subscript; simpl; walk2 ltac:(exact I).
    all: unfold alike_opt, alike; reflexivity.
  - intros e1 w1' e2 w2' _. walk2 ltac:(exact I).
Qed.

Lemma process_all_templates_lockstep (base : path) w1 w2 :
  lockstep (GenerateEmbeddings.process_all_templates host self base)
           (GenerateEmbeddings.process_all_templates host self base) w1 w2
           (fun es1 _ es2 _ => Forall2 alike es1 es2) any_exn.
Proof.
  unfold GenerateEmbeddings.process_all_templates. step2.
  eapply lockstep_mono with (Q := fun es1 _ es2 _ => Forall2 alike es1 es2)
                            (E := any_exn).
  - apply (lockstep_for_each eq (fun es1 _ es2 _ => Forall2 alike es1 es2));
      [apply Forall2_eq_refl | | constructor].
    intros industry ? es1 wa es2 wb <- Hes. cbv zeta.
    walk2 ltac:(first [exact I | exact Hes]).
    apply (lockstep_for_each eq (fun es1 _ es2 _ => Forall2 alike es1 es2));
      [apply Forall2_eq_refl | | exact Hes].
    clear. intros dir ? es1 wa es2 wb <- Hes.
    walk2 ltac:(first [exact I | exact Hes]).
    eapply lockstep_mono; [apply process_template_lockstep | | auto].
    intros r1 wa' r2 wb' Hr. cbv beta. step2. apply alike_keep; assumption.
  - intros es1 wa es2 wb Hes. cbv beta.
    rewrite (Forall2_length _ _ _ Hes).
    walk2 ltac:(first [exact I | exact Hes]).
  - auto.
Qed.

End TwoRuns.

Lemma both_return_lift_same {A} (r : Result A) w1 w2
    (Q : A -> World -> A -> World -> Prop) :
  match r with Ok a => Q a w1 a w2 | Raise _ => True end ->
  both_return (lift r) (lift r) w1 w2 Q.
Proof. unfold both_return, lift. destruct r; auto. Qed.

(** One step of two runs that are looked at only when both return. *)
Ltac stepb :=
  lazymatch goal with
  | |- both_return (bind _ _) (bind _ _) _ _ _ => apply both_return_bind
  | |- both_return (lift ?r) (lift ?r) _ _ _ =>
      apply both_return_lift_same; cbv beta; destruct r eqn:?
  | |- both_return (lift ?r1) (lift ?r2) _ _ _ =>
      apply both_return_lift; cbv beta; destruct r1 eqn:?, r2 eqn:?
  | |- both_return (logger _ _) (logger _ _) _ _ _ => apply both_return_logger
  | |- both_return (ret _) (ret _) _ _ _ => apply both_return_ret
  | |- both_return (utcnow_z _) (utcnow_z _) _ _ _ => apply both_return_utcnow_z
  | |- both_return (put_object _ _ _ _) (put_object _ _ _ _) _ _ _ =>
      apply both_return_put_object
  | |- both_return (put_item _ _ _) (put_item _ _ _) _ _ _ =>
      apply both_return_put_item; intros ? ? ? ? ? ? ? ?
  end; cbv beta.

Ltac walkb fin := repeat (stepb; try solve [fin]).

Section TwoSaves.
Context {rt : PyRuntime} (host : Host) (self : GenerateEmbeddings.EmbeddingGenerator).
Context (docs : gmap (string * string) json)
        (items : gmap (string * (string * string)) dict).

Lemma save_to_s3_vectors_both (es1 es2 : list dict) wa wb :
  Forall2 alike es1 es2 ->
  catching_up docs items wa wb ->
  both_return (GenerateEmbeddings.save_to_s3_vectors host self es1)
              (GenerateEmbeddings.save_to_s3_vectors host self es2) wa wb
              (fun _ wa' _ wb' => catching_up docs items wa' wb').
Proof.
  intros Hes Hw. unfold GenerateEmbeddings.save_to_s3_vectors.
  stepb.
  eapply both_return_mono with (Q := fun _ wa' _ wb' => catching_up docs items wa' wb').
  - apply (both_return_for_each alike (fun _ wa' _ wb' => catching_up docs items wa' wb')
             _ _ es1 es2 Hes); [| exact Hw].
    intros d1 d2 [] wa1 [] wb1 Hd Hw1.
    rewrite !(alike_subscript d1 d2 _ Hd) by reflexivity.
    walkb ltac:(exact I).
    apply catching_up_logged.
    apply catching_up_put_object; [exact Hw1 | reflexivity].
  - intros u wa1 u' wb1 Hw1. cbv beta.
    rewrite (alike_index_entries es1 es2 Hes), (Forall2_length _ _ _ Hes).
    walkb ltac:(exact I).
    apply catching_up_logged.
    apply catching_up_put_object; [| reflexivity].
    eapply catching_up_same_stores; [exact Hw1 | stores | stores].
Qed.

Lemma save_to_dynamodb_both (es1 es2 : list dict) wa wb :
  Forall2 alike es1 es2 ->
  catching_up docs items wa wb ->
  both_return (GenerateEmbeddings.save_to_dynamodb host self es1)
              (GenerateEmbeddings.save_to_dynamodb host self es2) wa wb
              (fun _ wa' _ wb' => catching_up docs items wa' wb').
Proof.
  intros Hes Hw. unfold GenerateEmbeddings.save_to_dynamodb.
  stepb.
  eapply both_return_mono with (Q := fun _ wa' _ wb' => catching_up docs items wa' wb').
  - apply (both_return_for_each alike (fun _ wa' _ wb' => catching_up docs items wa' wb')
             _ _ es1 es2 Hes); [| exact Hw].
    intros d1 d2 [] wa1 [] wb1 Hd Hw1.
    rewrite !(alike_subscript d1 d2 _ Hd) by reflexivity.
    walkb ltac:(exact I).
    all: simpl in *.
    all: repeat match goal with
                | H : Some (JStr _) = Some (JStr _) |- _ => injection H as H; subst
                end.
    all: apply catching_up_logged.
    all: apply catching_up_put_item; [exact Hw1 | reflexivity].
  - intros u wa1 u' wb1 Hw1. cbv beta.
    rewrite (Forall2_length _ _ _ Hes).
    walkb ltac:(exact I).
    eapply catching_up_same_stores; [exact Hw1 | stores | stores].
Qed.

End TwoSaves.

Lemma lockstep_raise {A} (e1 e2 : exn) w1 w2 (Q : A -> World -> A -> World -> Prop) E :
  E e1 w1 e2 w2 -> lockstep (raise e1) (raise e2) w1 w2 Q E.
Proof. intros H. exact H. Qed.

Lemma both_return_raise {A} (e1 e2 : exn) w1 w2 (Q : A -> World -> A -> World -> Prop) :
  both_return (raise e1) (raise e2) w1 w2 Q.
Proof. exact I. Qed.

Lemma both_return_init (self : GenerateEmbeddings.EmbeddingGenerator) w1 w2
    (Q : unit -> World -> unit -> World -> Prop) :
  (forall w1' w2', only_logged w1 w1' -> only_logged w2 w2' -> Q tt w1' tt w2') ->
  both_return (GenerateEmbeddings.__init__ self) (GenerateEmbeddings.__init__ self) w1 w2 Q.
Proof.
  intros H. unfold GenerateEmbeddings.__init__.
  repeat (apply both_return_bind; apply both_return_logger). apply both_return_logger.
  apply H; repeat split.
Qed.

Section TwoMains.
Context {rt : PyRuntime} (host : Host) (self : GenerateEmbeddings.EmbeddingGenerator).
Context (docs : gmap (string * string) json)
        (items : gmap (string * (string * string)) dict).

Lemma main_both (base : path) (template : option path) wa wb :
  catching_up docs items wa wb ->
  both_return (GenerateEmbeddings.main host self base template)
              (GenerateEmbeddings.main host self base template) wa wb
              (fun _ wa' _ wb' => catching_up docs items wa' wb').
Proof.
  intros Hw0. unfold GenerateEmbeddings.main. stepb.
  apply both_return_init. intros wa0 wb0 Ha0 Hb0.
  assert (Hw : catching_up docs items wa0 wb0)
    by (eapply catching_up_same_stores; [exact Hw0 | stores | stores]).
  clear Hw0 Ha0 Hb0. revert Hw. generalize wa0 wb0. clear wa wb. intros wa wb Hw.
  stepb.
  eapply both_return_mono.
  - apply both_return_with_posts with
      (P1 := fun _ w' => same_stores wa w') (E1 := fun _ _ => True)
      (P2 := fun _ w' => same_stores wb w') (E2 := fun _ _ => True).
    + apply both_return_of_lockstep with (E := any_exn).
      destruct template as [t |]; [| apply process_all_templates_lockstep].
      step2; [step2; step2; apply lockstep_raise; exact I |].
      step2. eapply lockstep_mono; [apply process_template_lockstep | | auto].
      intros r1 wa' r2 wb' Hr. cbv beta. step2.
      apply alike_keep; [exact Hr | constructor].
    + destruct template as [t |].
      * step; [step; step; step; exact I |].
        step. eapply post_mono; [apply process_template_post | | intros ? ? []].
        intros r w' [Hw' _]. cbv beta. step. exact Hw'.
      * eapply post_mono; [apply process_all_templates_post | | auto].
        intros es w' [Hw' _]. exact Hw'.
    + destruct template as [t |].
      * step; [step; step; step; exact I |].
        step. eapply post_mono; [apply process_template_post | | intros ? ? []].
        intros r w' [Hw' _]. cbv beta. step. exact Hw'.
      * eapply post_mono; [apply process_all_templates_post | | auto].
        intros es w' [Hw' _]. exact Hw'.
  - intros es1 wa1 es2 wb1 (Hes & Ha & Hb). cbv beta.
    assert (Hw1 : catching_up docs items wa1 wb1)
      by (eapply catching_up_same_stores; eassumption).
    destruct Hes as [| d1 d2 es1 es2 Hd Hes].
    + stepb. stepb. apply both_return_raise.
    + stepb.
      eapply both_return_mono;
        [apply (save_to_s3_vectors_both host self docs items (d1 :: es1) (d2 :: es2));
           [constructor; assumption | exact Hw1] |].
      intros u wa2 u' wb2 Hw2. cbv beta.
      apply (save_to_dynamodb_both host self docs items (d1 :: es1) (d2 :: es2));
        [constructor; assumption | exact Hw2].
Qed.

End TwoMains.

(* ===================================================================== *)
(** * The index update of the second script merges                        *)
(* ===================================================================== *)

Lemma subscript_get (d : dict) (k : string) (v default : json) :
  subscript d k = Ok v -> get d k default = v.
Proof.
  unfold subscript, get. destruct (dict_get k d); [| discriminate].
  intros [= <-]. reflexivity.
Qed.

Lemma setdefault_append_adds (d d' emb : dict) (l : list json) :
  dict_get "templates" d = Some (JArr l) ->
  ProcessExisting.setdefault_append d emb = Ok d' ->
  dict_get "templates" d' = Some (JArr (l ++ [merged_entry emb])).
Proof.
  intros Hl. unfold ProcessExisting.setdefault_append, has_key, get.
  rewrite Hl. cbv iota. rewrite Hl.
  destruct (subscript emb "template_id") as [v1 |] eqn:H1; [| discriminate].
  destruct (subscript emb "name") as [v2 |] eqn:H2; [| discriminate].
  destruct (subscript emb "industry") as [v3 |] eqn:H3; [| discriminate].
  cbv beta iota zeta delta [rbind]. intros [= <-]. rewrite dict_get_set_eq.
  unfold merged_entry, ProcessExisting.append.
  rewrite (subscript_get _ _ _ JNull H1), (subscript_get _ _ _ JNull H2),
    (subscript_get _ _ _ JNull H3).
  reflexivity.
Qed.

Section MergeFacts.
Context {rt : PyRuntime} (host : Host) (self : ProcessExisting.ExistingTemplateProcessor).

Lemma merge_loop (existing_ids : list json) (old : list json) (new : list dict) :
  forall (d : dict) (added : list json) (w : World),
    dict_get "templates" d = Some (JArr (old ++ added)) ->
    post (for_each new
            (fun emb existing_index =>
               let* id := lift (subscript emb "template_id") in
               if negb (hashable id) then raise TypeError
               else if negb (mem id existing_ids)
               then lift (ProcessExisting.setdefault_append existing_index emb)
               else ret existing_index)
            d) w
         (fun d' _ =>
            dict_get "templates" d'
            = Some (JArr (old ++ added
                            ++ map merged_entry (List.filter (unseen existing_ids) new))))
         (fun _ _ => True).
Proof.
  induction new as [| emb new IH]; intros d added w Hd.
  - simpl. rewrite app_nil_r. exact Hd.
  - cbn [for_each List.filter]. step. step. step.
    destruct (subscript emb "template_id") as [id |] eqn:Hid; [| exact I].
    unfold unseen. rewrite (subscript_get _ _ _ JNull Hid).
    step; [exact I |]. step.
    + step. destruct (ProcessExisting.setdefault_append d emb) as [d' |] eqn:Hset;
        [| exact I].
      pose proof (setdefault_append_adds _ _ _ _ Hd Hset) as Hd'.
      rewrite <- app_assoc in Hd'.
      eapply post_mono; [apply (IH d' (added ++ [merged_entry emb])%list); exact Hd' | | auto].
      intros d'' w'' Hd''. cbv beta in Hd'' |- *. cbn [map].
      rewrite <- app_assoc in Hd''. exact Hd''.
    + step. apply IH. exact Hd.
Qed.

(** When the vectors bucket holds an index whose [templates] are [old],
    an update with the records [new] that completes leaves an index whose
    [templates] are [old] followed by one entry for each record of [new]
    whose identifier [old] does not list: nothing that was indexed is
    dropped. *)
Lemma update_vectors_index_merges_entries (d0 : dict) (old : list json)
    (new : list dict) (w : World) :
  s3 w !! (ProcessExisting.vectors_bucket self, INDEX_KEY) = Some (JObj d0) ->
  dict_get "templates" d0 = Some (JArr old) ->
  post (ProcessExisting._update_vectors_index host self new) w
       (fun _ w' =>
          exists d' ids,
            ProcessExisting.existing_ids_of (JArr old) = Ok ids /\
            s3 w' !! (ProcessExisting.vectors_bucket self, INDEX_KEY) = Some (JObj d') /\
            dict_get "templates" d'
            = Some (JArr (old ++ map merged_entry (List.filter (unseen ids) new))))
       (fun _ _ => True).
Proof.
  intros Hstored Hold. unfold ProcessExisting._update_vectors_index.
  unfold INDEX_KEY in Hstored.
  step. step. apply post_get_object; [| intros Hnone; congruence].
  intros body Hbody. rewrite Hstored in Hbody. injection Hbody as <-.
  step. step. simpl as_dict. cbv iota. step. step.
  unfold get at 1. rewrite Hold.
  destruct (ProcessExisting.existing_ids_of (JArr old)) as [ids |] eqn:Hids; [| exact I].
  step.
  eapply post_mono;
    [apply (merge_loop ids old new d0 [] w); rewrite app_nil_r; exact Hold | | auto].
  intros d1 w1 Hd1. cbv beta in Hd1 |- *. cbn [app] in Hd1.
  step. step. unfold get at 1. rewrite Hd1. cbn [py_len].
  step. step. step. apply post_put_object; [intros _ | intros _; exact I].
  step. step. unfold subscript. rewrite !dict_get_set_ne by discriminate. rewrite Hd1.
  step. step. cbn [py_len]. step.
  eexists _, ids. split; [reflexivity |]. split.
  - simpl. apply lookup_insert_eq.
  - rewrite !dict_get_set_ne by discriminate. exact Hd1.
Qed.

End MergeFacts.

(* ===================================================================== *)
(** * What is sent to the model                                          *)
(* ===================================================================== *)

Lemma str_take_length (n : nat) (s : string) : (String.length (str_take n s) <= n)%nat.
Proof.
  unfold str_take. revert n. induction s as [| c s IH]; intros [| n]; simpl; try lia.
  specialize (IH n). lia.
Qed.

Lemma str_take_all (n : nat) (s : string) :
  (String.length s <= n)%nat -> str_take n s = s.
Proof.
  unfold str_take. revert n. induction s as [| c s IH]; intros [| n]; simpl; intros H;
    try reflexivity; try lia.
  rewrite IH by lia. reflexivity.
Qed.

Lemma submitted_prefix (text : string) :
  submitted (str_take (Z.to_nat (GenerateEmbeddings.MAX_INPUT_TOKENS * 4)) text)
  = submitted text.
Proof.
  unfold submitted.
  set (n := Z.to_nat (GenerateEmbeddings.MAX_INPUT_TOKENS * 4)).
  assert (Hn : Z.of_nat n = GenerateEmbeddings.MAX_INPUT_TOKENS * 4)
    by (subst n; apply Z2Nat.id; unfold GenerateEmbeddings.MAX_INPUT_TOKENS; lia).
  rewrite <- Hn.
  pose proof (str_take_length n text) as Hle.
  destruct (Z.gtb_spec (Z.of_nat (String.length (str_take n text))) (Z.of_nat n)); [lia |].
  destruct (Z.gtb_spec (Z.of_nat (String.length text)) (Z.of_nat n)); [reflexivity |].
  apply str_take_all. lia.
Qed.

(** X1: in both scripts [generate_embedding] reads no more than the
    first [4 * MAX_INPUT_TOKENS] (32768) characters of its input: called
    on a text or on that prefix of it, from the same world, it gives the
    same result and leaves the same world. *)
Theorem generate_embedding_reads_a_prefix :
  forall (rt : PyRuntime) (host : Host) (text : string) (w : World),
    GenerateEmbeddings.generate_embedding host text w
    = GenerateEmbeddings.generate_embedding host
        (str_take (Z.to_nat (GenerateEmbeddings.MAX_INPUT_TOKENS * 4)) text) w /\
    ProcessExisting.generate_embedding host text w
    = ProcessExisting.generate_embedding host
        (str_take (Z.to_nat (ProcessExisting.MAX_INPUT_TOKENS * 4)) text) w.
Proof.
  intros rt host text w. split.
  - unfold GenerateEmbeddings.generate_embedding. cbv zeta.
    fold (submitted text).
    fold (submitted (str_take (Z.to_nat (GenerateEmbeddings.MAX_INPUT_TOKENS * 4)) text)).
    rewrite submitted_prefix. reflexivity.
  - unfold ProcessExisting.generate_embedding. cbv zeta.
    change ProcessExisting.MAX_INPUT_TOKENS with GenerateEmbeddings.MAX_INPUT_TOKENS.
    fold (submitted text).
    fold (submitted (str_take (Z.to_nat (GenerateEmbeddings.MAX_INPUT_TOKENS * 4)) text)).
    rewrite submitted_prefix. reflexivity.
Qed.

(* ===================================================================== *)
(** * Metadata from which a text is built                                *)
(* ===================================================================== *)

Lemma all_str_ok (l : list json) : is_ok (all_str l) = strings_only l.
Proof.
  induction l as [| x l IH]; [reflexivity |].
  destruct x; simpl; try reflexivity.
  rewrite <- IH. destruct (all_str l); reflexivity.
Qed.

Lemma all_str_strs (l : list string) : is_ok (all_str (map JStr l)) = true.
Proof.
  induction l as [| x l IH]; [reflexivity |]. simpl.
  destruct (all_str (map JStr l)); [reflexivity | discriminate].
Qed.

Lemma all_str_keys (kvs : list (string * json)) :
  is_ok (all_str (map (fun kv => JStr (fst kv)) kvs)) = true.
Proof.
  induction kvs as [| x l IH]; [reflexivity |]. simpl.
  destruct (all_str _); [reflexivity | discriminate].
Qed.

Lemma join_ok (sep : string) (x : json) : is_ok (join sep x) = joinable x.
Proof.
  unfold join. destruct x; simpl; try reflexivity.
  - pose proof (all_str_strs (chars s)) as H.
    destruct (all_str (map JStr (chars s))); [reflexivity | discriminate].
  - rewrite <- all_str_ok. destruct (all_str l); reflexivity.
  - pose proof (all_str_keys kvs) as H.
    destruct (all_str _); [reflexivity | discriminate].
Qed.

Lemma strings_only_firstn (n : nat) (l : list json) :
  strings_only l = true -> strings_only (firstn n l) = true.
Proof.
  revert n. induction l as [| x l IH]; intros [| n]; simpl; auto.
  intros H. apply andb_true_iff in H as [Hx Hl]. rewrite Hx. simpl. auto.
Qed.

Lemma preview_ok (s : json) :
  truthy s = true -> joinable s = true ->
  is_ok (let? first3 := slice_to 3 s in join ", " first3) = negb (is_obj s).
Proof.
  intros Hs Hj. destruct s; simpl in *; try reflexivity; try discriminate.
  - pose proof (join_ok ", " (JStr (str_take 3 s))) as H. simpl in H. exact H.
  - pose proof (join_ok ", " (JArr (firstn 3 l))) as H. simpl in H. rewrite H.
    apply strings_only_firstn. exact Hj.
Qed.

Lemma join_cases (sep : string) (x : json) :
  (joinable x = true /\ exists t, join sep x = Ok t) \/
  (joinable x = false /\ exists e, join sep x = Raise e).
Proof.
  rewrite <- (join_ok sep x). destruct (join sep x); simpl; eauto.
Qed.

(** Reduces the verdict of a stage that is settled. *)
Ltac crush :=
  cbn [rbind is_ok method_get is_obj is_str negb orb andb];
  rewrite ?andb_false_r, ?andb_true_r; cbn [andb]; try reflexivity.

(** The last stage: the description, then the parts are joined. *)
Ltac final_join :=
  match goal with
  | |- context [truthy ?ds] =>
      destruct (truthy ds); [destruct ds |];
      unfold join, GenerateEmbeddings.append; simpl; reflexivity
  end.

(** The stage of the keywords [k]. *)
Ltac keywords_stage k :=
  destruct (truthy k);
  [ let Hj := fresh "Hk" in let t := fresh "t" in let Ht := fresh "Ht" in
    destruct (join_cases ", " k) as [[Hj [t Ht]] | [Hj [t Ht]]];
    rewrite ?Hj, Ht; crush
  | crush ].

(** X2: [build_embedding_text] of [generate_embeddings.py] returns a
    text exactly for the metadata that is an object in which, each of
    them unless absent, empty or otherwise false, [sections] is a string
    or a list of strings, [color_palette] is an object, [keywords] is a
    list of strings, a string or an object, and [description] is a
    string; on all other metadata it raises. *)
Theorem build_embedding_text_succeeds_iff_fields_fit :
  forall (rt : PyRuntime) (self : GenerateEmbeddings.EmbeddingGenerator) (metadata : json),
    is_ok (GenerateEmbeddings.build_embedding_text self metadata) = text_buildable metadata.
Proof.
  intros rt self [| | | | | | d]; try reflexivity.
  unfold GenerateEmbeddings.build_embedding_text, text_buildable.
  cbn [method_get rbind].
  generalize (get d "sections" (JArr [])) (get d "color_palette" (JObj []))
             (get d "keywords" (JArr [])) (get d "description" (JStr "")).
  intros s c k ds.
  unfold sections_fit, palette_fit, keywords_fit, description_fit.
  destruct (truthy s) eqn:Hs; cbn [negb orb].
  - destruct (join_cases ", " s) as [[Hj [t Ht]] | [Hj [e He]]]; rewrite Hj.
    2: { rewrite He. reflexivity. }
    rewrite Ht. cbn [rbind andb].
    pose proof (preview_ok s Hs Hj) as Hp.
    destruct (rbind (slice_to 3 s) _) as [pv | e]; simpl in Hp; rewrite <- Hp.
    + destruct (truthy c); [destruct c |]; crush; keywords_stage k; final_join.
    + destruct (truthy c); [destruct c |]; crush; keywords_stage k.
  - destruct (truthy c); [destruct c |]; crush; keywords_stage k; final_join.
Qed.

(** X3: [build_embedding_text] of [process_existing_templates.py]
    returns a text exactly for the entries that are objects whose
    [features], unless absent, empty or otherwise false, are a list of
    strings, a string or an object; on all other entries it raises. *)
Theorem existing_text_succeeds_iff_features_fit :
  forall (rt : PyRuntime) (self : ProcessExisting.ExistingTemplateProcessor)
         (template : json),
    is_ok (ProcessExisting.build_embedding_text self template) = entry_buildable template.
Proof.
  intros rt self [| | | | | | d]; try reflexivity.
  unfold ProcessExisting.build_embedding_text, entry_buildable.
  cbn [method_get rbind getitem]. unfold subscript, get.
  destruct (dict_get "pages_count" d) as [pages |];
    destruct (dict_get "features" d) as [features |];
    destruct (dict_get "name" d) as [name |];
    cbn [truthy rbind negb orb];
    repeat match goal with
           | |- context [truthy ?x] => destruct (truthy x); cbn [rbind negb orb]
           end;
    try match goal with
        | |- context [join ", " ?x] =>
            let Hj := fresh "Hj" in let t := fresh "t" in let Ht := fresh "Ht" in
            destruct (join_cases ", " x) as [[Hj [t Ht]] | [Hj [t Ht]]];
            rewrite Hj, Ht; cbn [rbind is_ok]; try reflexivity
        end;
    unfold join, ProcessExisting.append; simpl; reflexivity.
Qed.

(* ===================================================================== *)
(** * The record of a template                                           *)
(* ===================================================================== *)

Section RecordFacts.
Context {rt : PyRuntime} (host : Host) (self : GenerateEmbeddings.EmbeddingGenerator).

(** X4: whenever [process_template] returns a record for the template
    at [p], the metadata file of [p] loads, a text is built from it, the
    model answers for that text, the [embedding] of the record is that
    answer, and its [embedding_text] is the first 500 characters of that
    text (so at most 500 characters long). *)
Theorem record_holds_the_answer_for_its_own_text (p : path) (w : World) :
  match GenerateEmbeddings.process_template host self p w with
  | (Ok (Some d), _) =>
      exists metadata text v,
        load_json host (p ++ [ "metadata.json" ])%list = Ok metadata /\
        GenerateEmbeddings.build_embedding_text self metadata = Ok text /\
        embedding_of host text = Ok v /\
        dict_get "embedding" d = Some v /\
        dict_get "embedding_text" d = Some (JStr (str_take 500 text)) /\
        (String.length (str_take 500 text) <= 500)%nat
  | _ => True
  end.
Proof.
  change (post (GenerateEmbeddings.process_template host self p) w
            (fun r _ =>
               match r with
               | Some d =>
                   exists metadata text v,
                     load_json host (p ++ [ "metadata.json" ])%list = Ok metadata /\
                     GenerateEmbeddings.build_embedding_text self metadata = Ok text /\
                     embedding_of host text = Ok v /\
                     dict_get "embedding" d = Some v /\
                     dict_get "embedding_text" d = Some (JStr (str_take 500 text)) /\
                     (String.length (str_take 500 text) <= 500)%nat
               | None => True
               end)
            (fun _ _ => True)).
  unfold GenerateEmbeddings.process_template.
  step; [step; step; step; exact I |].
  step. step. step.
  destruct (load_json host _) as [metadata | e] eqn:Hload; [| step; step; step; exact I].
  step. step.
  destruct (GenerateEmbeddings.build_embedding_text self metadata) as [text | e] eqn:Htext;
    [| step; step; step; exact I].
  destruct (build_embedding_text_needs_dict self _ _ Htext) as [md ->].
  step. step. simpl. step. step. step.
  eapply post_mono; [apply generate_embedding_denotes | |];
    [| intros e w1 _; step; step; step; exact I].
  intros embedding w1 [Hemb Hw1]. cbv beta.
  do 12 (step; step; simpl). step. step. step. step. simpl. step. step.
  step. step. simpl. step. step.
  destruct (py_len embedding) as [n | e]; [| step; step; step; exact I].
  step. step. step.
  exists (JObj md), text, embedding. conjuncts; try assumption; try reflexivity.
  apply str_take_length.
Qed.

End RecordFacts.

(* ===================================================================== *)
(** * How a run of the generator ends                                    *)
(* ===================================================================== *)

Lemma dict_get_listed (k : string) (d : dict) :
  existsb (String.eqb k) (map fst d) = true -> exists v, dict_get k d = Some v.
Proof.
  induction d as [| [k' v'] d IH]; simpl; [discriminate |].
  destruct (String.eqb k k'); [eauto | exact IH].
Qed.

Lemma complete_subscript (d : dict) (k : string) (e : exn) :
  complete d -> existsb (String.eqb k) RESULT_KEYS = true -> subscript d k <> Raise e.
Proof.
  unfold complete. intros <- Hk. destruct (dict_get_listed k d Hk) as [v Hv].
  unfold subscript. rewrite Hv. discriminate.
Qed.

Lemma from_checkout_complete (host : Host) (d : dict) : from_checkout host d -> complete d.
Proof. intros (p & md & _ & H & _). exact H. Qed.

Lemma index_entries_exist (es : list dict) :
  Forall complete es -> exists ts, comprehension GenerateEmbeddings.index_entry es = Ok ts.
Proof.
  induction 1 as [| d es Hd _ [ts IH]]; [eexists; reflexivity |].
  cbn [comprehension]. unfold GenerateEmbeddings.index_entry at 1.
  destruct (subscript d "template_id") eqn:H1;
    [| exfalso; eapply complete_subscript; [exact Hd | | exact H1]; reflexivity].
  destruct (subscript d "name") eqn:H2;
    [| exfalso; eapply complete_subscript; [exact Hd | | exact H2]; reflexivity].
  destruct (subscript d "industry") eqn:H3;
    [| exfalso; eapply complete_subscript; [exact Hd | | exact H3]; reflexivity].
  cbn [rbind]. rewrite IH. eexists. reflexivity.
Qed.

(** Closes a goal in which a field of a complete record is missing. *)
Ltac missing Hd :=
  exfalso;
  match goal with
  | H : subscript _ _ = Raise _ |- _ =>
      eapply complete_subscript; [exact Hd | | exact H]; reflexivity
  end.

Lemma post_put_item_keyed (host : Host) (table : string) (item : dict) (pk sk : string) w
    (Q : unit -> World -> Prop) (E : exn -> World -> Prop) :
  dict_get "PK" item = Some (JStr pk) ->
  dict_get "SK" item = Some (JStr sk) ->
  (item_accepted host table item = true ->
   Q tt (set_dynamodb (insert (table, (pk, sk)) item) w)) ->
  (item_accepted host table item = false ->
   forall e, e = ClientError \/ e = TypeError -> E e w) ->
  post (put_item host table item) w Q E.
Proof.
  unfold post, put_item, item_accepted. intros -> -> HQ HE.
  destruct (has_float (JObj item)); cbn [negb andb] in *; [apply HE; auto |].
  destruct (dynamodb_accepts host table item); auto.
Qed.

(** Walks through the body of a loop that writes, keeping the reason of
    a write that fails. *)
Ltac walk_writes fin :=
  repeat (lazymatch goal with
          | |- post (bind _ _) _ _ _ => apply post_bind
          | |- post (lift (Ok _)) _ _ _ => apply post_lift
          | |- post (lift (Raise _)) _ _ _ => apply post_lift
          | |- post (lift ?r) _ _ _ => apply post_lift; cbv beta; destruct r eqn:?
          | |- post (logger _ _) _ _ _ => apply post_logger
          | |- post (ret _) _ _ _ => apply post_ret
          | |- post (utcnow_z _) _ _ _ => apply post_utcnow_z
          | |- post (put_object _ _ _ _) _ _ _ => apply post_put_object; intros ?
          | |- post (put_item _ _ _) _ _ _ =>
              eapply post_put_item_keyed;
              [reflexivity | reflexivity | intros ? | intros ? ? ?]
          end; cbv beta; try solve [fin]).

(** A loop without accumulator establishes for every element what its
    body establishes for it. *)
Lemma post_for_each_all {A} (P : A -> Prop) (E : exn -> World -> Prop)
    (body : A -> unit -> M unit) (xs : list A) :
  (forall x w, In x xs -> post (body x tt) w (fun _ _ => P x) E) ->
  forall w, post (for_each xs body tt) w (fun _ _ => forall x, In x xs -> P x) E.
Proof.
  induction xs as [| x xs IH]; intros Hbody w; simpl.
  - intros x [].
  - apply post_bind.
    eapply post_mono; [apply Hbody; left; reflexivity | | auto].
    intros [] w' Hx. cbv beta.
    eapply post_mono; [apply IH; intros; apply Hbody; right; assumption | | auto].
    intros [] w'' Hxs y [<- | Hy]; [exact Hx | apply Hxs; exact Hy].
Qed.

(** Two facts about one computation hold together. *)
Lemma post_both {A} (m : M A) w (Q1 Q2 : A -> World -> Prop)
    (E1 E2 : exn -> World -> Prop) :
  post m w Q1 E1 -> post m w Q2 E2 ->
  post m w (fun a w' => Q1 a w' /\ Q2 a w') (fun e w' => E1 e w' /\ E2 e w').
Proof. unfold post. destruct (m w) as [[a | e] w']; auto. Qed.

(** Reads the fields of a record that were subscripted as the fields
    that [get] finds. *)
Ltac as_fields :=
  repeat match goal with
         | Hs : subscript ?d ?k = Ok ?v |- _ =>
             apply (subscript_get d k v JNull) in Hs; subst v
         end.

Section RunOutcomes.
Context {rt : PyRuntime} (host : Host) (self : GenerateEmbeddings.EmbeddingGenerator).

Lemma gen_save_to_s3_vectors_accepted (es : list dict) (w : World) :
  Forall complete es ->
  post (GenerateEmbeddings.save_to_s3_vectors host self es) w
       (fun _ _ =>
          (forall d, In d es ->
                     s3_accepts host (GenerateEmbeddings.vectors_bucket self) (vector_key d)
                     = true) /\
          s3_accepts host (GenerateEmbeddings.vectors_bucket self) INDEX_KEY = true)
       (fun e _ => write_failed host self es e).
Proof.
  intros Hes. unfold GenerateEmbeddings.save_to_s3_vectors.
  step. eapply post_mono with (E := fun e _ => write_failed host self es e); [| | auto].
  - apply (post_for_each_all
             (fun d => s3_accepts host (GenerateEmbeddings.vectors_bucket self)
                         (vector_key d) = true)).
    intros d w1 Hd.
    assert (Hc : complete d)
      by (rewrite Forall_forall in Hes; apply Hes; apply list_elem_of_In; exact Hd).
    walk_writes ltac:(first
      [ missing Hc
      | as_fields; assumption
      | as_fields; split; [left; reflexivity |];
        intros [Hv _]; specialize (Hv d Hd); unfold vector_key in Hv; congruence ]).
  - intros u w1 Hall. cbv beta in Hall |- *.
    destruct (index_entries_exist es Hes) as [ts Hts]. rewrite Hts.
    walk_writes ltac:(first
      [ split; assumption
      | split; [left; reflexivity |]; intros (_ & Hi & _); unfold INDEX_KEY in Hi;
        congruence ]).
Qed.

Lemma gen_save_to_dynamodb_accepted (es : list dict) (w : World) :
  Forall complete es ->
  post (GenerateEmbeddings.save_to_dynamodb host self es) w
       (fun _ _ =>
          forall d, In d es ->
                    item_accepted host (GenerateEmbeddings.templates_table self)
                      (metadata_item d) = true)
       (fun e _ => write_failed host self es e).
Proof.
  intros Hes. unfold GenerateEmbeddings.save_to_dynamodb.
  step. eapply post_mono with (E := fun e _ => write_failed host self es e); [| | auto].
  - apply (post_for_each_all
             (fun d => item_accepted host (GenerateEmbeddings.templates_table self)
                         (metadata_item d) = true)).
    intros d w1 Hd.
    assert (Hc : complete d)
      by (rewrite Forall_forall in Hes; apply Hes; apply list_elem_of_In; exact Hd).
    walk_writes ltac:(first
      [ missing Hc
      | as_fields; assumption
      | as_fields; split; [assumption |];
        intros (_ & _ & Hi); specialize (Hi d Hd); unfold metadata_item in Hi;
        congruence ]).
  - intros u w1 Hall. cbv beta in Hall |- *. walk_writes ltac:(exact Hall).
Qed.

(** The two saves in a row complete exactly when every write is
    accepted; otherwise the failure of the first write that is not ends
    them. *)
Lemma gen_saves_accepted (es : list dict) (w : World) :
  Forall complete es ->
  post (GenerateEmbeddings.save_to_s3_vectors host self es ;;
        GenerateEmbeddings.save_to_dynamodb host self es) w
       (fun _ _ => writes_accepted host self es)
       (fun e _ => write_failed host self es e).
Proof.
  intros Hes. step.
  eapply post_mono; [apply gen_save_to_s3_vectors_accepted; exact Hes | | auto].
  intros u w1 Hv. cbv beta in Hv |- *.
  eapply post_mono; [apply gen_save_to_dynamodb_accepted; exact Hes | | auto].
  intros u' w2 Hi. cbv beta in Hi |- *. destruct Hv as [Hv Hx].
  split; [exact Hv | split; [exact Hx | exact Hi]].
Qed.

Lemma process_all_templates_raises (base : path) w :
  post (GenerateEmbeddings.process_all_templates host self base) w
       (fun es w' => same_stores w w' /\ Forall (from_checkout host) es)
       (fun e w' => e = OSError /\ same_stores w w').
Proof.
  unfold GenerateEmbeddings.process_all_templates.
  step.
  eapply post_mono with
    (Q := fun es w' => same_stores w w' /\ Forall (from_checkout host) es)
    (E := fun e w' => e = OSError /\ same_stores w w').
  - apply (post_for_each (fun es w' => same_stores w w' /\ Forall (from_checkout host) es));
      [| split; [stores | constructor]].
    intros industry es w1 _ [Hw1 Hes].
    step; [step; auto |].
    step. step. unfold iterdir.
    destruct (files host !! _) as [[dirs | ?] |]; [| split; [reflexivity | exact Hw1] ..].
    apply (post_for_each (fun es w' => same_stores w w' /\ Forall (from_checkout host) es));
      [| auto].
    clear dependent es; clear dependent w1. intros dir es w1 _ [Hw1 Hes].
    step; [step; auto |].
    step. eapply post_mono; [apply process_template_post | | intros ? ? []].
    intros r w2 [Hw2 Hr]. cbv beta. step. split; [stores |].
    eapply keep_from_checkout; eauto.
  - intros es w1 [Hw1 Hes]. cbv beta. step. step. step. split; [stores | exact Hes].
  - auto.
Qed.


End RunOutcomes.

(* ===================================================================== *)
(** * What a save leaves in the stores                                   *)
(* ===================================================================== *)

Lemma key_among (rt : PyRuntime) (k : string) (es : list dict) :
  (exists d, In d es /\ vector_key d = k) \/ (forall d, In d es -> vector_key d <> k).
Proof.
  induction es as [| x es [[d [Hd Hk]] | Hno]].
  - right. intros d [].
  - left. exists d. split; [right; exact Hd | exact Hk].
  - destruct (string_dec (vector_key x) k) as [Hx | Hx].
    + left. exists x. split; [left; reflexivity | exact Hx].
    + right. intros d [<- | Hd]; [exact Hx | apply Hno; exact Hd].
Qed.

Section VectorFacts.
Context {rt : PyRuntime} (host : Host) (self : GenerateEmbeddings.EmbeddingGenerator).

Lemma gen_save_to_s3_vectors_stores (es : list dict) (w : World) :
  post (GenerateEmbeddings.save_to_s3_vectors host self es) w
       (fun _ w' =>
          forall d, In d es -> vector_key d <> INDEX_KEY ->
                    vector_stored (GenerateEmbeddings.vectors_bucket self) es w' d)
       (fun _ _ => True).
Proof.
  unfold GenerateEmbeddings.save_to_s3_vectors. step.
  match goal with |- post (for_each _ ?b tt) _ _ _ => set (body := b) end.
  assert (Hloop : forall es w,
             post (for_each es body tt) w
               (fun _ w' =>
                  others_kept (GenerateEmbeddings.vectors_bucket self) es w w' /\
                  forall d, In d es ->
                            vector_stored (GenerateEmbeddings.vectors_bucket self) es w' d)
               (fun _ _ => True)).
  { clear es w. induction es as [| x es IH]; intros w.
    - simpl. split; [intros k _; reflexivity | intros d []].
    - cbn [for_each]. step. unfold body at 1.
      destruct (subscript x "template_id") as [id | e] eqn:Hid; [| step; step; exact I].
      destruct (subscript x "embedding") as [v | e] eqn:Hv; [| step; step; step; step; exact I].
      walk ltac:(exact I).
      eapply post_mono; [apply IH | | auto].
      intros [] w' [Hkept Hstored]. cbv beta in Hkept, Hstored |- *.
      assert (Hx : vector_key x = "template-embeddings/" ++ py_str id ++ ".json").
      { unfold vector_key. rewrite (subscript_get _ _ _ JNull Hid). reflexivity. }
      split.
      + intros k Hk. rewrite (Hkept k) by (intros d Hd; apply Hk; right; exact Hd).
        simpl. apply lookup_insert_ne. intros [= E]. apply (Hk x); [left; reflexivity |].
        rewrite Hx. exact E.
      + assert (Hlift : forall d, In d es ->
                  vector_stored (GenerateEmbeddings.vectors_bucket self) (x :: es) w' d).
        { intros d Hd. destruct (Hstored d Hd) as (d' & doc & Hin & Hk & Hrest).
          exists d', doc. split; [right; exact Hin | split; [exact Hk | exact Hrest]]. }
        intros d [<- | Hd]; [| apply Hlift; exact Hd].
        destruct (key_among rt (vector_key x) es) as [[d [Hd Hk]] | Hno].
        * destruct (Hlift d Hd) as (d' & doc & Hin & Hk' & Hrest).
          exists d', doc. rewrite <- Hk, Hk' in *. split; [exact Hin |].
          split; [reflexivity | exact Hrest].
        * exists x. eexists. split; [left; reflexivity |]. split; [reflexivity |].
          rewrite (Hkept _ Hno). simpl. rewrite Hx. rewrite lookup_insert_eq.
          split; [reflexivity |]. unfold subscript in Hid, Hv.
          destruct (dict_get "template_id" x); [| discriminate].
          destruct (dict_get "embedding" x); [| discriminate].
          injection Hid as <-. injection Hv as <-. split; reflexivity. }
  eapply post_mono; [apply Hloop | | auto].
  intros [] w1 [_ Hstored]. cbv beta in Hstored |- *.
  walk ltac:(exact I).
  intros d Hd Hk. destruct (Hstored d Hd) as (d' & doc & Hin & Hk' & Hs & Hrest).
  exists d', doc. split; [exact Hin |]. split; [exact Hk' |]. split; [| exact Hrest].
  simpl. rewrite lookup_insert_ne; [exact Hs |].
  intros E. apply Hk. symmetry. exact (f_equal snd E).
Qed.

(** X6: after [save_to_s3_vectors] of [generate_embeddings.py] has
    completed, the vectors bucket holds for every record of the batch,
    under "template-embeddings/<template_id>.json", a document whose [id]
    and [vector] are the [template_id] and the [embedding] of a record of
    the batch with that key (the record itself when no other record
    shares its key), provided the key is not that of the index document,
    which is written last. *)
Theorem vectors_are_stored_by_id (es : list dict) (w : World) :
  match GenerateEmbeddings.save_to_s3_vectors host self es w with
  | (Ok _, w') =>
      forall d, In d es -> vector_key d <> INDEX_KEY ->
                vector_stored (GenerateEmbeddings.vectors_bucket self) es w' d
  | (Raise _, _) => True
  end.
Proof. exact (gen_save_to_s3_vectors_stores es w). Qed.

Lemma vectors_since_start (bucket : string) (w w' : World) :
  s3 w' = s3 w -> vectors_since bucket w w'.
Proof. intros H k. left. rewrite H. reflexivity. Qed.

Lemma vectors_since_same (bucket : string) (w w1 w2 : World) :
  vectors_since bucket w w1 -> s3 w2 = s3 w1 -> vectors_since bucket w w2.
Proof. unfold vectors_since. intros H ->. exact H. Qed.

Lemma vectors_since_put (bucket : string) (w w1 w2 : World) (k : string * string)
    (doc : json) :
  vectors_since bucket w w1 ->
  s3 w2 = <[k := doc]> (s3 w1) ->
  k = (bucket, INDEX_KEY) \/ vector_by_id bucket k doc ->
  vectors_since bucket w w2.
Proof.
  intros H Hw2 Hk k'. rewrite Hw2.
  destruct (decide (k = k')) as [<- | Hne].
  - rewrite lookup_insert_eq. destruct Hk as [Hk | Hk]; [right; left; exact Hk |].
    right. right. exists doc. split; [reflexivity | exact Hk].
  - rewrite lookup_insert_ne by exact Hne. apply H.
Qed.

(** Closes the goals of a walk through a save to the vectors bucket. *)
Ltac vectors Hw1 :=
  let Hv := fresh "Hv" in
  let Hd := fresh "Hd" in
  destruct Hw1 as [Hv Hd];
  split; [| simpl; exact Hd];
  first [ exact Hv
        | eapply vectors_since_same; [exact Hv | reflexivity]
        | eapply vectors_since_put; [exact Hv | reflexivity |];
          first [ left; reflexivity
                | right; eexists; eexists; split; [reflexivity |];
                  split; reflexivity ] ].

(** Started in [w1], which holds next to what [w] held vector documents
    under the keys of their identifiers only, [save_to_s3_vectors] keeps
    it so, completing or not, and leaves the metadata store alone. *)
Lemma gen_save_to_s3_vectors_since (es : list dict) (w w1 : World) :
  vectors_since (GenerateEmbeddings.vectors_bucket self) w w1 ->
  post (GenerateEmbeddings.save_to_s3_vectors host self es) w1
       (fun _ w' => vectors_since (GenerateEmbeddings.vectors_bucket self) w w' /\
                    dynamodb w' = dynamodb w1)
       (fun _ w' => vectors_since (GenerateEmbeddings.vectors_bucket self) w w' /\
                    dynamodb w' = dynamodb w1).
Proof.
  intros Hstart. unfold GenerateEmbeddings.save_to_s3_vectors. step.
  eapply post_mono with
    (E := fun _ w' => vectors_since (GenerateEmbeddings.vectors_bucket self) w w' /\
                      dynamodb w' = dynamodb w1).
  - apply (post_for_each_world
             (fun w' => vectors_since (GenerateEmbeddings.vectors_bucket self) w w' /\
                        dynamodb w' = dynamodb w1));
      [| split; [exact Hstart | reflexivity]].
    intros d [] w2 Hw2. walk ltac:(vectors Hw2).
  - intros u w2 Hw2. cbv beta in Hw2 |- *. walk ltac:(vectors Hw2).
  - auto.
Qed.

Lemma vectors_since_one_per_id (bucket : string) (w w' : World) :
  vectors_since bucket w w' -> one_vector_per_id bucket w w'.
Proof.
  intros H k1 k2 d1 d2 H1 N1 I1 H2 N2 I2 Hid.
  destruct (H k1) as [E1 | [E1 | (doc1 & E1 & id1 & x1 & -> & Hx1 & ->)]];
    [rewrite <- E1 in N1; contradiction | contradiction |].
  destruct (H k2) as [E2 | [E2 | (doc2 & E2 & id2 & x2 & -> & Hx2 & ->)]];
    [rewrite <- E2 in N2; contradiction | contradiction |].
  rewrite H1 in E1. rewrite H2 in E2.
  injection E1 as ->. injection E2 as ->. congruence.
Qed.

End VectorFacts.

Section ItemFacts.
Context {rt : PyRuntime} (host : Host).

Lemma keyed_since_start (table : string) (w w' : World) :
  dynamodb w' = dynamodb w -> keyed_since table w w'.
Proof. intros H k. left. rewrite H. reflexivity. Qed.

Lemma keyed_since_same (table : string) (w w1 w2 : World) :
  keyed_since table w w1 -> dynamodb w2 = dynamodb w1 -> keyed_since table w w2.
Proof. unfold keyed_since. intros H ->. exact H. Qed.

Lemma keyed_since_put (table : string) (w w1 w2 : World) (k : string * (string * string))
    (item : dict) :
  keyed_since table w w1 ->
  dynamodb w2 = <[k := item]> (dynamodb w1) ->
  keyed_by_id table k item ->
  keyed_since table w w2.
Proof.
  intros H Hw2 Hitem k'. rewrite Hw2.
  destruct (decide (k = k')) as [<- | Hne].
  - rewrite lookup_insert_eq. right. exists item. split; [reflexivity | exact Hitem].
  - rewrite lookup_insert_ne by exact Hne. apply H.
Qed.

(** Closes the goals of a walk through a save to the metadata store. *)
Ltac keyed Hw1 :=
  let Hk := fresh "Hk" in
  let Hs := fresh "Hs" in
  destruct Hw1 as [Hk Hs];
  split; [| simpl; exact Hs];
  first [ exact Hk
        | eapply keyed_since_same; [exact Hk | reflexivity]
        | eapply keyed_since_put; [exact Hk | reflexivity |];
          eexists; conjuncts; try reflexivity;
          match goal with
          | Hp : dict_get "PK" _ = Some (JStr ?pk), Hq : dict_get "SK" _ = Some (JStr ?sk)
            |- _ => simpl in Hp, Hq; injection Hp as <-; injection Hq as <-; reflexivity
          end ].

(** Started in [w1], which holds next to what [w] held items under the
    keys of their identifiers only, [save_to_dynamodb] keeps it so,
    completing or not, and leaves the object store alone. *)
Lemma gen_save_to_dynamodb_keyed (self : GenerateEmbeddings.EmbeddingGenerator)
    (es : list dict) (w w1 : World) :
  keyed_since (GenerateEmbeddings.templates_table self) w w1 ->
  post (GenerateEmbeddings.save_to_dynamodb host self es) w1
       (fun _ w' => keyed_since (GenerateEmbeddings.templates_table self) w w' /\
                    s3 w' = s3 w1)
       (fun _ w' => keyed_since (GenerateEmbeddings.templates_table self) w w' /\
                    s3 w' = s3 w1).
Proof.
  intros Hstart. unfold GenerateEmbeddings.save_to_dynamodb. step.
  eapply post_mono with
    (E := fun _ w' => keyed_since (GenerateEmbeddings.templates_table self) w w' /\
                      s3 w' = s3 w1).
  - apply (post_for_each_world
             (fun w' => keyed_since (GenerateEmbeddings.templates_table self) w w' /\
                        s3 w' = s3 w1));
      [| split; [exact Hstart | reflexivity]].
    intros d [] w2 Hw2. walk ltac:(keyed Hw2).
  - intros u w2 Hw2. cbv beta in Hw2 |- *. walk ltac:(keyed Hw2).
  - auto.
Qed.

Lemma pe_save_to_dynamodb_keyed (self : ProcessExisting.ExistingTemplateProcessor)
    (es : list dict) (w w1 : World) :
  keyed_since (ProcessExisting.templates_table self) w w1 ->
  post (ProcessExisting.save_to_dynamodb host self es) w1
       (fun _ w' => keyed_since (ProcessExisting.templates_table self) w w' /\
                    s3 w' = s3 w1)
       (fun _ w' => keyed_since (ProcessExisting.templates_table self) w w' /\
                    s3 w' = s3 w1).
Proof.
  intros Hstart. unfold ProcessExisting.save_to_dynamodb.
  apply (post_for_each_world
           (fun w' => keyed_since (ProcessExisting.templates_table self) w w' /\
                      s3 w' = s3 w1));
    [| split; [exact Hstart | reflexivity]].
  intros d [] w2 Hw2. walk ltac:(keyed Hw2).
Qed.

Lemma keyed_since_one_per_id (table : string) (w w' : World) :
  keyed_since table w w' -> one_item_per_id w w'.
Proof.
  intros H k1 k2 i1 i2 H1 N1 H2 N2 Hid.
  destruct (H k1) as [E1 | (x1 & E1 & id1 & Hx1 & -> & _)];
    [rewrite <- E1 in N1; contradiction |].
  destruct (H k2) as [E2 | (x2 & E2 & id2 & Hx2 & -> & _)];
    [rewrite <- E2 in N2; contradiction |].
  rewrite H1 in E1. rewrite H2 in E2.
  injection E1 as ->. injection E2 as ->. congruence.
Qed.

(** X7: whatever the batch, and whether it completes or fails part-way,
    [save_to_dynamodb] of either script leaves under every key of the
    metadata store either what was there before the call (nothing, if
    there was nothing), or an item that is stored in the templates table
    under the partition key "TEMPLATE" and the sort key
    "TEMPLATE#<template_id>", that names its vector document by the same
    identifier ([vector_id]) and that does not hold the embedding
    vector: it removes nothing, and adds or replaces only items keyed by
    their identifier. *)
Theorem metadata_items_are_keyed_by_id :
  (forall (self : GenerateEmbeddings.EmbeddingGenerator) (es : list dict) (w : World),
      keyed_since (GenerateEmbeddings.templates_table self) w
        (snd (GenerateEmbeddings.save_to_dynamodb host self es w))) /\
  (forall (self : ProcessExisting.ExistingTemplateProcessor) (es : list dict) (w : World),
      keyed_since (ProcessExisting.templates_table self) w
        (snd (ProcessExisting.save_to_dynamodb host self es w))).
Proof.
  split; intros self es w.
  - pose proof (gen_save_to_dynamodb_keyed self es w w
                  (keyed_since_start _ w w eq_refl)) as H.
    unfold post in H.
    destruct (GenerateEmbeddings.save_to_dynamodb host self es w) as [[u | e] w'];
      exact (proj1 H).
  - pose proof (pe_save_to_dynamodb_keyed self es w w
                  (keyed_since_start _ w w eq_refl)) as H.
    unfold post in H.
    destruct (ProcessExisting.save_to_dynamodb host self es w) as [[u | e] w'];
      exact (proj1 H).
Qed.

End ItemFacts.

Lemma item_key_among (rt : PyRuntime) (k : string) (es : list dict) :
  (exists d, In d es /\ item_key d = k) \/ (forall d, In d es -> item_key d <> k).
Proof.
  induction es as [| x es [[d [Hd Hk]] | Hno]].
  - right. intros d [].
  - left. exists d. split; [right; exact Hd | exact Hk].
  - destruct (string_dec (item_key x) k) as [Hx | Hx].
    + left. exists x. split; [left; reflexivity | exact Hx].
    + right. intros d [<- | Hd]; [exact Hx | apply Hno; exact Hd].
Qed.

Section PublishedFacts.
Context {rt : PyRuntime} (host : Host) (self : GenerateEmbeddings.EmbeddingGenerator).

Lemma gen_save_to_dynamodb_stores (es : list dict) (w : World) :
  post (GenerateEmbeddings.save_to_dynamodb host self es) w
       (fun _ w' =>
          s3 w' = s3 w /\
          forall d, In d es ->
                    item_stored (GenerateEmbeddings.templates_table self) es w' d)
       (fun _ _ => True).
Proof.
  unfold GenerateEmbeddings.save_to_dynamodb. step.
  match goal with |- post (for_each _ ?b tt) _ _ _ => set (body := b) end.
  assert (Hloop : forall es w,
             post (for_each es body tt) w
               (fun _ w' =>
                  s3 w' = s3 w /\
                  (forall k, (forall d, In d es -> item_key d <> k) ->
                             dynamodb w' !! (GenerateEmbeddings.templates_table self,
                                             ("TEMPLATE", k))
                             = dynamodb w !! (GenerateEmbeddings.templates_table self,
                                              ("TEMPLATE", k))) /\
                  forall d, In d es ->
                            item_stored (GenerateEmbeddings.templates_table self) es w' d)
               (fun _ _ => True)).
  { clear es w. induction es as [| x es IH]; intros w.
    - simpl. split; [reflexivity |]. split; [intros k _; reflexivity | intros d []].
    - cbn [for_each]. step. unfold body at 1.
      destruct (subscript x "template_id") as [id | e] eqn:Hid; [| step; step; exact I].
      walk ltac:(exact I).
      simpl in H, H0. injection H as <-. injection H0 as <-.
      eapply post_mono; [apply IH | | auto].
      intros [] w' (Hs3 & Hkept & Hstored). cbv beta in Hs3, Hkept, Hstored |- *.
      assert (Hx : item_key x = "TEMPLATE#" ++ py_str id).
      { unfold item_key. rewrite (subscript_get _ _ _ JNull Hid). reflexivity. }
      split; [rewrite Hs3; reflexivity |]. split.
      + intros k Hk. rewrite (Hkept k) by (intros d Hd; apply Hk; right; exact Hd).
        simpl. apply lookup_insert_ne. intros E. apply (Hk x); [left; reflexivity |].
        rewrite Hx. injection E as E. exact E.
      + assert (Hlift : forall d, In d es ->
                  item_stored (GenerateEmbeddings.templates_table self) (x :: es) w' d).
        { intros d Hd. destruct (Hstored d Hd) as (d' & item & Hin & Hk & Hrest).
          exists d', item. split; [right; exact Hin | split; [exact Hk | exact Hrest]]. }
        intros d [<- | Hd]; [| apply Hlift; exact Hd].
        destruct (item_key_among rt (item_key x) es) as [[d [Hd Hk]] | Hno].
        * destruct (Hlift d Hd) as (d' & item & Hin & Hk' & Hrest).
          exists d', item. rewrite <- Hk, Hk' in *. split; [exact Hin |].
          split; [reflexivity | exact Hrest].
        * exists x. eexists. split; [left; reflexivity |]. split; [reflexivity |].
          rewrite (Hkept _ Hno). simpl. rewrite Hx. rewrite lookup_insert_eq.
          split; [reflexivity |]. unfold subscript in *.
          destruct (dict_get "template_id" x); [| discriminate].
          destruct (dict_get "s3_path" x); [| discriminate].
          split; simpl; congruence. }
  eapply post_mono; [apply Hloop | | auto].
  intros [] w1 (Hs3 & _ & Hstored). cbv beta in Hs3, Hstored |- *.
  step. split; [exact Hs3 | exact Hstored].
Qed.


End PublishedFacts.


(* ===================================================================== *)
(** * The index of the second script                                     *)
(* ===================================================================== *)

Lemma unseen_nothing (new : list dict) : List.filter (unseen []) new = new.
Proof.
  induction new as [| d new IH]; [reflexivity |]. simpl. rewrite IH. reflexivity.
Qed.

Section MergeTheorems.
Context {rt : PyRuntime} (host : Host) (self : ProcessExisting.ExistingTemplateProcessor).


(** X9: when the vectors bucket holds no index document, an
    [_update_vectors_index] that completes writes one whose [templates]
    are the entries of the records of the batch, one each and in order,
    and whose [vectors_count] is the size of the batch. *)
Theorem first_index_lists_the_batch (new : list dict) (w : World) :
  s3 w !! (ProcessExisting.vectors_bucket self, INDEX_KEY) = None ->
  match ProcessExisting._update_vectors_index host self new w with
  | (Ok _, w') =>
      exists d',
        s3 w' !! (ProcessExisting.vectors_bucket self, INDEX_KEY) = Some (JObj d') /\
        dict_get "templates" d' = Some (JArr (map merged_entry new)) /\
        dict_get "vectors_count" d' = Some (JInt (Z.of_nat (length new)))
  | (Raise _, _) => True
  end.
Proof.
  intros Hnone.
  change (post (ProcessExisting._update_vectors_index host self new) w
            (fun _ w' =>
               exists d',
                 s3 w' !! (ProcessExisting.vectors_bucket self, INDEX_KEY) = Some (JObj d') /\
                 dict_get "templates" d' = Some (JArr (map merged_entry new)) /\
                 dict_get "vectors_count" d' = Some (JInt (Z.of_nat (length new))))
            (fun _ _ => True)).
  unfold ProcessExisting._update_vectors_index. unfold INDEX_KEY in Hnone.
  step. step. apply post_get_object; [intros body Hbody; congruence | intros _].
  step. step. step. simpl as_dict. cbv iota. step. step.
  match goal with
  | |- context [ProcessExisting.existing_ids_of ?x] =>
      change (ProcessExisting.existing_ids_of x) with (@Ok (list json) [])
  end.
  cbv iota. step.
  eapply post_mono;
    [apply (merge_loop [] [] new [ ("templates", JArr []) ] [] w); reflexivity | | auto].
  intros d1 w1 Hd1. cbv beta in Hd1 |- *. cbn [app] in Hd1. rewrite unseen_nothing in Hd1.
  step. step. unfold get at 1. rewrite Hd1. cbn [py_len].
  step. step. step. apply post_put_object; [intros _ | intros _; exact I].
  step. step. unfold subscript. rewrite !dict_get_set_ne by discriminate. rewrite Hd1.
  step. step. cbn [py_len]. step.
  eexists. split; [simpl; apply lookup_insert_eq |]. split.
  - rewrite !dict_get_set_ne by discriminate. exact Hd1.
  - rewrite !dict_get_set_ne by discriminate. rewrite dict_get_set_eq.
    rewrite length_map. reflexivity.
Qed.

End MergeTheorems.


Lemma first_index_lists_the_batch_witness :
  match ProcessExisting._update_vectors_index (host_of tree_ok) processor
          [ brief "a"; brief "c" ] empty_world with
  | (Ok _, w') =>
      exists d',
        s3 w' !! (ProcessExisting.vectors_bucket processor, INDEX_KEY) = Some (JObj d') /\
        dict_get "templates" d' = Some (JArr (map merged_entry [ brief "a"; brief "c" ])) /\
        dict_get "vectors_count" d' = Some (JInt (Z.of_nat (length [ brief "a"; brief "c" ])))
  | (Raise _, _) => True
  end.
Proof.
  apply (first_index_lists_the_batch (host_of tree_ok) processor). reflexivity.
Defined.

(* ===================================================================== *)
(** * Registry entries of the second script                              *)
(* ===================================================================== *)

Lemma post_for_each_app {A S} (xs ys : list A) (body : A -> S -> M S) (acc : S) w
    (Q : S -> World -> Prop) (E : exn -> World -> Prop) :
  post (for_each xs body acc) w (fun a w' => post (for_each ys body a) w' Q E) E ->
  post (for_each (xs ++ ys) body acc) w Q E.
Proof.
  revert acc w. induction xs as [| x xs IH]; intros acc w; simpl.
  - intros H. exact H.
  - unfold post, bind in *. destruct (body x acc w) as [[a | e] w']; [apply IH | auto].
Qed.

(** Walks through the processing of one registry entry. *)
Ltac recreated fin :=
  repeat (lazymatch goal with
          | |- post (ProcessExisting.generate_embedding _ _) _ _ _ =>
              eapply post_mono;
              [apply generate_embedding_only_logs | intros ? ? -> | intros ? ? ->]
          | |- post (bind _ _) _ _ _ => apply post_bind
          | |- post (lift (Ok _)) _ _ _ => apply post_lift
          | |- post (lift (Raise _)) _ _ _ => apply post_lift
          | |- post (lift ?r) _ _ _ => apply post_lift; cbv beta; destruct r eqn:?
          | |- post (logger _ _) _ _ _ => apply post_logger
          | |- post (ret _) _ _ _ => apply post_ret
          | |- post (utcnow_z _) _ _ _ => apply post_utcnow_z
          | |- post (try_except _ _) _ _ _ => apply post_try
          | |- post (if ?b then _ else _) _ _ _ => destruct b eqn:?
          end; cbv beta; cbn [method_get]; try solve [fin]).

Section ExistingOutcomes.
Context {rt : PyRuntime} (host : Host) (self : ProcessExisting.ExistingTemplateProcessor).


(** X11: an entry that is not an object aborts the processing of the
    registry and of the catalog of migrated sites: when the entries
    before it are objects, [process_recreated_templates] and
    [process_migrated_templates] raise [AttributeError] at that entry
    (the entry is read outside the [try]), so the records made so far are
    lost; both stores are as they were. *)
Theorem entry_that_is_no_object_aborts (before after : list json) (t : json) :
  forallb is_obj before = true ->
  is_obj t = false ->
  (forall (registry : dict) (w : World),
      get registry "templates" (JArr []) = JArr (before ++ t :: after) ->
      match ProcessExisting.process_recreated_templates host self (JObj registry) w with
      | (Raise AttributeError, w') => same_stores w w'
      | _ => False
      end) /\
  (forall (registry catalog : dict) (w : World),
      s3 w !! (ProcessExisting.FIGMA_ASSETS_BUCKET, "templates/migrated-sites-catalog.json")
      = Some (JObj catalog) ->
      dict_get "sites" catalog = Some (JArr (before ++ t :: after)) ->
      match ProcessExisting.process_migrated_templates host self (JObj registry) w with
      | (Raise AttributeError, w') => same_stores w w'
      | _ => False
      end).
Proof.
  intros Hbefore Ht. rewrite forallb_forall in Hbefore. split.
  - intros registry w Hts.
    change (post (ProcessExisting.process_recreated_templates host self (JObj registry)) w
              (fun _ _ => False)
              (fun e w' => match e with AttributeError => same_stores w w' | _ => False end)).
    unfold ProcessExisting.process_recreated_templates. cbn [method_get].
    rewrite Hts. step. step. step. step. cbn [py_iter].
    apply post_for_each_app.
    eapply post_mono with (Q := fun _ w' => same_stores w w') (E := fun _ _ => False);
      [| | intros ? ? []].
    + apply (post_for_each (fun _ w' => same_stores w w')); [| stores].
      intros x acc w1 Hx Hw1.
      specialize (Hbefore x Hx). destruct x as [| | | | | | d]; try discriminate Hbefore.
      cbn [method_get].
      recreated ltac:(stores).
    + intros acc w1 Hw1. cbv beta. cbn [for_each]. step. step. step.
      destruct t; try discriminate Ht; exact Hw1.
  - intros registry catalog w Hcat Hsites.
    change (post (ProcessExisting.process_migrated_templates host self (JObj registry)) w
              (fun _ _ => False)
              (fun e w' => match e with AttributeError => same_stores w w' | _ => False end)).
    unfold ProcessExisting.process_migrated_templates.
    step. step. apply post_get_object; [| intros Hnone; congruence].
    intros body Hbody. rewrite Hcat in Hbody. injection Hbody as <-.
    step. step. cbn [method_get]. step. step. unfold get at 1. rewrite Hsites.
    step. step. cbn [py_iter].
    apply post_for_each_app.
    eapply post_mono with (Q := fun _ w' => same_stores w w') (E := fun _ _ => False);
      [| | intros ? ? []].
    + apply (post_for_each (fun _ w' => same_stores w w')); [| stores].
      intros x acc w1 Hx Hw1.
      specialize (Hbefore x Hx). destruct x as [| | | | | | d]; try discriminate Hbefore.
      unfold ProcessExisting.process_site. cbn [method_get].
      recreated ltac:(stores).
    + intros acc w1 Hw1. cbv beta. cbn [for_each]. step.
      unfold ProcessExisting.process_site. step. step.
      destruct t; try discriminate Ht; exact Hw1.
Qed.

End ExistingOutcomes.

Lemma entry_that_is_no_object_aborts_witness :
  match ProcessExisting.process_recreated_templates (host_of tree_ok) processor
          (JObj registry_with_string) empty_world with
  | (Raise AttributeError, w') => same_stores empty_world w'
  | _ => False
  end.
Proof.
  apply (proj1 (entry_that_is_no_object_aborts (host_of tree_ok) processor
                  [ meta "a" "technology" ] [ meta "c" "technology" ] (JStr "b")
                  eq_refl eq_refl)).
  reflexivity.
Defined.

Section RecreatedFacts.
Context {rt : PyRuntime} (host : Host) (self : ProcessExisting.ExistingTemplateProcessor).

(** X12: on a registry whose [templates] are objects,
    [process_recreated_templates] never raises and leaves both stores as
    they were; every record it returns has the source "recreated", the
    status "PUBLISHED" and the [template_id] of one of the entries. *)
Theorem recreated_entries_fail_alone (registry : dict) (ts : list json) (w : World) :
  get registry "templates" (JArr []) = JArr ts ->
  forallb is_obj ts = true ->
  match ProcessExisting.process_recreated_templates host self (JObj registry) w with
  | (Ok es, w') => same_stores w w' /\ Forall (recreated_record ts) es
  | (Raise _, _) => False
  end.
Proof.
  intros Hts Hobj. rewrite forallb_forall in Hobj.
  change (post (ProcessExisting.process_recreated_templates host self (JObj registry)) w
            (fun es w' => same_stores w w' /\ Forall (recreated_record ts) es)
            (fun _ _ => False)).
  unfold ProcessExisting.process_recreated_templates. cbn [method_get].
  rewrite Hts. step. step. step. step. cbn [py_iter].
  apply (post_for_each (fun es w' => same_stores w w' /\ Forall (recreated_record ts) es));
    [| split; [stores | constructor]].
  intros x acc w1 Hx [Hw1 Hacc].
  specialize (Hobj x Hx). destruct x as [| | | | | | d]; try discriminate Hobj.
  cbn [method_get].
  recreated ltac:(split; [stores | exact Hacc]).
  split; [stores |]. apply Forall_app. split; [exact Hacc |].
  constructor; [| constructor].
  split; [reflexivity |]. split; [reflexivity |]. exists d. split; [exact Hx | reflexivity].
Qed.

End RecreatedFacts.

Lemma recreated_entries_fail_alone_witness :
  match ProcessExisting.process_recreated_templates (host_of tree_ok) processor
          (registry_of [ "a"; "b" ]) empty_world with
  | (Ok es, w') =>
      same_stores empty_world w' /\
      Forall (recreated_record [ meta "a" "technology"; meta "b" "technology" ]) es
  | (Raise _, _) => False
  end.
Proof.
  apply (recreated_entries_fail_alone (host_of tree_ok) processor
           [ ("total_templates", JInt 2);
             ("templates", JArr [ meta "a" "technology"; meta "b" "technology" ]) ]);
    reflexivity.
Defined.

Section CatalogFacts.
Context {rt : PyRuntime} (host : Host) (self : ProcessExisting.ExistingTemplateProcessor).

(** X17: when the catalog of migrated sites cannot be fetched,
    [process_migrated_templates] logs a warning and processes no site at
    all: the [migrated_sites_highlights] of the registry, which stand in
    for a catalog without [sites], are not read then. *)
Theorem highlights_are_not_read_without_catalog (registry : dict) (w : World) :
  s3 w !! (ProcessExisting.FIGMA_ASSETS_BUCKET, "templates/migrated-sites-catalog.json")
  = None ->
  ProcessExisting.process_migrated_templates host self (JObj registry) w
  = (Ok [],
     add_log (WARNING, "Could not fetch migrated sites catalog: " ++ str_exn ClientError) w).
Proof.
  intros Hnone.
  unfold ProcessExisting.process_migrated_templates, bind, try_except, get_object.
  rewrite Hnone. reflexivity.
Qed.

End CatalogFacts.

Lemma highlights_are_not_read_without_catalog_witness :
  ProcessExisting.process_migrated_templates (host_of tree_ok) processor
    (JObj [ ("migrated_sites_highlights", JArr [ site_acme ]) ]) empty_world
  = (Ok [],
     add_log (WARNING, "Could not fetch migrated sites catalog: " ++ str_exn ClientError)
       empty_world).
Proof.
  apply (highlights_are_not_read_without_catalog (host_of tree_ok) processor).
  reflexivity.
Defined.

(* ===================================================================== *)
(** * Verdicts of the validator                                          *)
(* ===================================================================== *)

Lemma no_errors_app (xs ys : list ValidateTemplate.ValidationError) :
  no_errors (xs ++ ys) = no_errors xs && no_errors ys.
Proof. unfold no_errors. rewrite existsb_app. apply negb_orb. Qed.

Section VerdictFacts.
Context {rt : PyRuntime} (host : Host).

Lemma check_enum_verdict (d : dict) (field : string) (valid : list string)
    (errors : list ValidateTemplate.ValidationError) :
  exists errors',
    ValidateTemplate.check_enum (JObj d) field valid errors = Ok errors' /\
    no_errors errors' = no_errors errors && enum_fits d field valid.
Proof.
  unfold ValidateTemplate.check_enum, enum_fits, ValidateTemplate.not_in. cbn [method_get rbind].
  destruct (truthy (get d field (JStr ""))); cbn [negb andb orb].
  - destruct (mem _ _); cbn [negb].
    + eexists. split; [reflexivity |]. rewrite andb_true_r. reflexivity.
    + eexists. split; [reflexivity |]. rewrite no_errors_app. reflexivity.
  - eexists. split; [reflexivity |]. rewrite andb_true_r. reflexivity.
Qed.

(** X13: on a metadata file that holds an object, [validate_metadata]
    returns a report, and the report is free of entries of severity
    "error" exactly when the five required fields are present and each
    of [industry], [cta_intent] and [design_style] is in its list of
    valid values or is empty or otherwise false. *)
Theorem metadata_verdict (p : path) (d : dict) :
  load_json host p = Ok (JObj d) ->
  exists errors,
    ValidateTemplate.validate_metadata host p = Ok errors /\
    no_errors errors = metadata_accepted d.
Proof.
  intros Hload. unfold ValidateTemplate.validate_metadata, metadata_accepted.
  rewrite Hload.
  set (required := fold_left _ _ _).
  assert (Hreq : exists errors0,
             required = Ok errors0 /\
             no_errors errors0
             = forallb (fun field => has_key field d)
                 [ "template_id"; "name"; "industry"; "cta_intent"; "design_style" ]).
  { subst required. cbn [fold_left ValidateTemplate.py_in rbind forallb].
    destruct (has_key "template_id" d), (has_key "name" d), (has_key "industry" d),
      (has_key "cta_intent" d), (has_key "design_style" d);
      cbn [negb rbind]; eexists; split; reflexivity. }
  destruct Hreq as (errors0 & -> & <-). cbn [rbind].
  destruct (check_enum_verdict d "industry" ValidateTemplate.VALID_INDUSTRIES errors0)
    as (e1 & -> & <-). cbn [rbind].
  destruct (check_enum_verdict d "cta_intent" ValidateTemplate.VALID_CTA_INTENTS e1)
    as (e2 & -> & <-). cbn [rbind].
  destruct (check_enum_verdict d "design_style" ValidateTemplate.VALID_DESIGN_STYLES e2)
    as (e3 & -> & <-). cbn [rbind method_get].
  eexists. split; [reflexivity |].
  destruct (negb (truthy (get d "description" JNull))),
    (negb (truthy (get d "keywords" JNull)));
    rewrite ?no_errors_app; cbn; rewrite ?andb_true_r; reflexivity.
Qed.

End VerdictFacts.

Lemma metadata_verdict_witness :
  exists errors,
    ValidateTemplate.validate_metadata (host_of tree_ok)
      [ "repo"; "technology"; "a"; "metadata.json" ] = Ok errors /\
    no_errors errors
    = metadata_accepted
        [ ("template_id", JStr "a"); ("name", JStr "a"); ("industry", JStr "technology");
          ("cta_intent", JStr "contact"); ("design_style", JStr "modern") ].
Proof.
  apply (metadata_verdict (host_of tree_ok) [ "repo"; "technology"; "a"; "metadata.json" ]).
  reflexivity.
Defined.

Lemma py_iter_ok (x : json) (items : list json) :
  py_iter x = Ok items -> strings_only items = joinable x.
Proof.
  destruct x; simpl; try discriminate; intros [= <-]; try reflexivity.
  - induction (chars s) as [| c l IH]; [reflexivity | exact IH].
  - induction kvs as [| kv l IH]; [reflexivity | exact IH].
Qed.

Lemma py_iter_raises (x : json) (e : exn) : py_iter x = Raise e -> joinable x = false.
Proof. destruct x; simpl; try discriminate; reflexivity. Qed.

Section ConfigFacts.
Context {rt : PyRuntime} (host : Host).

(** X14: on a configuration file that holds an object,
    [validate_template_config] returns a report exactly when the
    [template_id] is a string (or absent, empty or otherwise false) and
    the [placeholders], if present, are a list of strings, a string or an
    object; a report it returns is free of entries of severity "error"
    exactly when [template_id] and [name] are present and the
    [template_id], unless empty, matches [[a-z0-9-]+] up to a final line
    feed. *)
Theorem config_verdict (p : path) (d : dict) :
  load_json host p = Ok (JObj d) ->
  is_ok (ValidateTemplate.validate_template_config host p) = config_checkable d /\
  (forall errors,
      ValidateTemplate.validate_template_config host p = Ok errors ->
      no_errors errors = config_accepted d).
Proof.
  intros Hload. unfold ValidateTemplate.validate_template_config, config_checkable, config_accepted.
  rewrite Hload.
  set (required := fold_left _ [ "template_id"; "name" ] _).
  assert (Hreq : exists errors0,
             required = Ok errors0 /\
             no_errors errors0 = has_key "template_id" d && has_key "name" d).
  { subst required. cbn [fold_left ValidateTemplate.py_in rbind].
    destruct (has_key "template_id" d), (has_key "name" d);
      cbn [negb rbind]; eexists; split; reflexivity. }
  destruct Hreq as (errors0 & -> & <-). cbn [rbind method_get ValidateTemplate.py_in].
  set (id := get d "template_id" (JStr "")).
  match goal with
  | |- context [fold_left ?f _ _] => set (body := f)
  end.
  assert (Hstr : forall errs s, exists errs1,
             body (Ok errs) (JStr s) = Ok errs1 /\ no_errors errs1 = no_errors errs).
  { intros errs s. unfold body. cbn [rbind ValidateTemplate.startswith ValidateTemplate.endswith].
    destruct (String.prefix "{{" s); cbn [negb rbind];
      [destruct (ValidateTemplate.str_endswith "}}" s); cbn [negb rbind] |];
      eexists; (split; [reflexivity |]); rewrite ?no_errors_app; cbn;
      rewrite ?andb_true_r; reflexivity. }
  assert (Hother : forall errs x, is_str x = false -> is_ok (body (Ok errs) x) = false).
  { intros errs x Hx. destruct x; try discriminate Hx; reflexivity. }
  assert (Hraise : forall e x, body (Raise e) x = Raise e) by reflexivity.
  assert (Hfold : forall items acc,
             is_ok (fold_left body items acc) = is_ok acc && strings_only items /\
             forall errs errs',
               acc = Ok errs -> fold_left body items acc = Ok errs' ->
               no_errors errs' = no_errors errs).
  { clearbody body. induction items as [| x items IH]; intros acc.
    - simpl. rewrite andb_true_r. split; [reflexivity |].
      intros errs errs' -> [= <-]. reflexivity.
    - cbn [fold_left strings_only forallb]. fold (strings_only items).
      destruct (IH (body acc x)) as [IH1 IH2]. rewrite IH1.
      destruct acc as [errs | e].
      + destruct (is_str x) eqn:Hx.
        * destruct x; try discriminate Hx.
          destruct (Hstr errs s) as (errs1 & Hb & Hn). rewrite Hb in *.
          split; [reflexivity |]. intros errs0 errs' [= <-] H.
          rewrite <- Hn. apply (IH2 _ _ eq_refl H).
        * rewrite (Hother errs x Hx). split; [reflexivity |].
          intros errs0 errs' _ H. pose proof (f_equal is_ok H) as H'.
          rewrite IH1, (Hother errs x Hx) in H'. discriminate H'.
      + rewrite Hraise. split; [reflexivity | discriminate]. }
  clearbody body. clear Hstr Hother Hraise.
  set (stage := if truthy id then _ else _).
  assert (Hstage :
            is_ok stage = negb (truthy id) || is_str id /\
            forall errs1, stage = Ok errs1 ->
                          no_errors errs1
                          = no_errors errors0
                            && (negb (truthy id)
                                || match ValidateTemplate.re_match_id id with
                                   | Ok matched => matched
                                   | Raise _ => false
                                   end)).
  { subst stage. destruct (truthy id); cbn [negb orb].
    - destruct id as [| | | | [| c s] | |]; cbn [ValidateTemplate.re_match_id rbind is_str is_ok];
        try (split; [reflexivity | discriminate]).
      + split; [reflexivity |]. intros errs1 [= <-]. rewrite no_errors_app. reflexivity.
      + destruct (ValidateTemplate.id_char c && ValidateTemplate.id_rest s); cbn [negb];
          (split; [reflexivity |]); intros errs1 [= <-].
        * rewrite andb_true_r. reflexivity.
        * rewrite no_errors_app. reflexivity.
    - split; [reflexivity |]. intros errs1 [= <-]. rewrite andb_true_r. reflexivity. }
  destruct Hstage as [Hs1 Hs2]. rewrite <- Hs1.
  destruct stage as [errs1 | e]; [| split; [reflexivity | discriminate]].
  cbn [rbind is_ok andb]. rewrite <- (Hs2 errs1 eq_refl).
  unfold has_key, getitem, subscript.
  destruct (dict_get "placeholders" d) as [v |]; [| split; [reflexivity |]; congruence].
  cbn [rbind]. destruct (py_iter v) as [items | e] eqn:Hv.
  - cbn [rbind]. destruct (Hfold items (Ok errs1)) as [H1 H2].
    rewrite H1, (py_iter_ok _ _ Hv). split; [reflexivity |].
    intros errors H. apply (H2 _ _ eq_refl H).
  - cbn [rbind is_ok]. rewrite (py_iter_raises _ _ Hv). split; [reflexivity | discriminate].
Qed.
End ConfigFacts.

Lemma config_verdict_witness :
  is_ok (ValidateTemplate.validate_template_config (host_of tree_list)
           [ "repo"; "technology"; "a"; "template-config.json" ])
  = config_checkable config_a /\
  (forall errors,
      ValidateTemplate.validate_template_config (host_of tree_list)
        [ "repo"; "technology"; "a"; "template-config.json" ] = Ok errors ->
      no_errors errors = config_accepted config_a).
Proof.
  apply (config_verdict (host_of tree_list)
           [ "repo"; "technology"; "a"; "template-config.json" ] config_a).
  reflexivity.
Defined.

Section ObjectFacts.
Context {rt : PyRuntime} (host : Host).

(** X15: on a file that holds JSON other than an object,
    [validate_metadata] and [validate_template_config] return no report
    but raise: [AttributeError] on a list or a string, [TypeError] on a
    number, a truth value or [null]. *)
Theorem validators_need_an_object (p : path) (content : json) :
  load_json host p = Ok content ->
  is_obj content = false ->
  ValidateTemplate.validate_metadata host p = Raise (not_an_object content) /\
  ValidateTemplate.validate_template_config host p = Raise (not_an_object content).
Proof.
  intros Hload Hobj.
  unfold ValidateTemplate.validate_metadata, ValidateTemplate.validate_template_config.
  rewrite Hload.
  destruct content as [| | | | s | l |]; try discriminate Hobj;
    try (split; reflexivity);
    cbn [fold_left ValidateTemplate.py_in rbind not_an_object].
  - split.
    + destruct (contains "template_id" s), (contains "name" s), (contains "industry" s),
        (contains "cta_intent" s), (contains "design_style" s); reflexivity.
    + destruct (contains "template_id" s), (contains "name" s); reflexivity.
  - split.
    + destruct (mem (JStr "template_id") l), (mem (JStr "name") l),
        (mem (JStr "industry") l), (mem (JStr "cta_intent") l),
        (mem (JStr "design_style") l); reflexivity.
    + destruct (mem (JStr "template_id") l), (mem (JStr "name") l); reflexivity.
Qed.

End ObjectFacts.

Lemma validators_need_an_object_witness :
  ValidateTemplate.validate_metadata (host_of tree_list)
    [ "repo"; "technology"; "a"; "metadata.json" ] = Raise AttributeError /\
  ValidateTemplate.validate_template_config (host_of tree_list)
    [ "repo"; "technology"; "a"; "metadata.json" ] = Raise AttributeError.
Proof.
  apply (validators_need_an_object (host_of tree_list)
           [ "repo"; "technology"; "a"; "metadata.json" ] (JArr [ JStr "a" ]));
    reflexivity.
Defined.

(* ===================================================================== *)
(** * Templates found by the validator                                   *)
(* ===================================================================== *)

Lemma path_name_child (p : path) (n : string) : path_name (p ++ [ n ])%list = n.
Proof. unfold path_name. apply last_last. Qed.

Lemma generator_industries_are_valid (industry : string) :
  In industry GenerateEmbeddings.VALID_INDUSTRIES ->
  ValidateTemplate.str_in industry ValidateTemplate.VALID_INDUSTRIES = true.
Proof.
  intros Hin. unfold GenerateEmbeddings.VALID_INDUSTRIES in Hin.
  repeat (destruct Hin as [<- | Hin]; [reflexivity |]). destruct Hin.
Qed.

Section CoverageFacts.
Context {rt : PyRuntime} (host : Host).

Lemma iterdir_is_dir (p : path) (dirs : list path) :
  iterdir host p = Ok dirs -> is_dir host p = true.
Proof.
  unfold iterdir, is_dir. destruct (files host !! p) as [[entries | ?] |];
    [reflexivity | discriminate | discriminate].
Qed.

Lemma find_all_templates_complete (base : path) (templates : list path)
    (industry : string) (bdirs tdirs : list path) (x : path) :
  ValidateTemplate.find_all_templates host base = Ok templates ->
  iterdir host base = Ok bdirs ->
  In (base ++ [ industry ])%list bdirs ->
  ValidateTemplate.str_in industry ValidateTemplate.VALID_INDUSTRIES = true ->
  iterdir host (base ++ [ industry ])%list = Ok tdirs ->
  In x tdirs ->
  is_dir host x && negb (String.prefix "." (path_name x)) = true ->
  In x templates.
Proof.
  intros Hfind Hbase Hind Hvalid Hdir Hx Hcx.
  unfold ValidateTemplate.find_all_templates in Hfind. rewrite Hbase in Hfind.
  cbn [rbind] in Hfind.
  match type of Hfind with
  | fold_left ?f _ _ = _ => set (outer := f) in Hfind
  end.
  set (inner := fun (templates : list path) (template_dir : path) =>
                  if is_dir host template_dir
                     && negb (String.prefix "." (path_name template_dir))
                  then (templates ++ [ template_dir ])%list
                  else templates).
  assert (Hinner : forall dirs ts,
             (forall x, In x ts -> In x (fold_left inner dirs ts)) /\
             (forall x, In x dirs ->
                        is_dir host x && negb (String.prefix "." (path_name x)) = true ->
                        In x (fold_left inner dirs ts))).
  { clear. induction dirs as [| x dirs IH]; intros ts; cbn [fold_left].
    - split; [auto | intros x []].
    - destruct (IH (inner ts x)) as [IH1 IH2]. split.
      + intros y Hy. apply IH1. unfold inner.
        destruct (_ && _); [apply in_or_app; left |]; exact Hy.
      + intros y [<- | Hy] Hc; [| apply IH2; assumption].
        apply IH1. unfold inner. rewrite Hc. apply in_or_app. right. left. reflexivity. }
  assert (Houter : forall idirs acc res,
             fold_left outer idirs acc = Ok res ->
             exists ts, acc = Ok ts /\
               (forall x, In x ts -> In x res) /\
               (forall idir, In idir idirs ->
                  is_dir host idir
                  && ValidateTemplate.str_in (path_name idir) ValidateTemplate.VALID_INDUSTRIES = true ->
                  forall tdirs, iterdir host idir = Ok tdirs ->
                  forall x, In x tdirs ->
                    is_dir host x && negb (String.prefix "." (path_name x)) = true ->
                    In x res)).
  { clear - Hinner. induction idirs as [| idir idirs IH]; intros acc res; cbn [fold_left].
    - intros ->. exists res. split; [reflexivity |]. split; [auto | intros idir []].
    - intros Hres. destruct (IH _ _ Hres) as (ts1 & Hts1 & Hmono & Hall).
      destruct acc as [ts | e];
        [| unfold outer in Hts1; cbn [rbind] in Hts1; discriminate Hts1].
      exists ts. split; [reflexivity |].
      unfold outer in Hts1 at 1. cbn [rbind] in Hts1.
      destruct (is_dir host idir
                && ValidateTemplate.str_in (path_name idir) ValidateTemplate.VALID_INDUSTRIES) eqn:Hc.
      + destruct (iterdir host idir) as [tdirs | e] eqn:Htd;
          [| cbn [rbind] in Hts1; discriminate Hts1].
        cbn [rbind] in Hts1. injection Hts1 as <-.
        fold inner in Hmono, Hall |- *.
        split.
        * intros x Hx. apply Hmono. apply (proj1 (Hinner tdirs ts)). exact Hx.
        * intros idir' [<- | Hin] Hc' tdirs' Htd' x Hx Hcx.
          -- rewrite Htd in Htd'. injection Htd' as <-.
             apply Hmono. apply (proj2 (Hinner tdirs ts)); assumption.
          -- eapply Hall; eassumption.
      + injection Hts1 as <-. split; [exact Hmono |].
        intros idir' [<- | Hin] Hc' tdirs' Htd' x Hx Hcx; [congruence |].
        eapply Hall; eassumption. }
  destruct (Houter _ _ _ Hfind) as (ts & _ & _ & Hall).
  apply (Hall (base ++ [ industry ])%list) with (tdirs := tdirs); try assumption.
  rewrite path_name_child, Hvalid, (iterdir_is_dir _ _ Hdir). reflexivity.
Qed.

(** X16: when the base directory lists the entries that exist below
    it, every record that a full run of [process_all_templates] collects
    is the record of a template directory that [find_all_templates] of
    the validator returns: what is indexed is among what
    [validate_template.py --all] checks. *)
Theorem indexed_templates_are_found_by_the_validator
    (self : GenerateEmbeddings.EmbeddingGenerator) (base : path)
    (templates : list path) (w : World) :
  lists_its_entries host base ->
  ValidateTemplate.find_all_templates host base = Ok templates ->
  match GenerateEmbeddings.process_all_templates host self base w with
  | (Ok es, _) => Forall (record_of_some templates) es
  | (Raise _, _) => True
  end.
Proof.
  intros Hlists Hfind.
  change (post (GenerateEmbeddings.process_all_templates host self base) w
            (fun es _ => Forall (record_of_some templates) es) (fun _ _ => True)).
  unfold GenerateEmbeddings.process_all_templates.
  step.
  eapply post_mono with (Q := fun es _ => Forall (record_of_some templates) es)
                        (E := fun _ _ => True); [| | auto].
  - apply (post_for_each (fun es _ => Forall (record_of_some templates) es));
      [| constructor].
    intros industry es w1 Hindustry Hes.
    step; [step; exact Hes |].
    rewrite negb_false_iff in Heqb. destruct (Hlists industry Heqb) as (bdirs & Hbase & Hin).
    step. step.
    destruct (iterdir host (base ++ [ industry ])%list) as [tdirs | ?] eqn:Hdir;
      [| exact I].
    apply (post_for_each (fun es _ => Forall (record_of_some templates) es)); [| exact Hes].
    clear dependent es. clear w1. intros dir es w1 Hdir' Hes.
    step; [step; exact Hes |].
    step. eapply post_mono; [apply process_template_post | | intros ? ? []].
    intros r w2 [_ Hr]. cbv beta. step.
    unfold GenerateEmbeddings.keep. destruct r as [d |]; [| exact Hes].
    destruct (truthy (JObj d)); [| exact Hes].
    apply Forall_app. split; [exact Hes |]. constructor; [| constructor].
    exists dir. split.
    + eapply find_all_templates_complete; try eassumption.
      * apply generator_industries_are_valid. exact Hindustry.
      * apply orb_false_iff in Heqb0 as [Hisdir Hdot]. rewrite negb_false_iff in Hisdir.
        rewrite Hisdir, Hdot. reflexivity.
    + destruct (Hr d eq_refl) as (md & _ & _ & _ & _ & Hpath & _). exact Hpath.
  - intros es w1 Hes. cbv beta. step. step. step. exact Hes.
Qed.

End CoverageFacts.

Lemma tree_ok_lists_its_entries : lists_its_entries (host_of tree_ok) base_path.
Proof.
  intros n Hn. eexists. split; [reflexivity |].
  unfold exists_ in Hn.
  match type of Hn with
  | match ?t with _ => _ end = _ => destruct t eqn:Hf; [| discriminate Hn]
  end.
  clear Hn. unfold host_of, tree_ok, tree_abc, base_path in Hf. cbn [files list_to_map foldr app curry fst snd] in Hf.
  rewrite lookup_insert_ne in Hf by discriminate.
  repeat (rewrite lookup_insert_ne in Hf by discriminate).
  change (In [ "repo"; n ] [ [ "repo"; "technology" ]; [ "repo"; "scripts" ] ]).
  destruct (decide (n = "technology")) as [-> | H1]; [left; reflexivity |].
  exfalso.
  rewrite lookup_insert_ne in Hf by congruence.
  repeat (rewrite lookup_insert_ne in Hf by discriminate).
  rewrite lookup_empty in Hf. discriminate Hf.
Defined.

Lemma indexed_templates_are_found_by_the_validator_witness :
  match GenerateEmbeddings.process_all_templates (host_of tree_ok) generator base_path
          empty_world with
  | (Ok es, _) =>
      Forall (record_of_some [ [ "repo"; "technology"; "a" ]; [ "repo"; "technology"; "b" ];
                               [ "repo"; "technology"; "c" ] ]) es
  | (Raise _, _) => True
  end.
Proof.
  apply (indexed_templates_are_found_by_the_validator (host_of tree_ok) generator
           base_path).
  - exact tree_ok_lists_its_entries.
  - reflexivity.
Defined.
(* ===================================================================== *)
(** * Writes are not caught; running twice                                *)
(* ===================================================================== *)

Section WritesOfARun.
Context {rt : PyRuntime} (host : Host) (self : GenerateEmbeddings.EmbeddingGenerator).

(** A full run collects the records of the indexable candidates and
    then completes exactly when every write for them is accepted. *)
Lemma gen_main_writes (base : path) (cands : list path) (w : World) :
  candidates host base = Ok cands ->
  post (GenerateEmbeddings.main host self base None) w
       (fun _ _ =>
          exists es,
            records_of es (List.filter (indexable host self) cands) /\
            writes_accepted host self es)
       (fun e _ =>
          exists es,
            records_of es (List.filter (indexable host self) cands) /\
            (es = [] /\ e = SystemExit 0 \/ es <> [] /\ write_failed host self es e)).
Proof.
  intros Hc. unfold GenerateEmbeddings.main. step. apply gen_init_logs. intros w0 Hw0. step.
  eapply post_mono;
    [apply post_both;
       [apply (process_all_templates_isolated host self base cands w0 Hc)
       | apply (process_all_templates_post host self base w0)] | |].
  - intros es w1 [[_ Hes] [_ Hfrom]]. cbv beta.
    destruct es as [| d es'].
    + step. step. step. exists []. split; [exact Hes | left; split; reflexivity].
    + assert (Hcomplete : Forall complete (d :: es'))
        by (eapply Forall_impl; [exact Hfrom |]; apply from_checkout_complete).
      eapply post_mono; [apply gen_saves_accepted; exact Hcomplete | |].
      * intros u w3 Hacc. exists (d :: es'). split; [exact Hes | exact Hacc].
      * intros e w3 Hfail. exists (d :: es'). split; [exact Hes |].
        right. split; [discriminate | exact Hfail].
  - intros e w1 [[] _].
Qed.

(** Whatever it was asked to index, a run that completes has collected
    records from the checkout, at least one, and upserted them by their
    identifiers. *)
Lemma gen_main_upserts (base : path) (template : option path) (w : World) :
  post (GenerateEmbeddings.main host self base template) w
       (fun _ w' =>
          exists es, es <> [] /\ Forall (from_checkout host) es /\
                     upserted_by_id self es w w')
       (fun _ _ => True).
Proof.
  unfold GenerateEmbeddings.main. step. apply gen_init_logs. intros w0 Hw0. step.
  eapply post_mono with
    (Q := fun es w1 => same_stores w w1 /\ Forall (from_checkout host) es)
    (E := fun _ _ => True).
  - destruct template as [t |].
    + step; [step; step; step; exact I |].
      step. eapply post_mono; [apply process_template_post | | intros ? ? []].
      intros r w1 [Hw1 Hr]. cbv beta. step. split; [stores |].
      eapply keep_from_checkout; [exact Hr | constructor].
    + eapply post_mono; [apply process_all_templates_post | | auto].
      intros es w1 [Hw1 Hes]. split; [stores | exact Hes].
  - intros es w1 [[Hs3 Hdb] Hes]. cbv beta.
    destruct es as [| d0 es']; [step; step; step; exact I |].
    set (es := d0 :: es') in *. step.
    eapply post_mono;
      [apply post_both;
         [apply (gen_save_to_s3_vectors_stores host self es w1)
         | apply (gen_save_to_s3_vectors_since host self es w w1);
           apply vectors_since_start; exact Hs3] | | auto].
    intros u2 w2 [Hvec [Hsince Hdb2]]. cbv beta in Hvec, Hsince, Hdb2 |- *.
    eapply post_mono;
      [apply post_both;
         [apply (gen_save_to_dynamodb_stores host self es w2)
         | apply (gen_save_to_dynamodb_keyed host self es w w2);
           apply keyed_since_start; rewrite Hdb2; exact Hdb] | | auto].
    intros u3 w3 [[Hs3' Hitem] [Hkeyed _]]. cbv beta in Hs3', Hitem, Hkeyed |- *.
    assert (Hvs : vectors_since (GenerateEmbeddings.vectors_bucket self) w w3)
      by (eapply vectors_since_same; [exact Hsince | exact Hs3']).
    exists es. split; [discriminate |]. split; [exact Hes |].
    split; [exact Hvs |]. split; [exact Hkeyed |].
    split; [apply vectors_since_one_per_id; exact Hvs |].
    split; [eapply keyed_since_one_per_id; exact Hkeyed |].
    intros d Hd. split; [| apply Hitem; exact Hd].
    intros Hk. destruct (Hvec d Hd Hk) as (d' & doc & Hin & Hk' & Hdoc & Hrest).
    exists d', doc. rewrite Hs3'. auto.
  - auto.
Qed.



End WritesOfARun.


